(** * zain_center: currency conversion, invoice generation, cascade
      deletion, the daily rate gate and the persistence gateway.

    A shallow embedding of the bookkeeping logic of the application page
    and of [lib/db.ts].

    Numbers.  The source computes on JavaScript numbers.  Amounts and the
    exchange rate are taken here as exact rationals in canonical form
    ([Qc]), so that [===] on numbers is Leibniz equality and the
    arithmetic laws hold exactly; for them the non-finite values (NaN,
    the infinities) are outside this model, hence the only falsy rate is
    [0].  The stamp of the rate refresh is read from a text, so it is a
    number that may be NaN or infinite ([JSNum]).

    Strings are [string]; the [Map] built by [unitsById] is a
    [gmap string Unit]; arrays are lists.

    Effects.  State updates of the page ([setData (d => ...)]) are
    functions on [AppData].  Code that talks to the store, to the rate
    provider or to [localStorage] runs in a small state-and-exception
    monad over a [World] record; an [async] function that rejects is a
    computation that throws.  The two effects of the page that matter
    across renders and awaits, the daily refresh of the rate and the
    persisting of the state, are given answer by answer, as events of a
    page with runs under way.  [Math.random()], [Date.now()],
    [Number(text)], [JSON.stringify], [JSON.parse] and what the browser
    lets the page do with [localStorage] are arguments. *)

From Stdlib Require Import QArith Qcanon ZArith String Ascii List.
From Stdlib Require Import DecimalString DecimalPos DecimalZ.
From stdpp Require Import base decidable option list strings gmap fin_maps.

Local Open Scope Qc_scope.

(** ** Data model (the [type] declarations of the page) *)

Inductive Currency := JOD | ILS.
Inductive UnitKind := apartment | shop.
Inductive UtilityType := water | electricity.
Inductive Scope := monthly | yearly.

Global Instance Currency_eq_dec : EqDecision Currency.
Proof. solve_decision. Defined.
Global Instance UnitKind_eq_dec : EqDecision UnitKind.
Proof. solve_decision. Defined.
Global Instance Scope_eq_dec : EqDecision Scope.
Proof. solve_decision. Defined.

Record Settings := mkSettings {
  baseCurrency : Currency;
  jodToIlsRate : Qc
}.

Record Unit := mkUnit {
  unit_id : string;
  unit_name : string;
  kind : UnitKind;
  rentAmount : Qc;
  rentCurrency : Currency
}.

Record Tenant := mkTenant {
  tenant_id : string;
  tenant_name : string;
  phone : option string;
  tenant_unitId : string;
  startDate : string;
  active : bool
}.

Record UtilityCharge := mkUtilityCharge {
  util_id : string;
  util_unitId : string;
  util_period : string;
  util_type : UtilityType;
  util_amount : Qc;
  util_currency : Currency
}.

Record Invoice := mkInvoice {
  inv_id : string;
  inv_unitId : string;
  inv_tenantId : string;
  inv_period : string;
  inv_scope : Scope;
  rentBase : Qc;
  utilitiesBase : Qc;
  totalBase : Qc
}.

Record Payment := mkPayment {
  pay_id : string;
  pay_tenantId : string;
  pay_unitId : string;
  pay_date : string;
  pay_amount : Qc;
  pay_currency : Currency;
  pay_period : option string;
  pay_note : option string
}.

Record AppData := mkAppData {
  settings : Settings;
  units : list Unit;
  tenants : list Tenant;
  utilities : list UtilityCharge;
  invoices : list Invoice;
  payments : list Payment
}.

(** ** Currency converter *)

(** [x || d] on numbers: the left operand unless it is falsy. *)
Definition num_or (x d : Qc) : Qc := if decide (x = 0) then d else x.

Definition convertToBase (amount : Qc) (from : Currency) (s : Settings) : Qc :=
  let rate := num_or (jodToIlsRate s) (Qc_of_Z 5) in
  if decide (baseCurrency s = JOD) then
    (if decide (from = JOD) then amount else amount / rate)
  else
    (* base ILS *)
    (if decide (from = ILS) then amount else amount * rate).

(** The rate the converter works with: the stored one unless it is
    falsy, then 5. *)
Definition rateOf (r : Qc) : Qc := num_or r (Qc_of_Z 5).

(** ** Strings: [slice(0, n)] and [startsWith] *)

(** [s.slice(0, n)]: the first [n] characters, the whole string when it
    is shorter. *)
Fixpoint slice0 (n : nat) (s : string) : string :=
  match n, s with
  | O, _ => EmptyString
  | S _, EmptyString => EmptyString
  | S n', String c s' => String c (slice0 n' s')
  end.

(** [s.startsWith(p)] *)
Fixpoint startsWith (s p : string) {struct p} : bool :=
  match p, s with
  | EmptyString, _ => true
  | String _ _, EmptyString => false
  | String a p', String b s' => if Ascii.eqb a b then startsWith s' p' else false
  end.

(** ** Identifiers *)

(** [uid(prefix)]: the prefix, an underscore and the eight base-36
    characters drawn from [Math.random()], here the argument [r]. *)
Definition uid (prefix r : string) : string := prefix +:+ "_" +:+ r.

(** ** Derived index of the page: [unitsById]

    [forEach] with [Map.set]: a later unit with the same id overwrites an
    earlier one. *)
Definition unitsById (us : list Unit) : gmap string Unit :=
  foldl (fun m u => <[unit_id u := u]> m) ∅ us.

(** ** Units tab: [removeUnit], the local state update

    The remote [dbDeleteUnit(id)] that follows it deletes the unit row
    only and leaves this state as it is. *)

Definition removeUnit (id : string) (d : AppData) : AppData :=
  {| settings := settings d;
     units := List.filter (fun u => negb (String.eqb (unit_id u) id)) (units d);
     tenants := List.filter (fun t => negb (String.eqb (tenant_unitId t) id)) (tenants d);
     utilities := List.filter (fun u => negb (String.eqb (util_unitId u) id)) (utilities d);
     invoices := List.filter (fun i => negb (String.eqb (inv_unitId i) id)) (invoices d);
     payments := List.filter (fun p => negb (String.eqb (pay_unitId p) id)) (payments d) |}.

(** ** Invoices tab *)

Section InvoicesTab.
(** The props of the component and its local state. *)
Variable data : AppData.
Variable byId : gmap string Unit.
Variable stg : Settings.
Variable scope : Scope.
Variable period : string.
(** [""] is "all tenants". *)
Variable tenantFilter : string.

Definition eligibleFilter (t : Tenant) : bool :=
  match byId !! tenant_unitId t with
  | None => false
  | Some unit =>
      if bool_decide (scope = monthly) && negb (bool_decide (kind unit = apartment))
      then false
      else if bool_decide (scope = yearly) && negb (bool_decide (kind unit = shop))
      then false
      else true
  end.

Definition eligibleTenants : list Tenant :=
  let list := List.filter (fun t => active t) (tenants data) in
  let filtered := List.filter eligibleFilter list in
  if negb (String.eqb tenantFilter "")
  then List.filter (fun t => String.eqb (tenant_id t) tenantFilter) filtered
  else filtered.

Definition periodFilter (periodStr : string) (scopeSel : Scope)
    (u : UtilityCharge) : bool :=
  if bool_decide (scopeSel = monthly) then String.eqb (util_period u) periodStr
  else
    (* yearly: match year *)
    let year := slice0 4 periodStr in
    startsWith (util_period u) year.

(** The charges that reach the [reduce]. *)
Definition matchingUtilities (unitId periodStr : string) (scopeSel : Scope)
    : list UtilityCharge :=
  List.filter (periodFilter periodStr scopeSel)
    (List.filter (fun u => String.eqb (util_unitId u) unitId) (utilities data)).

Definition sumUtilitiesBase (unitId periodStr : string) (scopeSel : Scope) : Qc :=
  foldl (fun acc u => acc + convertToBase (util_amount u) (util_currency u) stg)
    0 (matchingUtilities unitId periodStr scopeSel).

(** The callback of [tenants.map]; [None] is the [TypeError] raised when
    the asserted lookup yields [undefined] and its field is read. *)
Definition invoiceFor (r : string) (t : Tenant) : option Invoice :=
  match byId !! tenant_unitId t with
  | None => None
  | Some unit =>
      let scopePeriod :=
        if bool_decide (scope = monthly) then period else slice0 4 period in
      let rentBase :=
        convertToBase (rentAmount unit) (rentCurrency unit) stg
        * (if bool_decide (scope = yearly) then 1 else 1) in
      let utilitiesBase := sumUtilitiesBase (unit_id unit) period scope in
      let totalBase := rentBase + utilitiesBase in
      Some {| inv_id := uid "inv" r;
              inv_unitId := unit_id unit;
              inv_tenantId := tenant_id t;
              inv_period := scopePeriod;
              inv_scope := scope;
              rentBase := rentBase;
              utilitiesBase := utilitiesBase;
              totalBase := totalBase |}
  end.

(** [tenants.map(...)], the [i]-th call drawing [rnd i]; the first
    failing call aborts the whole map. *)
Fixpoint mapInvoices (rnd : nat -> string) (i : nat) (ts : list Tenant)
    : option (list Invoice) :=
  match ts with
  | [] => Some []
  | t :: ts' =>
      match invoiceFor (rnd i) t with
      | None => None
      | Some inv =>
          match mapInvoices rnd (S i) ts' with
          | None => None
          | Some rest => Some (inv :: rest)
          end
      end
  end.

Definition newInvoices (rnd : nat -> string) : option (list Invoice) :=
  mapInvoices rnd 0 eligibleTenants.

(** [generateInvoices], up to the state update: the new snapshot, or
    [None] when the map raised.  The remote inserts that follow, one
    [dbInsertInvoice] per new invoice, do not touch the snapshot. *)
Definition generateInvoices (rnd : nat -> string) : option AppData :=
  match newInvoices rnd with
  | None => None
  | Some invs =>
      Some {| settings := settings data;
              units := units data;
              tenants := tenants data;
              utilities := utilities data;
              invoices := invs ++ invoices data;
              payments := payments data |}
  end.
End InvoicesTab.

(** The tab as the page renders it: [unitsById] is the memo over
    [data.units] and [settings] is [data.settings]. *)
Definition page_eligibleTenants (d : AppData) :=
  eligibleTenants d (unitsById (units d)).
Definition page_newInvoices (d : AppData) :=
  newInvoices d (unitsById (units d)) (settings d).
Definition page_generateInvoices (d : AppData) :=
  generateInvoices d (unitsById (units d)) (settings d).

(** ** The outside world of the page and of [lib/db.ts]

    Remote rows carry the same fields as the records above under
    snake-case names, so the records are reused as row payloads; the
    [updated_at] stamp of the settings row is left out. *)

Inductive Error :=
| MissingSupabaseEnv          (* "Missing Supabase env vars. ..." *)
| NotSignedIn                 (* the error of [getCurrentUserId] *)
| StoreError (msg : string)   (* the [error] answered by the store *)
| MissingRateKey
| RateFetchFailed
| RateInvalid
| NetworkFailure.

Inductive Table := t_settings | t_units | t_tenants | t_utilities | t_invoices | t_payments.

Inductive Row :=
| R_settings (base : Currency) (rate : Qc)
| R_unit (u : Unit)
| R_tenant (t : Tenant)
| R_utility (c : UtilityCharge)
| R_invoice (i : Invoice)
| R_payment (p : Payment).

(** A write sent to the store, with the owner it is scoped by. *)
Inductive Request :=
| ReqUpsert (tbl : Table) (owner : string) (row : Row)
| ReqInsert (tbl : Table) (owner : string) (row : Row)
| ReqUpdateActive (tbl : Table) (id owner : string) (act : bool)
| ReqDelete (tbl : Table) (id owner : string).

(** What the rate provider answers to the one HTTP call. *)
Inductive RateResponse :=
| RespUnreachable
| RespNotOk
| RespRate (r : Qc)
| RespMalformed.

Record World := mkWorld {
  env_supabase : bool;      (* both store variables are set *)
  cached : bool;            (* the module variable [cached] is non-null *)
  auth_user : option string;(* [data.user?.id] answered by [auth.getUser()] *)
  store_answer : Request -> option string;  (* the [error] field answered *)
  sent : list Request;      (* writes sent to the store, latest first *)
  env_rate_key : bool;      (* the provider key is set *)
  rate_response : RateResponse;
  rate_calls : nat;         (* HTTP calls made to the provider *)
  localStorage : gmap string string;
  app : AppData             (* the React state [data] *)
}.

Definition set_cached (b : bool) (w : World) : World :=
  mkWorld (env_supabase w) b (auth_user w) (store_answer w) (sent w)
    (env_rate_key w) (rate_response w) (rate_calls w) (localStorage w) (app w).
Definition set_sent (l : list Request) (w : World) : World :=
  mkWorld (env_supabase w) (cached w) (auth_user w) (store_answer w) l
    (env_rate_key w) (rate_response w) (rate_calls w) (localStorage w) (app w).
Definition set_rate_calls (n : nat) (w : World) : World :=
  mkWorld (env_supabase w) (cached w) (auth_user w) (store_answer w) (sent w)
    (env_rate_key w) (rate_response w) n (localStorage w) (app w).
Definition set_localStorage (m : gmap string string) (w : World) : World :=
  mkWorld (env_supabase w) (cached w) (auth_user w) (store_answer w) (sent w)
    (env_rate_key w) (rate_response w) (rate_calls w) m (app w).
Definition set_app (d : AppData) (w : World) : World :=
  mkWorld (env_supabase w) (cached w) (auth_user w) (store_answer w) (sent w)
    (env_rate_key w) (rate_response w) (rate_calls w) (localStorage w) d.

(** *** Computations that may throw *)

Inductive Result (A : Type) :=
| Ok (a : A)
| Throw (e : Error).
Arguments Ok {A} a.
Arguments Throw {A} e.

Definition M (A : Type) : Type := World -> Result A * World.

Definition ret {A} (a : A) : M A := fun w => (Ok a, w).
Definition throw {A} (e : Error) : M A := fun w => (Throw e, w).
Definition bind {A B} (m : M A) (k : A -> M B) : M B :=
  fun w => match m w with
           | (Ok a, w') => k a w'
           | (Throw e, w') => (Throw e, w')
           end.
(** [try { m } catch {}] *)
Definition try_ignore {A} (m : M A) : M unit :=
  fun w => match m w with
           | (_, w') => (Ok tt, w')
           end.

Declare Scope js_scope.
Delimit Scope js_scope with js.
Notation "'let*' x := m 'in' k" := (bind m (fun x => k))
  (at level 10, x name, m at level 100, k at level 200) : js_scope.
Notation "m ;;; k" := (bind m (fun _ => k))
  (at level 100, k at level 200, right associativity) : js_scope.
Local Open Scope js_scope.

(** *** [lib/supabaseClient.ts] *)

Definition getSupabaseClient : M unit :=
  fun w =>
    if cached w then (Ok tt, w)
    else if negb (env_supabase w) then (Throw MissingSupabaseEnv, w)
    else (Ok tt, set_cached true w).

(** *** [lib/db.ts] *)

Definition getCurrentUserId : M string :=
  getSupabaseClient ;;;
  fun w =>
    match auth_user w with
    | Some id => if String.eqb id "" then (Throw NotSignedIn, w) else (Ok id, w)
    | None => (Throw NotSignedIn, w)
    end.

(** One awaited store call followed by [if (error) throw error]. *)
Definition send (r : Request) : M unit :=
  fun w =>
    let w' := set_sent (r :: sent w) w in
    match store_answer w r with
    | Some msg => (Throw (StoreError msg), w')
    | None => (Ok tt, w')
    end.

Definition dbUpsertSettings (base : Currency) (rate : Qc) : M unit :=
  getSupabaseClient ;;;
  let* ownerId := getCurrentUserId in
  send (ReqUpsert t_settings ownerId (R_settings base rate)).

Definition dbInsertUnit (u : Unit) : M unit :=
  getSupabaseClient ;;;
  let* ownerId := getCurrentUserId in
  send (ReqInsert t_units ownerId (R_unit u)).

Definition dbDeleteUnit (id : string) : M unit :=
  getSupabaseClient ;;;
  let* ownerId := getCurrentUserId in
  send (ReqDelete t_units id ownerId).

Definition dbInsertTenant (t : Tenant) : M unit :=
  getSupabaseClient ;;;
  let* ownerId := getCurrentUserId in
  send (ReqInsert t_tenants ownerId (R_tenant t)).

Definition dbToggleTenantActive (id : string) (act : bool) : M unit :=
  getSupabaseClient ;;;
  let* ownerId := getCurrentUserId in
  send (ReqUpdateActive t_tenants id ownerId act).

Definition dbDeleteTenant (id : string) : M unit :=
  getSupabaseClient ;;;
  let* ownerId := getCurrentUserId in
  send (ReqDelete t_tenants id ownerId).

Definition dbInsertUtility (c : UtilityCharge) : M unit :=
  getSupabaseClient ;;;
  let* ownerId := getCurrentUserId in
  send (ReqInsert t_utilities ownerId (R_utility c)).

Definition dbDeleteUtility (id : string) : M unit :=
  getSupabaseClient ;;;
  let* ownerId := getCurrentUserId in
  send (ReqDelete t_utilities id ownerId).

Definition dbInsertInvoice (i : Invoice) : M unit :=
  getSupabaseClient ;;;
  let* ownerId := getCurrentUserId in
  send (ReqInsert t_invoices ownerId (R_invoice i)).

Definition dbDeleteInvoice (id : string) : M unit :=
  getSupabaseClient ;;;
  let* ownerId := getCurrentUserId in
  send (ReqDelete t_invoices id ownerId).

Definition dbInsertPayment (p : Payment) : M unit :=
  getSupabaseClient ;;;
  let* ownerId := getCurrentUserId in
  send (ReqInsert t_payments ownerId (R_payment p)).

Definition dbDeletePayment (id : string) : M unit :=
  getSupabaseClient ;;;
  let* ownerId := getCurrentUserId in
  send (ReqDelete t_payments id ownerId).

Definition fetchJodIlsRate : M Qc :=
  fun w =>
    if negb (env_rate_key w) then (Throw MissingRateKey, w)
    else
      let w' := set_rate_calls (S (rate_calls w)) w in
      match rate_response w with
      | RespUnreachable => (Throw NetworkFailure, w')
      | RespNotOk => (Throw RateFetchFailed, w')
      | RespMalformed => (Throw RateInvalid, w')
      | RespRate r => (Ok r, w')
      end.

(** The write operations of the gateway, as one family. *)
Inductive WriteOp :=
| OpUpsertSettings (base : Currency) (rate : Qc)
| OpInsertUnit (u : Unit)
| OpDeleteUnit (id : string)
| OpInsertTenant (t : Tenant)
| OpToggleTenantActive (id : string) (act : bool)
| OpDeleteTenant (id : string)
| OpInsertUtility (c : UtilityCharge)
| OpDeleteUtility (id : string)
| OpInsertInvoice (i : Invoice)
| OpDeleteInvoice (id : string)
| OpInsertPayment (p : Payment)
| OpDeletePayment (id : string).

Definition runWrite (op : WriteOp) : M unit :=
  match op with
  | OpUpsertSettings b r => dbUpsertSettings b r
  | OpInsertUnit u => dbInsertUnit u
  | OpDeleteUnit id => dbDeleteUnit id
  | OpInsertTenant t => dbInsertTenant t
  | OpToggleTenantActive id a => dbToggleTenantActive id a
  | OpDeleteTenant id => dbDeleteTenant id
  | OpInsertUtility c => dbInsertUtility c
  | OpDeleteUtility id => dbDeleteUtility id
  | OpInsertInvoice i => dbInsertInvoice i
  | OpDeleteInvoice id => dbDeleteInvoice id
  | OpInsertPayment p => dbInsertPayment p
  | OpDeletePayment id => dbDeletePayment id
  end.

(** The identity [getCurrentUserId] accepts: a user with a non-empty id. *)
Definition identity (w : World) : option string :=
  match auth_user w with
  | Some id => if String.eqb id "" then None else Some id
  | None => None
  end.

(** ** Local storage and page state *)

(** What the browser lets the page do with [localStorage]: everything,
    reads only (a write throws, the quota being used up), or nothing
    (any access throws). *)
Inductive Storage := StorageWorks | StorageFull | StorageBlocked.

Definition canRead (st : Storage) : bool :=
  match st with StorageBlocked => false | _ => true end.
Definition canWrite (st : Storage) : bool :=
  match st with StorageWorks => true | _ => false end.

(** [text || d] on a possibly missing string: [null] and [""] are falsy. *)
Definition str_or (o : option string) (d : string) : string :=
  match o with
  | Some s => if String.eqb s "" then d else s
  | None => d
  end.

Definition setData (f : AppData -> AppData) : M unit :=
  fun w => (Ok tt, set_app (f (app w)) w).
Definition getData : M AppData := fun w => (Ok (app w), w).

Definition withRate (rate : Qc) (d : AppData) : AppData :=
  {| settings := {| baseCurrency := baseCurrency (settings d); jodToIlsRate := rate |};
     units := units d; tenants := tenants d; utilities := utilities d;
     invoices := invoices d; payments := payments d |}.

(** ** Daily refresh of the exchange rate (effect of the page)

    The effect is an [async] function: it runs up to its first [await],
    and each awaited answer resumes it, other code of the page running in
    between.  It is therefore given as a start and a resumption, one per
    awaited answer, and the page as the runs that are under way. *)

(** A JavaScript number as far as the effect meets one: not a number,
    an infinity, or a finite value. *)
Inductive JSNum := NaN | PosInf | NegInf | Fin (q : Qc).

(** [String(n)] for an integer [n] of the size of a clock reading. *)
Definition String_ (n : Z) : string := NilZero.string_of_int (Z.to_int n).

Definition DAY_MS : Z := 24 * 60 * 60 * 1000.

Definition rate_key : string := "zc_rate_last".

(** [!last || now - last > 24 * 60 * 60 * 1000] *)
Definition rateIsStale (last : JSNum) (now : Z) : bool :=
  match last with
  | NaN => true
  | Fin l => bool_decide (l = 0) || bool_decide (Qc_of_Z DAY_MS < Qc_of_Z now - l)
  | PosInf => false
  | NegInf => true
  end.

(** The reading of a text as a number, [Number(text)], is a parameter
    of the definitions below.  Where an example wants a concrete reading
    this one serves: the empty text is 0, an optional minus sign with
    decimal digits is that integer, anything else is not a number.  It
    is not [Number], which also reads fractions, exponents, a plus sign,
    hexadecimal digits and surrounding blanks; the two agree on the empty
    text and on what [String_] prints, the only texts it is used on. *)
Definition decimalNumber (s : string) : JSNum :=
  match s with
  | EmptyString => Fin 0
  | _ => match NilZero.int_of_string s with
         | Some d => Fin (Qc_of_Z (Z.of_int d))
         | None => NaN
         end
  end.

(** A run between two of its awaits: waiting for the provider, for the
    identity provider, or for the store. *)
Inductive Pending :=
| AwaitRate (now : Z) (base : Currency)
| AwaitUser (now : Z) (base : Currency) (rate : Qc)
| AwaitStore (now : Z) (rate : Qc) (req : Request).

Section RateEffect.
(** [Number(text)] *)
Variable toNumber : string -> JSNum.

(** The persisted stamp as the effect reads it. *)
Definition lastUpdated (w : World) : JSNum :=
  toNumber (str_or (localStorage w !! rate_key) "0").

(** The effect up to its first await, at clock reading [now]: the stamp
    is read and compared, and when it is stale [fetchJodIlsRate] checks
    the key and sends the request to the provider.  [base] is the base
    currency of the render the effect belongs to. *)
Definition rateEffectStart (now : Z) (st : Storage) (w : World)
    : option Pending * World :=
  if negb (canRead st) then (None, w)
  else
    let last := lastUpdated w in
    if rateIsStale last now then
      if negb (env_rate_key w) then (None, w)
      else (Some (AwaitRate now (baseCurrency (settings (app w)))),
            set_rate_calls (S (rate_calls w)) w)
    else (None, w).
End RateEffect.

(** The run resumed by the answer it waits for; [None] when the run is
    over, be it by the [catch].
    - the provider answers: without a rate the run is over; with one,
      [dbUpsertSettings] obtains the client, twice, and asks for the user;
    - the identity provider answers: without a user id the run is over;
      with one the upsert is sent;
    - the store answers: on an error the run is over; otherwise the rate
      is put into the page state and then the stamp is written. *)
Definition rateEffectResume (p : Pending) (st : Storage) (w : World)
    : option Pending * World :=
  match p with
  | AwaitRate now base =>
      match rate_response w with
      | RespRate rate =>
          match getSupabaseClient w with
          | (Ok _, w1) =>
              match getSupabaseClient w1 with
              | (Ok _, w2) => (Some (AwaitUser now base rate), w2)
              | (Throw _, w2) => (None, w2)
              end
          | (Throw _, w1) => (None, w1)
          end
      | _ => (None, w)
      end
  | AwaitUser now base rate =>
      match auth_user w with
      | Some id =>
          if String.eqb id "" then (None, w)
          else
            let req := ReqUpsert t_settings id (R_settings base rate) in
            (Some (AwaitStore now rate req), set_sent (req :: sent w) w)
      | None => (None, w)
      end
  | AwaitStore now rate req =>
      match store_answer w req with
      | Some _ => (None, w)
      | None =>
          let w1 := set_app (withRate rate (app w)) w in
          if canWrite st
          then (None, set_localStorage (<[rate_key := String_ now]> (localStorage w1)) w1)
          else (None, w1)
      end
  end.

(** A run resumed until it is over, by at most [n] answers. *)
Fixpoint resumeAll (n : nat) (p : option Pending) (st : Storage) (w : World) : World :=
  match p, n with
  | Some p, S n =>
      let '(p', w') := rateEffectResume p st w in resumeAll n p' st w'
  | _, _ => w
  end.

(** A run of the effect that nothing interrupts: it starts and its
    three answers arrive one after the other. *)
Definition dailyRateEffect (toNumber : string -> JSNum)
    (now : Z) (st : Storage) (w : World) : World :=
  let '(p, w1) := rateEffectStart toNumber now st w in resumeAll 3 p st w1.

(** ** The effect that persists the page state

    [localStorage.setItem("zc_data_v1", JSON.stringify(data))] inside a
    [try]: it follows the first render and every render in which [data]
    is a new object. *)
Definition data_key : string := "zc_data_v1".

Definition persistEffect (stringify : AppData -> string) (st : Storage) (w : World)
    : World :=
  if canWrite st
  then set_localStorage (<[data_key := stringify (app w)]> (localStorage w)) w
  else w.

(** ** The page and what happens to it *)

(** The page as far as the two effects are concerned: the world and the
    runs of the refresh under way, oldest first. *)
Record Page := mkPage {
  world : World;
  pending : list Pending
}.

(** What happens to the page: it mounts, and both effects run; some code
    sets the page state, the state is persisted, and the refresh runs
    again if that changed the base currency (its one dependency); the
    answer awaited by the [k]-th run under way arrives. *)
Inductive Event :=
| Mounts (now : Z) (st : Storage)
| DataSet (f : AppData -> AppData) (now : Z) (st : Storage)
| Resumes (k : nat) (st : Storage).

Definition eventClock (e : Event) : option Z :=
  match e with
  | Mounts now _ | DataSet _ now _ => Some now
  | Resumes _ _ => None
  end.

(** Whether the answer that resumes [p] makes the run set the page
    state. *)
Definition setsData (p : Pending) (w : World) : bool :=
  match p with
  | AwaitStore _ _ req =>
      match store_answer w req with
      | None => true
      | Some _ => false
      end
  | _ => false
  end.

Section PageEvents.
Variable toNumber : string -> JSNum.
Variable stringify : AppData -> string.

Definition startRun (now : Z) (st : Storage) (pg : Page) : Page :=
  match rateEffectStart toNumber now st (world pg) with
  | (Some p, w') => mkPage w' (pending pg ++ [p])
  | (None, w') => mkPage w' (pending pg)
  end.

Definition step (pg : Page) (e : Event) : Page :=
  match e with
  | Mounts now st =>
      startRun now st (mkPage (persistEffect stringify st (world pg)) (pending pg))
  | DataSet f now st =>
      let d := f (app (world pg)) in
      let pg1 := mkPage (persistEffect stringify st (set_app d (world pg)))
                   (pending pg) in
      if bool_decide (baseCurrency (settings d)
                      = baseCurrency (settings (app (world pg))))
      then pg1
      else startRun now st pg1
  | Resumes k st =>
      match pending pg !! k with
      | None => pg
      | Some p =>
          let '(p', w') := rateEffectResume p st (world pg) in
          let w'' := if setsData p (world pg)
                     then persistEffect stringify st w' else w' in
          match p' with
          | Some p' => mkPage w'' (<[k := p']> (pending pg))
          | None => mkPage w'' (delete k (pending pg))
          end
      end
  end.

Definition runEvents (evs : list Event) (pg : Page) : Page := foldl step pg evs.
End PageEvents.

(** ** Further state updates of the tabs *)

(** Tenants tab: [removeTenant], the local state update. *)
Definition removeTenant (id : string) (d : AppData) : AppData :=
  {| settings := settings d;
     units := units d;
     tenants := List.filter (fun t => negb (String.eqb (tenant_id t) id)) (tenants d);
     utilities := utilities d;
     invoices := List.filter (fun i => negb (String.eqb (inv_tenantId i) id)) (invoices d);
     payments := List.filter (fun p => negb (String.eqb (pay_tenantId p) id)) (payments d) |}.

Definition removeUtility (id : string) (d : AppData) : AppData :=
  {| settings := settings d; units := units d; tenants := tenants d;
     utilities := List.filter (fun u => negb (String.eqb (util_id u) id)) (utilities d);
     invoices := invoices d; payments := payments d |}.

Definition removeInvoice (id : string) (d : AppData) : AppData :=
  {| settings := settings d; units := units d; tenants := tenants d;
     utilities := utilities d;
     invoices := List.filter (fun i => negb (String.eqb (inv_id i) id)) (invoices d);
     payments := payments d |}.

Definition removePayment (id : string) (d : AppData) : AppData :=
  {| settings := settings d; units := units d; tenants := tenants d;
     utilities := utilities d; invoices := invoices d;
     payments := List.filter (fun p => negb (String.eqb (pay_id p) id)) (payments d) |}.

(** [t.id === id ? { ...t, active: !t.active } : t] *)
Definition toggleTenant (id : string) (t : Tenant) : Tenant :=
  if String.eqb (tenant_id t) id
  then {| tenant_id := tenant_id t; tenant_name := tenant_name t; phone := phone t;
          tenant_unitId := tenant_unitId t; startDate := startDate t;
          active := negb (active t) |}
  else t.

Definition toggleActiveLocal (id : string) (d : AppData) : AppData :=
  {| settings := settings d; units := units d;
     tenants := map (toggleTenant id) (tenants d);
     utilities := utilities d; invoices := invoices d; payments := payments d |}.

(** [data.tenants.find((t) => t.id === id)?.active ?? true], negated. *)
Definition toggleNext (id : string) (d : AppData) : bool :=
  negb (match List.find (fun t => String.eqb (tenant_id t) id) (tenants d) with
        | Some t => active t
        | None => true
        end).

Definition withBase (next : Currency) (d : AppData) : AppData :=
  {| settings := {| baseCurrency := next; jodToIlsRate := jodToIlsRate (settings d) |};
     units := units d; tenants := tenants d; utilities := utilities d;
     invoices := invoices d; payments := payments d |}.

(** Derived index of the page: [tenantsByUnit].  The array found under
    the unit id (a fresh one when there is none) gets the tenant pushed
    and is stored back. *)
Definition tenantsByUnit (ts : list Tenant) : gmap string (list Tenant) :=
  foldl (fun m t =>
           let arr := default [] (m !! tenant_unitId t) in
           <[tenant_unitId t := arr ++ [t]]> m) ∅ ts.

(** The count shown in the units table:
    [(tenantsByUnit.get(u.id) || []).length]. *)
Definition tenantCount (ts : list Tenant) (unitId : string) : nat :=
  length (default [] (tenantsByUnit ts !! unitId)).

(** *** The handlers with their remote calls

    Each handler reads the [data] of its render, applies the local
    update, then awaits the gateway inside [try { } catch { }]. *)

Definition removeUnitHandler (id : string) : M unit :=
  setData (removeUnit id) ;;;
  try_ignore (dbDeleteUnit id).

Definition removeTenantHandler (id : string) : M unit :=
  setData (removeTenant id) ;;;
  try_ignore (dbDeleteTenant id).

Definition removeUtilityHandler (id : string) : M unit :=
  setData (removeUtility id) ;;;
  try_ignore (dbDeleteUtility id).

Definition removeInvoiceHandler (id : string) : M unit :=
  setData (removeInvoice id) ;;;
  try_ignore (dbDeleteInvoice id).

Definition removePaymentHandler (id : string) : M unit :=
  setData (removePayment id) ;;;
  try_ignore (dbDeletePayment id).

Definition toggleActive (id : string) : M unit :=
  let* data := getData in
  setData (toggleActiveLocal id) ;;;
  let next := toggleNext id data in
  try_ignore (dbToggleTenantActive id next).

Definition updateBaseCurrency (next : Currency) : M unit :=
  let* data := getData in
  setData (withBase next) ;;;
  try_ignore (dbUpsertSettings next (jodToIlsRate (settings data))).

Definition updateExchangeRate (next : Qc) : M unit :=
  let* data := getData in
  let rate := num_or next 0 in
  setData (withRate rate) ;;;
  try_ignore (dbUpsertSettings (baseCurrency (settings data)) rate).

(** The message left in [syncMsg]; [syncing] is [false] again when the
    handler returns. *)
Inductive SyncMsg :=
| RateUpdated
| SyncFailed (e : Error).

(** [try { m; ok } catch (err) { h err }] *)
Definition try_catch {A} (m : M A) (h : Error -> A) : M A :=
  fun w => match m w with
           | (Ok a, w') => (Ok a, w')
           | (Throw e, w') => (Ok (h e), w')
           end.

Definition autoFetchRate : M SyncMsg :=
  try_catch
    (let* rate := fetchJodIlsRate in
     let* data := getData in
     dbUpsertSettings (baseCurrency (settings data)) rate ;;;
     setData (withRate rate) ;;;
     ret RateUpdated)
    SyncFailed.

(** *** Reading a request *)

Definition req_owner (r : Request) : string :=
  match r with
  | ReqUpsert _ o _ | ReqInsert _ o _ | ReqUpdateActive _ _ o _ | ReqDelete _ _ o => o
  end.

Definition req_table (r : Request) : Table :=
  match r with
  | ReqUpsert t _ _ | ReqInsert t _ _ | ReqUpdateActive t _ _ _ | ReqDelete t _ _ => t
  end.

(** The table a gateway operation is named after. *)
Definition opTable (op : WriteOp) : Table :=
  match op with
  | OpUpsertSettings _ _ => t_settings
  | OpInsertUnit _ | OpDeleteUnit _ => t_units
  | OpInsertTenant _ | OpToggleTenantActive _ _ | OpDeleteTenant _ => t_tenants
  | OpInsertUtility _ | OpDeleteUtility _ => t_utilities
  | OpInsertInvoice _ | OpDeleteInvoice _ => t_invoices
  | OpInsertPayment _ | OpDeletePayment _ => t_payments
  end.

(** The handlers above as one family, with the local update of each. *)
Inductive Handler :=
| H_removeUnit (id : string)
| H_removeTenant (id : string)
| H_removeUtility (id : string)
| H_removeInvoice (id : string)
| H_removePayment (id : string)
| H_toggleActive (id : string)
| H_updateBaseCurrency (next : Currency)
| H_updateExchangeRate (next : Qc).

Definition runHandler (h : Handler) : M unit :=
  match h with
  | H_removeUnit id => removeUnitHandler id
  | H_removeTenant id => removeTenantHandler id
  | H_removeUtility id => removeUtilityHandler id
  | H_removeInvoice id => removeInvoiceHandler id
  | H_removePayment id => removePaymentHandler id
  | H_toggleActive id => toggleActive id
  | H_updateBaseCurrency next => updateBaseCurrency next
  | H_updateExchangeRate next => updateExchangeRate next
  end.

Definition localUpdate (h : Handler) : AppData -> AppData :=
  match h with
  | H_removeUnit id => removeUnit id
  | H_removeTenant id => removeTenant id
  | H_removeUtility id => removeUtility id
  | H_removeInvoice id => removeInvoice id
  | H_removePayment id => removePayment id
  | H_toggleActive id => toggleActiveLocal id
  | H_updateBaseCurrency next => withBase next
  | H_updateExchangeRate next => withRate (num_or next 0)
  end.

(** *** Invoices tab: the tenants offered by the filter menu *)

Definition tenantOptions (data : AppData) (byId : gmap string Unit) (scope : Scope)
    : list Tenant :=
  List.filter
    (fun t => match byId !! tenant_unitId t with
              | None => false
              | Some u =>
                  if bool_decide (scope = monthly)
                  then bool_decide (kind u = apartment)
                  else bool_decide (kind u = shop)
              end)
    (List.filter (fun t => active t) (tenants data)).

(** *** The forms of the tabs and their save handlers

    A form holds the texts typed by the user.  [numberOf] stands for
    [Number(text)] on the text of a number input and [trim] for
    [text.trim()].  The form is reset after a save; that reset concerns
    the form alone and is not part of these definitions. *)

Record UnitForm := mkUnitForm {
  uf_name : string;
  uf_kind : UnitKind;
  uf_rentAmount : string;
  uf_rentCurrency : Currency
}.

Record TenantForm := mkTenantForm {
  tf_name : string;
  tf_phone : string;
  tf_unitId : string;
  tf_startDate : string;
  tf_active : bool
}.

Record UtilityForm := mkUtilityForm {
  cf_unitId : string;
  cf_period : string;
  cf_type : UtilityType;
  cf_amount : string;
  cf_currency : Currency
}.

Record PaymentForm := mkPaymentForm {
  pf_tenantId : string;
  pf_date : string;
  pf_amount : string;
  pf_currency : Currency;
  pf_period : string;
  pf_note : string
}.

(** [text || undefined] and [value || null]: the empty text counts as
    missing. *)
Definition nonEmpty (s : string) : option string :=
  if String.eqb s "" then None else Some s.
Definition orNull (o : option string) : option string :=
  match o with
  | Some s => nonEmpty s
  | None => None
  end.

Definition prependUnit (u : Unit) (d : AppData) : AppData :=
  {| settings := settings d; units := u :: units d; tenants := tenants d;
     utilities := utilities d; invoices := invoices d; payments := payments d |}.
Definition prependTenant (t : Tenant) (d : AppData) : AppData :=
  {| settings := settings d; units := units d; tenants := t :: tenants d;
     utilities := utilities d; invoices := invoices d; payments := payments d |}.
Definition prependUtility (c : UtilityCharge) (d : AppData) : AppData :=
  {| settings := settings d; units := units d; tenants := tenants d;
     utilities := c :: utilities d; invoices := invoices d; payments := payments d |}.
Definition prependPayment (p : Payment) (d : AppData) : AppData :=
  {| settings := settings d; units := units d; tenants := tenants d;
     utilities := utilities d; invoices := invoices d; payments := p :: payments d |}.

Section Forms.
Variable numberOf : string -> Qc.
Variable trim : string -> string.

Definition unitOfForm (form : UnitForm) (r : string) : Unit :=
  {| unit_id := uid "unit" r;
     unit_name := trim (uf_name form);
     kind := uf_kind form;
     rentAmount := numberOf (uf_rentAmount form);
     rentCurrency := uf_rentCurrency form |}.

Definition addUnit (form : UnitForm) (r : string) : M unit :=
  if String.eqb (uf_name form) "" || String.eqb (uf_rentAmount form) "" then ret tt
  else
    let unit := unitOfForm form r in
    setData (prependUnit unit) ;;;
    try_ignore (dbInsertUnit unit).

Definition tenantOfForm (form : TenantForm) (r : string) : Tenant :=
  {| tenant_id := uid "tenant" r;
     tenant_name := trim (tf_name form);
     phone := nonEmpty (trim (tf_phone form));
     tenant_unitId := tf_unitId form;
     startDate := tf_startDate form;
     active := tf_active form |}.

Definition addTenant (form : TenantForm) (r : string) : M unit :=
  if String.eqb (tf_name form) "" || String.eqb (tf_unitId form) "" then ret tt
  else
    let tenant := tenantOfForm form r in
    setData (prependTenant tenant) ;;;
    try_ignore (dbInsertTenant tenant).

Definition utilityOfForm (form : UtilityForm) (r : string) : UtilityCharge :=
  {| util_id := uid "util" r;
     util_unitId := cf_unitId form;
     util_period := cf_period form;
     util_type := cf_type form;
     util_amount := numberOf (cf_amount form);
     util_currency := cf_currency form |}.

Definition addUtility (form : UtilityForm) (r : string) : M unit :=
  if String.eqb (cf_unitId form) "" || String.eqb (cf_period form) ""
     || String.eqb (cf_amount form) ""
  then ret tt
  else
    let u := utilityOfForm form r in
    setData (prependUtility u) ;;;
    try_ignore (dbInsertUtility u).

Definition paymentOfForm (form : PaymentForm) (tenant : Tenant) (r : string)
    : Payment :=
  {| pay_id := uid "pay" r;
     pay_tenantId := pf_tenantId form;
     pay_unitId := tenant_unitId tenant;
     pay_date := pf_date form;
     pay_amount := numberOf (pf_amount form);
     pay_currency := pf_currency form;
     pay_period := Some (pf_period form);
     pay_note := nonEmpty (trim (pf_note form)) |}.

(** The row handed to [dbInsertPayment]: [period || null], [note || null]. *)
Definition paymentRow (p : Payment) : Payment :=
  {| pay_id := pay_id p; pay_tenantId := pay_tenantId p; pay_unitId := pay_unitId p;
     pay_date := pay_date p; pay_amount := pay_amount p;
     pay_currency := pay_currency p;
     pay_period := orNull (pay_period p); pay_note := orNull (pay_note p) |}.

Definition addPayment (form : PaymentForm) (r : string) : M unit :=
  if String.eqb (pf_tenantId form) "" || String.eqb (pf_amount form) "" then ret tt
  else
    let* data := getData in
    match List.find (fun t => String.eqb (tenant_id t) (pf_tenantId form))
            (tenants data) with
    | None => ret tt
    | Some tenant =>
        let payment := paymentOfForm form tenant r in
        setData (prependPayment payment) ;;;
        try_ignore (dbInsertPayment (paymentRow payment))
    end.
End Forms.

(** ** Reading everything back ([dbFetchAll]) and the initial load *)

Record FetchAllResult := mkFetchAll {
  fa_settings : option Settings;
  fa_units : list Unit;
  fa_tenants : list Tenant;
  fa_utilities : list UtilityCharge;
  fa_invoices : list Invoice;
  fa_payments : list Payment
}.

(** What one [select] resolves to: [{ data, error }]. *)
Record Query (A : Type) := mkQuery {
  q_data : option A;
  q_error : option string
}.
Arguments mkQuery {A} q_data q_error.
Arguments q_data {A} q.
Arguments q_error {A} q.

(** The six answers of the store to the reads of one owner. *)
Record StoreReads := mkStoreReads {
  rd_settings : Query Settings;
  rd_units : Query (list Unit);
  rd_tenants : Query (list Tenant);
  rd_utilities : Query (list UtilityCharge);
  rd_invoices : Query (list Invoice);
  rd_payments : Query (list Payment)
}.

Definition emptyResult : FetchAllResult := mkFetchAll None [] [] [] [] [].

(** [getCurrentUserId().catch(() => null)] *)
Definition currentUserIdOrNull : M (option string) :=
  fun w => match getCurrentUserId w with
           | (Ok id, w') => (Ok (Some id), w')
           | (Throw _, w') => (Ok None, w')
           end.

(** [if (q.error) throw q.error], the error being any non-null value. *)
Definition throwIfError {A} (q : Query A) : M unit :=
  match q_error q with
  | Some msg => throw (StoreError msg)
  | None => ret tt
  end.

Definition dbFetchAll (store : string -> StoreReads) : M FetchAllResult :=
  getSupabaseClient ;;;
  let* ownerId := currentUserIdOrNull in
  match ownerId with
  | None => ret emptyResult
  | Some owner =>
      if String.eqb owner "" then ret emptyResult
      else
        let rd := store owner in
        throwIfError (rd_settings rd) ;;;
        throwIfError (rd_units rd) ;;;
        throwIfError (rd_tenants rd) ;;;
        throwIfError (rd_utilities rd) ;;;
        throwIfError (rd_invoices rd) ;;;
        throwIfError (rd_payments rd) ;;;
        ret {| fa_settings := q_data (rd_settings rd);
               fa_units := default [] (q_data (rd_units rd));
               fa_tenants := default [] (q_data (rd_tenants rd));
               fa_utilities := default [] (q_data (rd_utilities rd));
               fa_invoices := default [] (q_data (rd_invoices rd));
               fa_payments := default [] (q_data (rd_payments rd)) |}
  end.

Definition DEFAULT_DATA : AppData :=
  mkAppData (mkSettings JOD (Qc_of_Z 5)) [] [] [] [] [].

(** Row to record: [phone || undefined], [period || undefined],
    [note || undefined]. *)
Definition tenantOfRow (t : Tenant) : Tenant :=
  {| tenant_id := tenant_id t; tenant_name := tenant_name t;
     phone := orNull (phone t); tenant_unitId := tenant_unitId t;
     startDate := startDate t; active := active t |}.

Definition paymentOfRow (p : Payment) : Payment :=
  {| pay_id := pay_id p; pay_tenantId := pay_tenantId p; pay_unitId := pay_unitId p;
     pay_date := pay_date p; pay_amount := pay_amount p;
     pay_currency := pay_currency p;
     pay_period := orNull (pay_period p); pay_note := orNull (pay_note p) |}.

Definition applyFetched (all : FetchAllResult) (prev : AppData) : AppData :=
  {| settings := match fa_settings all with
                 | Some s => s
                 | None => settings prev
                 end;
     units := fa_units all;
     tenants := map tenantOfRow (fa_tenants all);
     utilities := fa_utilities all;
     invoices := fa_invoices all;
     payments := map paymentOfRow (fa_payments all) |}.

(** The data half of the first effect of the page, with the renders it
    causes.  The effect that persists the state runs in the same pass as
    the start of this one, hence before any awaited answer resumes it;
    [dbFetchAll] touches no local storage, so it is put first here.
    [parseData] stands for [{ ...DEFAULT_DATA, ...JSON.parse(raw) }],
    [None] when the text does not parse, and [stringify] for
    [JSON.stringify]. *)
Definition loadData (store : string -> StoreReads)
    (stringify : AppData -> string) (parseData : string -> option AppData)
    (st : Storage) : M unit :=
  fun w =>
    let w0 := persistEffect stringify st w in
    let setAndPersist (f : AppData -> AppData) (w1 : World) :=
      (Ok tt, persistEffect stringify st (set_app (f (app w1)) w1)) in
    match dbFetchAll store w0 with
    | (Ok all, w') => setAndPersist (applyFetched all) w'
    | (Throw _, w') =>
        if negb (canRead st) then (Ok tt, w')
        else
          match localStorage w' !! data_key with
          | Some raw =>
              if String.eqb raw "" then (Ok tt, w')
              else match parseData raw with
                   | Some d => setAndPersist (fun _ => d) w'
                   | None => (Ok tt, w')
                   end
          | None => (Ok tt, w')
          end
    end.

(** The page state the fallback branch of [loadData] leaves: the parsed
    copy when there is a non-empty text under the key and it parses, else
    the state as it was. *)
Definition cachedOr (parseData : string -> option AppData)
    (ls : gmap string string) (prev : AppData) : AppData :=
  match ls !! data_key with
  | Some raw => if String.eqb raw "" then prev else default prev (parseData raw)
  | None => prev
  end.

(** The first error among the six answers, in the order in which
    [dbFetchAll] inspects them. *)
Definition firstError (rd : StoreReads) : option string :=
  match q_error (rd_settings rd) with
  | Some e => Some e
  | None =>
  match q_error (rd_units rd) with
  | Some e => Some e
  | None =>
  match q_error (rd_tenants rd) with
  | Some e => Some e
  | None =>
  match q_error (rd_utilities rd) with
  | Some e => Some e
  | None =>
  match q_error (rd_invoices rd) with
  | Some e => Some e
  | None => q_error (rd_payments rd)
  end end end end end.

(** The result [dbFetchAll] builds from six answers without error. *)
Definition resultOf (rd : StoreReads) : FetchAllResult :=
  {| fa_settings := q_data (rd_settings rd);
     fa_units := default [] (q_data (rd_units rd));
     fa_tenants := default [] (q_data (rd_tenants rd));
     fa_utilities := default [] (q_data (rd_utilities rd));
     fa_invoices := default [] (q_data (rd_invoices rd));
     fa_payments := default [] (q_data (rd_payments rd)) |}.

(** ** The rate endpoint ([app/api/rates/route.ts]) *)

Record RouteEnv := mkRouteEnv {
  CRON_SECRET : option string;
  CURRENCYAPI_KEY : option string
}.

(** What came back from the provider: nothing (the [fetch] rejects with
    a message), or a response, with its [ok] flag, whose body is not JSON
    (reading it rejects with a message), is JSON with a number at
    [data.ILS.value], or is other JSON. *)
Inductive HttpBody :=
| BodyNotJson (msg : string)
| BodyRate (r : Qc)
| BodyOther.

Inductive HttpAnswer :=
| NoAnswer (msg : string)
| Answer (ok : bool) (body : HttpBody).

(** [{ ok: true, rate }] and [{ ok: false, error }]. *)
Inductive RouteJson :=
| JsonRate (rate : Qc)
| JsonError (error : string).

Record RouteResponse := mkRouteResponse {
  status : nat;
  json : RouteJson
}.

Definition truthy (o : option string) : bool :=
  match o with
  | Some s => negb (String.eqb s "")
  | None => false
  end.

(** The handler; the second component tells whether the provider was
    called.  [authorization] is the header of that name, looked up
    without regard to case. *)
Definition GET (env : RouteEnv) (authorization : option string)
    (provider : HttpAnswer) : RouteResponse * bool :=
  let denied :=
    match CRON_SECRET env with
    | Some cronSecret =>
        if negb (String.eqb cronSecret "") then
          let auth := str_or authorization (str_or authorization "") in
          let expected := "Bearer " +:+ cronSecret in
          negb (String.eqb auth expected)
        else false
    | None => false
    end in
  if denied then (mkRouteResponse 401 (JsonError "unauthorized"), false)
  else if negb (truthy (CURRENCYAPI_KEY env))
  then (mkRouteResponse 400 (JsonError "missing currencyapi key"), false)
  else
    match provider with
    | NoAnswer msg => (mkRouteResponse 500 (JsonError msg), true)
    | Answer _ (BodyNotJson msg) => (mkRouteResponse 500 (JsonError msg), true)
    | Answer _ BodyOther => (mkRouteResponse 500 (JsonError "invalid rate"), true)
    | Answer _ (BodyRate rate) => (mkRouteResponse 200 (JsonRate rate), true)
    end.

(** The same provider answer as [fetchJodIlsRate] of [lib/db.ts] reads
    it: a response that is not [ok] is refused before its body is read. *)
Definition asRateResponse (a : HttpAnswer) : RateResponse :=
  match a with
  | NoAnswer _ => RespUnreachable
  | Answer false _ => RespNotOk
  | Answer true (BodyRate r) => RespRate r
  | Answer true _ => RespMalformed
  end.

(** ** Sample data used to exercise the statements below *)

Definition sample_settings : Settings := mkSettings JOD (Qc_of_Z 5).
Definition sample_unit : Unit :=
  mkUnit "unit_a1" "A1" apartment (Qc_of_Z 200) JOD.
Definition sample_tenant : Tenant :=
  mkTenant "tenant_s1" "Sami" None "unit_a1" "2024-01-01" true.
Definition sample_charge : UtilityCharge :=
  mkUtilityCharge "util_w1" "unit_a1" "2024-05" water (Qc_of_Z 50) JOD.
Definition sample_data : AppData :=
  mkAppData sample_settings [sample_unit] [sample_tenant] [sample_charge] [] [].
Definition sample_rnd : nat -> string := fun _ => "k3j9x0ab".
Definition sample_invoice : Invoice :=
  mkInvoice (uid "inv" "k3j9x0ab") "unit_a1" "tenant_s1" "2024-05" monthly
    (Qc_of_Z 200) (Qc_of_Z 50) (Qc_of_Z 250).

(** A shop billed by the year, with charges in two months of 2024 (one
    of them in ILS) and one in December 2023. *)
Definition shop_unit : Unit := mkUnit "unit_s1" "S1" shop (Qc_of_Z 6000) ILS.
Definition shop_tenant : Tenant :=
  mkTenant "tenant_k1" "Karim" (Some "0790000000") "unit_s1" "2023-06-01" true.
Definition shop_data : AppData :=
  mkAppData sample_settings [sample_unit; shop_unit] [sample_tenant; shop_tenant]
    [ mkUtilityCharge "util_1" "unit_s1" "2024-01" water (Qc_of_Z 10) JOD;
      mkUtilityCharge "util_2" "unit_s1" "2024-07" electricity (Qc_of_Z 20) ILS;
      mkUtilityCharge "util_3" "unit_s1" "2023-12" water (Qc_of_Z 99) JOD;
      sample_charge ]
    [] [].

(** An apartment with a former and a present tenant next to a shop
    with its tenant and a tenant whose unit is gone, and charges of the
    apartment for two months and of the shop for one of them. *)
Definition mixed_data : AppData :=
  mkAppData sample_settings [shop_unit; sample_unit]
    [ mkTenant "tenant_o1" "Omar" None "unit_a1" "2022-01-01" false;
      shop_tenant;
      sample_tenant;
      mkTenant "tenant_g1" "Ghada" None "unit_gone" "2021-03-01" true ]
    [ mkUtilityCharge "util_a4" "unit_a1" "2024-04" water (Qc_of_Z 40) JOD;
      mkUtilityCharge "util_s5" "unit_s1" "2024-05" water (Qc_of_Z 20) JOD;
      sample_charge;
      mkUtilityCharge "util_a6" "unit_a1" "2024-06" electricity (Qc_of_Z 30) ILS ]
    [sample_invoice] [].

(** A configured client without a signed-in user, and a world in which
    the store variables are not set at all. *)
Definition signed_out_world : World :=
  mkWorld true false None (fun _ => None) [] true (RespRate (Qc_of_Z 5)) 0
    ∅ sample_data.
Definition unconfigured_world : World :=
  mkWorld false false None (fun _ => None) [] true (RespRate (Qc_of_Z 5)) 0
    ∅ sample_data.
(** A signed-in world whose stamp was written one minute before
    [1700000060000]. *)
Definition fresh_world : World :=
  mkWorld true true (Some "owner-1") (fun _ => None) [] true
    (RespRate (Qc_of_Z 5)) 0 {[ rate_key := "1700000000000" ]} sample_data.
(** A signed-in world that has never refreshed. *)
Definition first_load_world : World :=
  mkWorld true true (Some "owner-1") (fun _ => None) [] true
    (RespRate (Qc_of_Z 5)) 0 ∅ sample_data.

(** * Properties *)

(** ** Currency converter *)

Lemma rateOf_nonzero r : rateOf r <> 0.
Proof.
  unfold rateOf, num_or. destruct (decide (r = 0)) as [_|Hr]; [|exact Hr].
  intros H. apply (f_equal this) in H. discriminate H.
Qed.

Lemma convertToBase_JOD_ILS x r :
  convertToBase x ILS (mkSettings JOD r) = x / rateOf r.
Proof. reflexivity. Qed.

Lemma convertToBase_ILS_JOD x r :
  convertToBase x JOD (mkSettings ILS r) = x * rateOf r.
Proof. reflexivity. Qed.

Lemma convertToBase_same x c r : convertToBase x c (mkSettings c r) = x.
Proof. destruct c; reflexivity. Qed.

(** C1: with base JOD an ILS amount is divided by the rate, with base
    ILS a JOD amount is multiplied by it, the rate being the stored one
    unless that is zero, in which case it is 5; so 100 ILS are 20 JOD and
    20 JOD are 100 ILS at rate 5. *)
Theorem C1_convertToBase_cross (x r : Qc) :
  convertToBase x ILS (mkSettings JOD r)
    = x / (if decide (r = 0) then Qc_of_Z 5 else r)
  /\ convertToBase x JOD (mkSettings ILS r)
    = x * (if decide (r = 0) then Qc_of_Z 5 else r)
  /\ convertToBase (Qc_of_Z 100) ILS (mkSettings JOD (Qc_of_Z 5)) = Qc_of_Z 20
  /\ convertToBase (Qc_of_Z 20) JOD (mkSettings ILS (Qc_of_Z 5)) = Qc_of_Z 100.
Proof.
  repeat split.
  - apply Qc_is_canon. reflexivity.
  - apply Qc_is_canon. reflexivity.
Qed.

(** C2: an amount already in the base currency is returned as it is,
    whichever of the two currencies is the base. *)
Theorem C2_convertToBase_identity (x : Qc) (c : Currency) (s : Settings) :
  c = baseCurrency s -> convertToBase x c s = x.
Proof.
  intros ->. destruct s as [b r]. apply convertToBase_same.
Qed.

Lemma C2_convertToBase_identity_witness :
  convertToBase (Qc_of_Z 7) ILS (mkSettings ILS 0) = Qc_of_Z 7
  /\ convertToBase (Qc_of_Z 7) JOD (mkSettings JOD (Qc_of_Z 3)) = Qc_of_Z 7.
Proof.
  split.
  - apply (C2_convertToBase_identity (Qc_of_Z 7) ILS (mkSettings ILS 0)). reflexivity.
  - apply (C2_convertToBase_identity (Qc_of_Z 7) JOD (mkSettings JOD (Qc_of_Z 3))).
    reflexivity.
Defined.

(** C7 as stated fails: with one and the same settings the second
    conversion is the identity, so 100 ILS come back as 20. *)
Lemma C7_same_settings_counterexample :
  ILS <> JOD
  /\ convertToBase
       (convertToBase (Qc_of_Z 100) ILS (mkSettings JOD (Qc_of_Z 5)))
       JOD (mkSettings JOD (Qc_of_Z 5)) <> Qc_of_Z 100.
Proof.
  split; [discriminate|].
  intros H. apply (f_equal this) in H. vm_compute in H. discriminate H.
Qed.

(** C7, amended: converting from [A] under settings whose base is [B]
    and back from [B] under settings of the same rate whose base is [A]
    returns the amount exactly; under one and the same settings the
    composite is a single conversion of the non-base currency. *)
Theorem C7_round_trip_swapped_base (x r : Qc) (A B : Currency) (s : Settings) :
  A <> B ->
  convertToBase (convertToBase x A (mkSettings B r)) B (mkSettings A r) = x
  /\ convertToBase (convertToBase x A s) B s
     = convertToBase x (if decide (baseCurrency s = JOD) then ILS else JOD) s.
Proof.
  intros HAB. split.
  - destruct A, B; try congruence.
    + rewrite convertToBase_ILS_JOD, convertToBase_JOD_ILS.
      apply Qcdiv_mult_l, rateOf_nonzero.
    + rewrite convertToBase_JOD_ILS, convertToBase_ILS_JOD.
      rewrite Qcmult_comm. apply Qcmult_div_r, rateOf_nonzero.
  - destruct s as [[] r']; destruct A, B; try congruence; reflexivity.
Qed.

Lemma C7_round_trip_swapped_base_witness :
  convertToBase
    (convertToBase (Qc_of_Z 100) ILS (mkSettings JOD (Qc_of_Z 5)))
    JOD (mkSettings ILS (Qc_of_Z 5)) = Qc_of_Z 100.
Proof.
  apply (C7_round_trip_swapped_base (Qc_of_Z 100) (Qc_of_Z 5) ILS JOD
           (mkSettings JOD (Qc_of_Z 5))).
  discriminate.
Defined.

(** ** Cascade deletion of a unit *)

Lemma negb_eqb_ne (a b : string) : negb (String.eqb a b) = true <-> a <> b.
Proof.
  rewrite negb_true_iff. destruct (String.eqb_spec a b); split; congruence.
Qed.

Lemma filter_keeps_order {A} (f : A -> bool) (l : list A) :
  sublist (List.filter f l) l.
Proof.
  induction l as [|a l IH]; simpl.
  - constructor.
  - destruct (f a); by constructor.
Qed.

(** C6: after [removeUnit id] each of the five collections holds exactly
    the records of before that do not reference [id], in their former
    order; the unit itself and every tenant, utility charge, invoice and
    payment of that unit are gone, and the settings are untouched. *)
Theorem C6_removeUnit_cascade (d : AppData) (id : string) :
  (forall u, In u (units (removeUnit id d)) <-> In u (units d) /\ unit_id u <> id)
  /\ (forall t, In t (tenants (removeUnit id d))
                <-> In t (tenants d) /\ tenant_unitId t <> id)
  /\ (forall c, In c (utilities (removeUnit id d))
                <-> In c (utilities d) /\ util_unitId c <> id)
  /\ (forall i, In i (invoices (removeUnit id d))
                <-> In i (invoices d) /\ inv_unitId i <> id)
  /\ (forall p, In p (payments (removeUnit id d))
                <-> In p (payments d) /\ pay_unitId p <> id)
  /\ sublist (units (removeUnit id d)) (units d)
  /\ sublist (tenants (removeUnit id d)) (tenants d)
  /\ sublist (utilities (removeUnit id d)) (utilities d)
  /\ sublist (invoices (removeUnit id d)) (invoices d)
  /\ sublist (payments (removeUnit id d)) (payments d)
  /\ settings (removeUnit id d) = settings d.
Proof.
  unfold removeUnit; simpl.
  repeat match goal with |- _ /\ _ => split end;
    try apply filter_keeps_order;
    try reflexivity;
    intros x; rewrite filter_In, negb_eqb_ne; reflexivity.
Qed.

(** ** The index [unitsById] *)

Lemma unitsById_fold_lookup (us : list Unit) (m : gmap string Unit) k u :
  foldl (fun m u => <[unit_id u := u]> m) m us !! k = Some u ->
  (In u us /\ unit_id u = k) \/ m !! k = Some u.
Proof.
  revert m. induction us as [|a us IH]; intros m H; simpl in *.
  - by right.
  - destruct (IH _ H) as [[Hin Hk]|Hm]; [left; tauto|].
    rewrite lookup_insert in Hm. case_decide as Hd.
    + left. split; [left; congruence | congruence].
    + by right.
Qed.

Lemma unitsById_Some (us : list Unit) k u :
  unitsById us !! k = Some u -> In u us /\ unit_id u = k.
Proof.
  intros H. apply unitsById_fold_lookup in H as [H|H]; [exact H|].
  by rewrite lookup_empty in H.
Qed.

Lemma unitsById_fold_is_Some (us : list Unit) (m : gmap string Unit) k :
  (exists u, In u us /\ unit_id u = k) \/ is_Some (m !! k) ->
  is_Some (foldl (fun m u => <[unit_id u := u]> m) m us !! k).
Proof.
  revert m. induction us as [|a us IH]; intros m H; simpl in *.
  - destruct H as [(u & [] & _)|H]; exact H.
  - apply IH. destruct H as [(u & [->|Hin] & Hk)|H].
    + right. rewrite <- Hk, lookup_insert_eq. by eexists.
    + left. by exists u.
    + right. rewrite lookup_insert. case_decide; [by eexists | exact H].
Qed.

Lemma unitsById_is_Some (us : list Unit) k :
  is_Some (unitsById us !! k) <-> exists u, In u us /\ unit_id u = k.
Proof.
  split.
  - intros [u Hu]. exists u. by apply unitsById_Some.
  - intros H. apply unitsById_fold_is_Some. by left.
Qed.

(** ** Invoice generation *)

Section InvoiceFacts.
Variable data : AppData.
Variable byId : gmap string Unit.
Variable stg : Settings.
Variable scope : Scope.
Variable period : string.
Variable tenantFilter : string.

Lemma eligibleFilter_Some (t : Tenant) :
  eligibleFilter byId scope t = true ->
  exists unit, byId !! tenant_unitId t = Some unit
               /\ kind unit = match scope with monthly => apartment | yearly => shop end.
Proof.
  unfold eligibleFilter. destruct (byId !! tenant_unitId t) as [unit|]; [|discriminate].
  intros H. exists unit. split; [reflexivity|].
  destruct scope, (kind unit); simpl in H; try reflexivity; discriminate.
Qed.

Lemma eligibleTenants_In (t : Tenant) :
  In t (eligibleTenants data byId scope tenantFilter) <->
  In t (tenants data) /\ active t = true /\ eligibleFilter byId scope t = true
  /\ (tenantFilter = EmptyString \/ tenant_id t = tenantFilter).
Proof.
  unfold eligibleTenants.
  destruct (String.eqb_spec tenantFilter "") as [He|Hne]; simpl.
  - rewrite !filter_In. intuition.
  - rewrite !filter_In.
    destruct (String.eqb_spec (tenant_id t) tenantFilter); intuition congruence.
Qed.

Lemma mapInvoices_In rnd (ts : list Tenant) : forall i invs inv,
  mapInvoices data byId stg scope period rnd i ts = Some invs ->
  In inv invs ->
  exists j t, In t ts /\ invoiceFor data byId stg scope period (rnd j) t = Some inv.
Proof.
  induction ts as [|t ts IH]; intros i invs inv H Hin; simpl in H.
  - injection H as <-. destruct Hin.
  - destruct (invoiceFor data byId stg scope period (rnd i) t) as [inv0|] eqn:E0;
      [|discriminate].
    destruct (mapInvoices data byId stg scope period rnd (S i) ts) as [rest|] eqn:E1;
      [|discriminate].
    injection H as <-. destruct Hin as [<-|Hin].
    + exists i, t. split; [by left | exact E0].
    + destruct (IH _ _ _ E1 Hin) as (j & t' & Ht' & Hj).
      exists j, t'. split; [by right | exact Hj].
Qed.

Lemma mapInvoices_length rnd (ts : list Tenant) : forall i invs,
  mapInvoices data byId stg scope period rnd i ts = Some invs ->
  length invs = length ts.
Proof.
  induction ts as [|t ts IH]; intros i invs H; simpl in H.
  - by injection H as <-.
  - destruct (invoiceFor data byId stg scope period (rnd i) t); [|discriminate].
    destruct (mapInvoices data byId stg scope period rnd (S i) ts) eqn:E1;
      [|discriminate].
    injection H as <-. simpl. f_equal. by eapply IH.
Qed.

Lemma mapInvoices_total rnd (ts : list Tenant) : forall i,
  (forall t, In t ts -> is_Some (byId !! tenant_unitId t)) ->
  is_Some (mapInvoices data byId stg scope period rnd i ts).
Proof.
  induction ts as [|t ts IH]; intros i Hall; simpl.
  - by eexists.
  - destruct (Hall t (or_introl eq_refl)) as [unit Hu].
    unfold invoiceFor at 1. rewrite Hu.
    destruct (IH (S i)) as [rest ->]; [|by eexists].
    intros t' Ht'. apply Hall. by right.
Qed.

Lemma invoiceFor_Some r t inv :
  invoiceFor data byId stg scope period r t = Some inv ->
  exists unit,
    byId !! tenant_unitId t = Some unit
    /\ inv_unitId inv = unit_id unit
    /\ inv_tenantId inv = tenant_id t
    /\ inv_scope inv = scope
    /\ rentBase inv = convertToBase (rentAmount unit) (rentCurrency unit) stg
    /\ utilitiesBase inv = sumUtilitiesBase data stg (unit_id unit) period scope
    /\ totalBase inv = rentBase inv + utilitiesBase inv.
Proof.
  unfold invoiceFor. destruct (byId !! tenant_unitId t) as [unit|]; [|discriminate].
  intros [= <-]. exists unit. simpl.
  repeat split. destruct scope; simpl; apply Qcmult_1_r.
Qed.
End InvoiceFacts.

Lemma unitsById_singleton (u : Unit) : unitsById [u] !! unit_id u = Some u.
Proof. unfold unitsById; simpl. apply lookup_insert_eq. Qed.

Lemma Qc_of_Z_plus (a b : Z) : Qc_of_Z a + Qc_of_Z b = Qc_of_Z (a + b).
Proof.
  apply Qc_is_canon. simpl. rewrite Qred_correct. unfold Qeq; simpl. lia.
Qed.

Ltac decide_closed :=
  repeat first
    [ rewrite bool_decide_eq_true_2 by reflexivity
    | rewrite bool_decide_eq_false_2 by discriminate ].

(** The list built by the map in the one-tenant scenario. *)
Lemma newInvoices_single_apartment
    (unitId unitName tenantId tenantName startDate chargeId period : string)
    (phone : option string) (rate : Qc) (rnd : nat -> string)
    (old : list Invoice) (pays : list Payment) :
  let unit := mkUnit unitId unitName apartment (Qc_of_Z 200) JOD in
  let t := mkTenant tenantId tenantName phone unitId startDate true in
  let c := mkUtilityCharge chargeId unitId period water (Qc_of_Z 50) JOD in
  let d := mkAppData (mkSettings JOD rate) [unit] [t] [c] old pays in
  page_newInvoices d monthly period "" rnd
  = Some [mkInvoice (uid "inv" (rnd 0%nat)) unitId tenantId period monthly
            (Qc_of_Z 200) (Qc_of_Z 50) (Qc_of_Z 250)].
Proof.
  intros unit t c d.
  assert (Hlk : unitsById [unit] !! unitId = Some unit)
    by apply (unitsById_singleton unit).
  unfold page_newInvoices, newInvoices, eligibleTenants.
  cbn [tenants d List.filter active t negb String.eqb units].
  unfold eligibleFilter at 1. cbn [tenant_unitId t].
  rewrite Hlk. cbn [kind unit]. decide_closed. cbn [andb negb].
  cbn [mapInvoices]. unfold invoiceFor. cbn [tenant_unitId t]. rewrite Hlk.
  decide_closed. unfold sumUtilitiesBase, matchingUtilities, periodFilter.
  cbn [utilities d List.filter util_unitId c unit_id unit].
  rewrite String.eqb_refl. decide_closed. cbn [List.filter util_period c].
  rewrite String.eqb_refl. cbn [foldl util_amount util_currency c].
  cbn [rentAmount rentCurrency unit settings d tenant_id t].
  rewrite !convertToBase_same, Qcmult_1_r, Qcplus_0_l, Qc_of_Z_plus.
  reflexivity.
Qed.

Lemma sample_newInvoices :
  page_newInvoices sample_data monthly "2024-05" "" sample_rnd
  = Some [sample_invoice].
Proof.
  exact (newInvoices_single_apartment "unit_a1" "A1" "tenant_s1" "Sami"
           "2024-01-01" "util_w1" "2024-05" None (Qc_of_Z 5) sample_rnd [] []).
Qed.

Lemma filter_none {A} (f : A -> bool) (l : list A) :
  (forall a, In a l -> f a = false) -> List.filter f l = [].
Proof.
  induction l as [|a l IH]; intros H; simpl; [reflexivity|].
  rewrite (H a (or_introl eq_refl)). apply IH. intros b Hb. apply H. by right.
Qed.

Lemma filter_one {A} (f : A -> bool) (before after : list A) (x : A) :
  f x = true ->
  (forall a, In a (before ++ after) -> f a = false) ->
  List.filter f (before ++ x :: after) = [x].
Proof.
  intros Hx Hrest. rewrite List.filter_app. simpl. rewrite Hx.
  assert (Hb : List.filter f before = [])
    by (apply filter_none; intros a Ha; apply Hrest, in_or_app; by left).
  assert (Ha : List.filter f after = [])
    by (apply filter_none; intros a Ha; apply Hrest, in_or_app; by right).
  by rewrite Hb, Ha.
Qed.

Lemma filter_filter_and {A} (f g : A -> bool) (l : list A) :
  List.filter g (List.filter f l) = List.filter (fun x => f x && g x) l.
Proof.
  induction l as [|a l IH]; simpl; [reflexivity|].
  destruct (f a); simpl; [destruct (g a)|]; by rewrite IH.
Qed.

(** C3: among the tenants of the state exactly one is active in an
    apartment, every other being inactive or in a unit that is missing
    or not an apartment; its apartment is rented for 200 JOD; among the
    charges exactly one is of that unit for the requested month, a charge
    of 50 JOD, every other being of another unit or of another period;
    the base currency is JOD.  Then generation under monthly scope and
    without tenant filter yields exactly one invoice, for that tenant and
    unit, with rent 200, utilities 50 and total 250, put in front of the
    stored invoices, the rest of the state being kept. *)
Theorem C3_single_apartment_invoice
    (d : AppData) (before after : list Tenant) (t : Tenant) (unit : Unit)
    (cb ca : list UtilityCharge) (c : UtilityCharge)
    (period : string) (rnd : nat -> string) :
  tenants d = before ++ t :: after ->
  active t = true ->
  unitsById (units d) !! tenant_unitId t = Some unit ->
  kind unit = apartment ->
  rentAmount unit = Qc_of_Z 200 ->
  rentCurrency unit = JOD ->
  (forall t', In t' (before ++ after) ->
     active t' = false
     \/ forall u, unitsById (units d) !! tenant_unitId t' = Some u ->
                  kind u <> apartment) ->
  utilities d = cb ++ c :: ca ->
  util_unitId c = unit_id unit ->
  util_period c = period ->
  util_amount c = Qc_of_Z 50 ->
  util_currency c = JOD ->
  (forall c', In c' (cb ++ ca) ->
     util_unitId c' <> unit_id unit \/ util_period c' <> period) ->
  baseCurrency (settings d) = JOD ->
  exists inv,
    page_newInvoices d monthly period "" rnd = Some [inv]
    /\ rentBase inv = Qc_of_Z 200
    /\ utilitiesBase inv = Qc_of_Z 50
    /\ totalBase inv = Qc_of_Z 250
    /\ inv_tenantId inv = tenant_id t
    /\ inv_unitId inv = unit_id unit
    /\ inv_period inv = period
    /\ inv_scope inv = monthly
    /\ page_generateInvoices d monthly period "" rnd
       = Some (mkAppData (settings d) (units d) (tenants d) (utilities d)
                 (inv :: invoices d) (payments d)).
Proof.
  intros Hts Hact Hlk Hkind Hrent Hcur Hothers Hcs Hcu Hcp Hcam Hccur Hcothers Hbase.
  assert (Hfilter : forall t', eligibleFilter (unitsById (units d)) monthly t' = true
                    <-> exists u, unitsById (units d) !! tenant_unitId t' = Some u
                                  /\ kind u = apartment).
  { intros t'. unfold eligibleFilter.
    destruct (unitsById (units d) !! tenant_unitId t') as [u|].
    - decide_closed. cbn [andb negb]. destruct (kind u) eqn:Ek.
      + decide_closed. split; [by exists u | reflexivity].
      + decide_closed. cbn [negb].
        split; [discriminate | intros (u' & [= <-] & Hk'); congruence].
    - split; [discriminate | by intros (u' & Hu' & _)]. }
  assert (Hel : page_eligibleTenants d monthly "" = [t]).
  { unfold page_eligibleTenants, eligibleTenants. cbn [String.eqb negb].
    rewrite filter_filter_and, Hts. apply filter_one.
    - rewrite Hact. cbn [andb]. apply Hfilter. by exists unit.
    - intros t' Ht'. destruct (Hothers t' Ht') as [Hina|Hnot].
      + by rewrite Hina.
      + apply andb_false_iff. right.
        destruct (eligibleFilter _ monthly t') eqn:E; [|reflexivity].
        apply Hfilter in E as (u & Hu & Hk). by destruct (Hnot u Hu). }
  assert (Hmatch : matchingUtilities d (unit_id unit) period monthly = [c]).
  { unfold matchingUtilities. rewrite filter_filter_and, Hcs. apply filter_one.
    - unfold periodFilter. decide_closed. rewrite Hcu, Hcp, !String.eqb_refl.
      reflexivity.
    - intros c' Hc'. unfold periodFilter. decide_closed.
      apply andb_false_iff.
      destruct (Hcothers c' Hc') as [Hne|Hne]; [left | right];
        by apply String.eqb_neq. }
  assert (Hconv : forall x, convertToBase x JOD (settings d) = x).
  { intros x. unfold convertToBase. rewrite Hbase. reflexivity. }
  assert (Hsum : sumUtilitiesBase d (settings d) (unit_id unit) period monthly
                 = Qc_of_Z 50).
  { unfold sumUtilitiesBase. rewrite Hmatch. cbn [foldl].
    rewrite Hccur, Hcam, Hconv. apply Qcplus_0_l. }
  assert (Hnew : page_newInvoices d monthly period "" rnd
                 = Some [mkInvoice (uid "inv" (rnd 0%nat)) (unit_id unit)
                           (tenant_id t) period monthly
                           (Qc_of_Z 200) (Qc_of_Z 50) (Qc_of_Z 250)]).
  { unfold page_newInvoices, newInvoices.
    unfold page_eligibleTenants in Hel. rewrite Hel.
    cbn [mapInvoices]. unfold invoiceFor. rewrite Hlk. decide_closed.
    rewrite Hsum, Hrent, Hcur, Hconv, Qcmult_1_r, Qc_of_Z_plus. reflexivity. }
  eexists. split; [exact Hnew|].
  repeat (split; [reflexivity|]).
  unfold page_generateInvoices, generateInvoices.
  unfold page_newInvoices in Hnew. rewrite Hnew. reflexivity.
Qed.

Lemma C3_single_apartment_invoice_witness :
  exists inv,
    page_newInvoices mixed_data monthly "2024-05" "" sample_rnd = Some [inv]
    /\ inv_tenantId inv = "tenant_s1"
    /\ rentBase inv = Qc_of_Z 200
    /\ utilitiesBase inv = Qc_of_Z 50
    /\ totalBase inv = Qc_of_Z 250.
Proof.
  destruct (C3_single_apartment_invoice mixed_data
              [ mkTenant "tenant_o1" "Omar" None "unit_a1" "2022-01-01" false;
                shop_tenant ]
              [ mkTenant "tenant_g1" "Ghada" None "unit_gone" "2021-03-01" true ]
              sample_tenant sample_unit
              [ mkUtilityCharge "util_a4" "unit_a1" "2024-04" water (Qc_of_Z 40) JOD;
                mkUtilityCharge "util_s5" "unit_s1" "2024-05" water (Qc_of_Z 20) JOD ]
              [ mkUtilityCharge "util_a6" "unit_a1" "2024-06" electricity
                  (Qc_of_Z 30) ILS ]
              sample_charge "2024-05" sample_rnd)
    as (inv & Hnew & Hr & Hu & Htot & Ht & _).
  - reflexivity.
  - reflexivity.
  - vm_compute. reflexivity.
  - reflexivity.
  - reflexivity.
  - reflexivity.
  - intros t' [<-|[<-|[<-|[]]]].
    + by left.
    + right. intros u Hu. vm_compute in Hu. injection Hu as <-. discriminate.
    + right. intros u Hu. vm_compute in Hu. discriminate Hu.
  - reflexivity.
  - reflexivity.
  - reflexivity.
  - reflexivity.
  - reflexivity.
  - intros c' [<-|[<-|[<-|[]]]]; cbn; [right | left | right]; discriminate.
  - reflexivity.
  - exists inv. split; [exact Hnew|]. split; [exact Ht|].
    split; [exact Hr|]. split; [exact Hu | exact Htot].
Defined.

(** Yearly run over the shop data: one invoice, for the shop tenant,
    with the two charges of 2024 and not the one of 2023. *)
Example yearly_shop_invoice :
  exists inv,
    page_newInvoices shop_data yearly "2024-01" "" sample_rnd = Some [inv]
    /\ inv_tenantId inv = "tenant_k1"
    /\ inv_period inv = "2024"
    /\ rentBase inv = Qc_of_Z 1200
    /\ utilitiesBase inv = Qc_of_Z 14
    /\ totalBase inv = Qc_of_Z 1214.
Proof.
  eexists. split; [vm_compute; reflexivity|].
  repeat split; apply Qc_is_canon; reflexivity.
Qed.

(** C5: every invoice built by the generation has its total equal to
    rent plus utilities; its rent is the rent of the tenant's unit
    converted to the base currency, the same under monthly and under
    yearly scope. *)
Theorem C5_invoice_total_is_rent_plus_utilities
    (data : AppData) (byId : gmap string Unit) (stg : Settings) (scope : Scope)
    (period tenantFilter : string) (rnd : nat -> string)
    (invs : list Invoice) (inv : Invoice) :
  newInvoices data byId stg scope period tenantFilter rnd = Some invs ->
  In inv invs ->
  totalBase inv = rentBase inv + utilitiesBase inv
  /\ (exists t unit,
        In t (eligibleTenants data byId scope tenantFilter)
        /\ byId !! tenant_unitId t = Some unit
        /\ inv_tenantId inv = tenant_id t
        /\ inv_unitId inv = unit_id unit
        /\ rentBase inv = convertToBase (rentAmount unit) (rentCurrency unit) stg
        /\ utilitiesBase inv = sumUtilitiesBase data stg (unit_id unit) period scope)
  /\ (forall r t p,
        rentBase <$> invoiceFor data byId stg monthly p r t
        = rentBase <$> invoiceFor data byId stg yearly p r t).
Proof.
  intros Hnew Hin. unfold newInvoices in Hnew.
  destruct (mapInvoices_In _ _ _ _ _ _ _ _ _ _ Hnew Hin) as (j & t & Ht & Hj).
  destruct (invoiceFor_Some _ _ _ _ _ _ _ _ Hj)
    as (unit & Hu & Hiu & Hit & _ & Hr & Hut & Htot).
  split; [exact Htot|]. split.
  - exists t, unit. tauto.
  - intros r t' p. unfold invoiceFor.
    destruct (byId !! tenant_unitId t'); reflexivity.
Qed.

Lemma C5_invoice_total_is_rent_plus_utilities_witness :
  totalBase sample_invoice = rentBase sample_invoice + utilitiesBase sample_invoice.
Proof.
  apply (C5_invoice_total_is_rent_plus_utilities sample_data
           (unitsById (units sample_data)) (settings sample_data) monthly
           "2024-05" "" sample_rnd [sample_invoice] sample_invoice).
  - exact sample_newInvoices.
  - left. reflexivity.
Defined.

(** C10: a tenant picked by [eligibleTenants] refers to a unit of the
    current collection, which the index resolves; a tenant whose unit id
    names no unit is not picked; hence the generation never raises, it
    builds one invoice per picked tenant, each for a tenant and a unit
    that exist. *)
Theorem C10_eligible_tenants_resolve
    (d : AppData) (scope : Scope) (period tenantFilter : string)
    (rnd : nat -> string) :
  (forall t, In t (page_eligibleTenants d scope tenantFilter) ->
     exists unit, unitsById (units d) !! tenant_unitId t = Some unit
                  /\ In unit (units d) /\ unit_id unit = tenant_unitId t)
  /\ (forall t, (forall u, In u (units d) -> unit_id u <> tenant_unitId t) ->
        ~ In t (page_eligibleTenants d scope tenantFilter))
  /\ (exists invs,
        page_newInvoices d scope period tenantFilter rnd = Some invs
        /\ length invs = length (page_eligibleTenants d scope tenantFilter)
        /\ forall inv, In inv invs ->
             exists t u, In t (page_eligibleTenants d scope tenantFilter)
                         /\ In u (units d)
                         /\ unit_id u = tenant_unitId t
                         /\ inv_tenantId inv = tenant_id t
                         /\ inv_unitId inv = tenant_unitId t)
  /\ (forall (byId : gmap string Unit) (stg : Settings),
        is_Some (newInvoices d byId stg scope period tenantFilter rnd)).
Proof.
  assert (Hres : forall t, In t (page_eligibleTenants d scope tenantFilter) ->
     exists unit, unitsById (units d) !! tenant_unitId t = Some unit
                  /\ In unit (units d) /\ unit_id unit = tenant_unitId t).
  { intros t Ht. apply eligibleTenants_In in Ht as (_ & _ & Hf & _).
    apply eligibleFilter_Some in Hf as (unit & Hu & _).
    exists unit. split; [exact Hu|]. by apply unitsById_Some. }
  split; [exact Hres|]. split; [|split].
  - intros t Hno Ht. destruct (Hres t Ht) as (unit & _ & Hin & Hid).
    exact (Hno unit Hin Hid).
  - destruct (mapInvoices_total d (unitsById (units d)) (settings d) scope period
                rnd (page_eligibleTenants d scope tenantFilter) 0) as [invs Hinvs].
    { intros t Ht. destruct (Hres t Ht) as (unit & Hu & _). by eexists. }
    exists invs. split; [exact Hinvs|]. split.
    + by eapply mapInvoices_length.
    + intros inv Hin.
      destruct (mapInvoices_In _ _ _ _ _ _ _ _ _ _ Hinvs Hin) as (j & t & Ht & Hj).
      destruct (invoiceFor_Some _ _ _ _ _ _ _ _ Hj)
        as (unit & Hu & Hiu & Hit & _).
      apply unitsById_Some in Hu as [Hin' Hid].
      exists t, unit. rewrite Hiu. tauto.
  - intros byId stg. apply mapInvoices_total.
    intros t Ht. apply eligibleTenants_In in Ht as (_ & _ & Hf & _).
    apply eligibleFilter_Some in Hf as (unit & Hu & _). by eexists.
Qed.

Lemma C10_eligible_tenants_resolve_witness :
  In sample_tenant (page_eligibleTenants sample_data monthly "")
  /\ exists unit, unitsById (units sample_data) !! tenant_unitId sample_tenant = Some unit
                  /\ In unit (units sample_data)
                  /\ unit_id unit = tenant_unitId sample_tenant.
Proof.
  assert (H : In sample_tenant (page_eligibleTenants sample_data monthly "")).
  { vm_compute. left. reflexivity. }
  split; [exact H|].
  exact (proj1 (C10_eligible_tenants_resolve sample_data monthly "2024-05" ""
                  sample_rnd) sample_tenant H).
Defined.

(** ** Utility matching *)

Lemma startsWith_spec (s p : string) :
  startsWith s p = true <-> exists rest, s = p +:+ rest.
Proof.
  revert s. induction p as [|a p IH]; intros s; simpl.
  - split; [intros _; by exists s | reflexivity].
  - destruct s as [|b s].
    + split; [discriminate | intros [rest H]; discriminate H].
    + destruct (Ascii.eqb_spec a b) as [->|Hne].
      * rewrite IH. split; intros [rest H]; exists rest.
        -- by rewrite H.
        -- by injection H.
      * split; [discriminate | intros [rest H]; injection H; congruence].
Qed.

(** When the requested period has its [n] leading characters, starting
    with them is the same as having the same [n] leading characters. *)
Lemma startsWith_slice0 (n : nat) : forall s p : string,
  (n <= String.length p)%nat ->
  startsWith s (slice0 n p) = true <-> slice0 n s = slice0 n p.
Proof.
  induction n as [|n IH]; intros s p Hlen.
  - simpl. tauto.
  - destruct p as [|a p]; [simpl in Hlen; lia|].
    simpl in Hlen. simpl. destruct s as [|b s].
    + split; discriminate.
    + destruct (Ascii.eqb_spec a b) as [->|Hne].
      * rewrite IH by lia. split; [by intros -> | by intros [= ->]].
      * split; [discriminate | intros [= -> _]; congruence].
Qed.

Lemma foldl_sum_map {A} (f : A -> Qc) (l : list A) : forall acc,
  foldl (fun acc u => acc + f u) acc l = acc + foldr Qcplus 0 (map f l).
Proof.
  induction l as [|a l IH]; intros acc; simpl.
  - by rewrite Qcplus_0_r.
  - by rewrite IH, Qcplus_assoc.
Qed.

Section UtilityMatching.
Variable data : AppData.
Variable stg : Settings.
Variables unitId period : string.

Lemma matchingUtilities_In (scope : Scope) (c : UtilityCharge) :
  In c (matchingUtilities data unitId period scope) <->
  In c (utilities data) /\ util_unitId c = unitId
  /\ periodFilter period scope c = true.
Proof.
  unfold matchingUtilities. rewrite !filter_In.
  destruct (String.eqb_spec (util_unitId c) unitId); intuition congruence.
Qed.

Lemma sumUtilitiesBase_sum (scope : Scope) :
  sumUtilitiesBase data stg unitId period scope
  = foldr Qcplus 0
      (map (fun u => convertToBase (util_amount u) (util_currency u) stg)
           (matchingUtilities data unitId period scope)).
Proof.
  unfold sumUtilitiesBase. by rewrite foldl_sum_map, Qcplus_0_l.
Qed.
End UtilityMatching.

(** C4 as stated fails for a requested period shorter than four
    characters: with the empty period a charge of May 2024 is summed
    under yearly scope although its four leading characters are not those
    of the request. *)
Lemma C4_short_period_counterexample :
  In sample_charge (matchingUtilities sample_data "unit_a1" "" yearly)
  /\ sumUtilitiesBase sample_data sample_settings "unit_a1" "" yearly = Qc_of_Z 50
  /\ slice0 4 (util_period sample_charge) <> slice0 4 ""
  /\ ~ (In sample_charge (matchingUtilities sample_data "unit_a1" "" yearly)
        <-> In sample_charge (utilities sample_data)
            /\ util_unitId sample_charge = "unit_a1"
            /\ slice0 4 (util_period sample_charge) = slice0 4 "").
Proof.
  assert (Hin : In sample_charge (matchingUtilities sample_data "unit_a1" "" yearly))
    by (vm_compute; left; reflexivity).
  split; [exact Hin|]. split; [apply Qc_is_canon; reflexivity|].
  split; [discriminate|].
  intros [H _]. destruct (H Hin) as (_ & _ & Habs). discriminate Habs.
Qed.

(** C4, amended: the charges summed for a unit are those of that unit
    whose period, under monthly scope, equals the requested period and,
    under yearly scope, starts with the (at most four) leading characters
    of the requested period; when the requested period has at least four
    characters this is: has the same four leading characters.  The sum
    adds up the amounts after conversion to the base currency. *)
Theorem C4_utility_matching
    (data : AppData) (stg : Settings) (unitId period : string)
    (c : UtilityCharge) :
  (In c (matchingUtilities data unitId period monthly) <->
     In c (utilities data) /\ util_unitId c = unitId /\ util_period c = period)
  /\ (In c (matchingUtilities data unitId period yearly) <->
        In c (utilities data) /\ util_unitId c = unitId
        /\ exists rest, util_period c = slice0 4 period +:+ rest)
  /\ ((4 <= String.length period)%nat ->
      (In c (matchingUtilities data unitId period yearly) <->
         In c (utilities data) /\ util_unitId c = unitId
         /\ slice0 4 (util_period c) = slice0 4 period))
  /\ (forall scope,
        sumUtilitiesBase data stg unitId period scope
        = foldr Qcplus 0
            (map (fun u => convertToBase (util_amount u) (util_currency u) stg)
                 (matchingUtilities data unitId period scope))).
Proof.
  split; [|split; [|split]].
  - rewrite matchingUtilities_In. unfold periodFilter. decide_closed.
    destruct (String.eqb_spec (util_period c) period); intuition congruence.
  - rewrite matchingUtilities_In. unfold periodFilter. decide_closed.
    by rewrite startsWith_spec.
  - intros Hlen. rewrite matchingUtilities_In. unfold periodFilter. decide_closed.
    by rewrite startsWith_slice0.
  - intros scope. apply sumUtilitiesBase_sum.
Qed.

Lemma C4_utility_matching_witness :
  (4 <= String.length "2024-05")%nat
  /\ (In sample_charge (matchingUtilities sample_data "unit_a1" "2024-05" yearly) <->
        In sample_charge (utilities sample_data)
        /\ util_unitId sample_charge = "unit_a1"
        /\ slice0 4 (util_period sample_charge) = slice0 4 "2024-05").
Proof.
  assert (Hlen : (4 <= String.length "2024-05")%nat) by (simpl; lia).
  split; [exact Hlen|].
  exact (proj1 (proj2 (proj2 (C4_utility_matching sample_data sample_settings
                                "unit_a1" "2024-05" sample_charge))) Hlen).
Defined.

(** ** Persistence gateway *)

Lemma getCurrentUserId_no_identity (w : World) :
  identity w = None ->
  getCurrentUserId w
  = if cached w then (Throw NotSignedIn, w)
    else if negb (env_supabase w) then (Throw MissingSupabaseEnv, w)
    else (Throw NotSignedIn, set_cached true w).
Proof.
  unfold identity, getCurrentUserId, bind, getSupabaseClient. intros Hid.
  destruct (cached w), (env_supabase w); simpl;
    destruct (auth_user w) as [id|]; try reflexivity;
    destruct (String.eqb id ""); try reflexivity; discriminate.
Qed.

(** Every write has the shape: client, owner, then one store call; the
    store call is not reached without an identity. *)
Lemma guarded_write_no_identity (k : string -> M unit) (w : World) :
  identity w = None ->
  exists w',
    bind getSupabaseClient (fun _ => bind getCurrentUserId k) w
    = (Throw (if cached w || env_supabase w then NotSignedIn
              else MissingSupabaseEnv), w')
    /\ sent w' = sent w.
Proof.
  intros Hid. unfold bind at 1 2. unfold getSupabaseClient at 1.
  destruct (cached w) eqn:Hc; simpl.
  - rewrite (getCurrentUserId_no_identity w Hid), Hc. by exists w.
  - destruct (env_supabase w) eqn:He; simpl.
    + rewrite (getCurrentUserId_no_identity (set_cached true w)) by exact Hid.
      simpl. by exists (set_cached true w).
    + by exists w.
Qed.

(** With an identity and a client the request sent carries that owner. *)
Lemma dbInsertUnit_scoped (u : Unit) (w : World) (owner : string) :
  identity w = Some owner ->
  cached w || env_supabase w = true ->
  sent (snd (dbInsertUnit u w)) = ReqInsert t_units owner (R_unit u) :: sent w.
Proof.
  unfold identity. intros Hid Hcl.
  destruct (auth_user w) as [id|] eqn:Ha; [|discriminate].
  destruct (String.eqb id "") eqn:Hid'; [discriminate|]. injection Hid as ->.
  unfold dbInsertUnit, bind, getCurrentUserId, bind, getSupabaseClient, send.
  destruct (cached w) eqn:Hc; simpl.
  - rewrite Hc, Ha, Hid'. simpl.
    by destruct (store_answer w _).
  - simpl in Hcl. rewrite Hcl. simpl. rewrite Ha, Hid'. simpl.
    by destruct (store_answer _ _).
Qed.

(** C9 as stated fails where the store client cannot be built: the
    error raised is the one about the missing configuration, not the
    authorization error. *)
Lemma C9_unconfigured_counterexample :
  identity unconfigured_world = None
  /\ runWrite (OpInsertUnit sample_unit) unconfigured_world
     = (Throw MissingSupabaseEnv, unconfigured_world)
  /\ fst (runWrite (OpInsertUnit sample_unit) unconfigured_world)
     <> Throw NotSignedIn.
Proof.
  split; [reflexivity|]. split; [reflexivity|]. discriminate.
Qed.

(** C9, amended: a write attempted without an identity raises an error
    and sends nothing to the store; the error is the authorization error
    whenever the store client is at hand (already built, or buildable
    from the configuration), else the missing-configuration error. *)
Theorem C9_write_without_identity (op : WriteOp) (w : World) :
  identity w = None ->
  exists e w',
    runWrite op w = (Throw e, w')
    /\ sent w' = sent w
    /\ e = (if cached w || env_supabase w then NotSignedIn else MissingSupabaseEnv).
Proof.
  intros Hid.
  destruct op; cbn [runWrite];
    unfold dbUpsertSettings, dbInsertUnit, dbDeleteUnit, dbInsertTenant,
      dbToggleTenantActive, dbDeleteTenant, dbInsertUtility, dbDeleteUtility,
      dbInsertInvoice, dbDeleteInvoice, dbInsertPayment, dbDeletePayment;
    match goal with
    | |- context [bind getSupabaseClient (fun _ => bind getCurrentUserId ?k)] =>
        destruct (guarded_write_no_identity k w Hid) as (w' & Hrun & Hsent)
    end;
    eexists; exists w'; (split; [exact Hrun | split; [exact Hsent | reflexivity]]).
Qed.

Lemma C9_write_without_identity_witness :
  identity signed_out_world = None
  /\ exists e w',
       runWrite (OpDeleteTenant "tenant_s1") signed_out_world = (Throw e, w')
       /\ sent w' = sent signed_out_world
       /\ e = NotSignedIn.
Proof.
  assert (H : identity signed_out_world = None) by reflexivity.
  split; [exact H|].
  exact (C9_write_without_identity (OpDeleteTenant "tenant_s1") signed_out_world H).
Defined.

(** ** Daily refresh of the rate *)

Ltac world_simpl :=
  cbn [auth_user env_rate_key rate_response cached env_supabase store_answer
       app localStorage sent rate_calls negb orb] in *.

Lemma String_nonempty (n : Z) : String_ n <> EmptyString.
Proof.
  unfold String_. destruct n as [|p|p]; simpl; try discriminate.
  unfold NilZero.string_of_uint.
  destruct (Pos.to_uint p); simpl; discriminate.
Qed.

(** What the effect writes is read back as the same number by the
    decimal reading. *)
Lemma decimalNumber_String (n : Z) : decimalNumber (String_ n) = Fin (Qc_of_Z n).
Proof.
  pose proof (String_nonempty n) as Hne. unfold decimalNumber.
  destruct (String_ n) as [|a s] eqn:E; [by destruct Hne|].
  rewrite <- E. unfold String_.
  rewrite NilZero.isi.
  - by rewrite DecimalZ.of_to.
  - destruct n; simpl; try discriminate.
    intros [= H]. by apply DecimalPos.Unsigned.to_uint_nonnil in H.
  - destruct n; simpl; try discriminate.
    intros [= H]. by apply DecimalPos.Unsigned.to_uint_nonnil in H.
Qed.

Lemma rateIsStale_true (l : JSNum) (now : Z) :
  rateIsStale l now = true <->
  l = NaN \/ l = NegInf \/ l = Fin 0
  \/ exists q, l = Fin q /\ Qc_of_Z DAY_MS < Qc_of_Z now - q.
Proof.
  unfold rateIsStale. destruct l as [| | |q].
  - split; [by left | reflexivity].
  - split; [discriminate|]. intros [H|[H|[H|(q & H & _)]]]; discriminate H.
  - split; [right; by left | reflexivity].
  - rewrite orb_true_iff, !bool_decide_eq_true. split.
    + intros [->|H]; [right; right; by left | right; right; right; by exists q].
    + intros [H|[H|[H|(q' & H & Hlt)]]]; try discriminate H.
      * left. by injection H.
      * right. by injection H as ->.
Qed.

Lemma rateIsStale_false (q : Qc) (now : Z) :
  q <> 0 -> Qc_of_Z now - q <= Qc_of_Z DAY_MS -> rateIsStale (Fin q) now = false.
Proof.
  intros Hq Hd. unfold rateIsStale. apply orb_false_iff.
  split; apply bool_decide_eq_false; [exact Hq|]. by apply Qcle_not_lt.
Qed.

Section RateEffectFacts.
Variable toNumber : string -> JSNum.

Lemma rateEffectStart_fresh (now : Z) (st : Storage) (w : World) :
  rateIsStale (lastUpdated toNumber w) now = false ->
  rateEffectStart toNumber now st w = (None, w).
Proof.
  intros H. unfold rateEffectStart. rewrite H. by destruct (canRead st).
Qed.

(** A start reaches the provider only on a stale stamp, and leaves page
    state, storage and requests alone. *)
Lemma rateEffectStart_frame (now : Z) (st : Storage) (w : World) :
  app (snd (rateEffectStart toNumber now st w)) = app w
  /\ localStorage (snd (rateEffectStart toNumber now st w)) = localStorage w
  /\ sent (snd (rateEffectStart toNumber now st w)) = sent w
  /\ (rate_calls (snd (rateEffectStart toNumber now st w)) <> rate_calls w ->
      rateIsStale (lastUpdated toNumber w) now = true).
Proof.
  unfold rateEffectStart.
  destruct (canRead st); cbn [negb]; [|by repeat split].
  destruct (rateIsStale (lastUpdated toNumber w) now); [|by repeat split].
  destruct (env_rate_key w); cbn [negb]; by repeat split.
Qed.

Lemma persistEffect_frame (stringify : AppData -> string) (st : Storage) (w : World) :
  app (persistEffect stringify st w) = app w
  /\ rate_calls (persistEffect stringify st w) = rate_calls w
  /\ sent (persistEffect stringify st w) = sent w
  /\ localStorage (persistEffect stringify st w) !! rate_key
     = localStorage w !! rate_key.
Proof.
  unfold persistEffect. destruct (canWrite st); [|by repeat split].
  repeat split. cbn [localStorage set_localStorage].
  by rewrite lookup_insert_ne.
Qed.

Lemma lastUpdated_stamp (w1 w2 : World) :
  localStorage w1 !! rate_key = localStorage w2 !! rate_key ->
  lastUpdated toNumber w1 = lastUpdated toNumber w2.
Proof. unfold lastUpdated. by intros ->. Qed.

Lemma step_fresh (stringify : AppData -> string) (q : Qc) (pg : Page) (e : Event) :
  lastUpdated toNumber (world pg) = Fin q ->
  q <> 0 ->
  pending pg = [] ->
  (forall now, eventClock e = Some now -> Qc_of_Z now - q <= Qc_of_Z DAY_MS) ->
  lastUpdated toNumber (world (step toNumber stringify pg e)) = Fin q
  /\ pending (step toNumber stringify pg e) = []
  /\ rate_calls (world (step toNumber stringify pg e)) = rate_calls (world pg)
  /\ localStorage (world (step toNumber stringify pg e)) !! rate_key
     = localStorage (world pg) !! rate_key.
Proof.
  intros Hl Hq Hp Hclk. destruct pg as [w ps]. cbn [world pending] in *. subst ps.
  assert (Hfresh : forall now w1,
             eventClock e = Some now ->
             localStorage w1 !! rate_key = localStorage w !! rate_key ->
             rateEffectStart toNumber now (match e with
                                           | Mounts _ st | DataSet _ _ st
                                           | Resumes _ st => st
                                           end) w1 = (None, w1)).
  { intros now w1 He Hw1. apply rateEffectStart_fresh.
    rewrite (lastUpdated_stamp w1 w Hw1), Hl.
    apply rateIsStale_false; [exact Hq|]. by apply Hclk. }
  destruct e as [now st|f now st|k st]; cbn [step world pending].
  - destruct (persistEffect_frame stringify st w) as (_ & Hc & _ & Hs).
    unfold startRun. cbn [world pending].
    rewrite (Hfresh now _ eq_refl Hs). cbn [world pending].
    rewrite (lastUpdated_stamp _ w Hs). by repeat split.
  - destruct (persistEffect_frame stringify st (set_app (f (app w)) w))
      as (_ & Hc & _ & Hs).
    cbn [localStorage rate_calls set_app] in Hc, Hs.
    destruct (bool_decide _); cbn [world pending].
    + rewrite (lastUpdated_stamp _ w Hs). by repeat split.
    + unfold startRun. cbn [world pending].
      rewrite (Hfresh now _ eq_refl Hs). cbn [world pending].
      rewrite (lastUpdated_stamp _ w Hs). by repeat split.
  - by repeat split.
Qed.
Lemma runEvents_fresh (stringify : AppData -> string) (q : Qc)
    (evs : list Event) (pg : Page) :
  lastUpdated toNumber (world pg) = Fin q ->
  q <> 0 ->
  pending pg = [] ->
  Forall (fun e => forall now, eventClock e = Some now ->
                               Qc_of_Z now - q <= Qc_of_Z DAY_MS) evs ->
  rate_calls (world (runEvents toNumber stringify evs pg)) = rate_calls (world pg)
  /\ localStorage (world (runEvents toNumber stringify evs pg)) !! rate_key
     = localStorage (world pg) !! rate_key
  /\ pending (runEvents toNumber stringify evs pg) = [].
Proof.
  intros Hl Hq Hp Hevs.
  revert pg Hl Hp. induction Hevs as [|e evs He Hevs IH]; intros pg Hl Hp.
  - by repeat split.
  - destruct (step_fresh stringify q pg e Hl Hq Hp He) as (Hl' & Hp' & Hc' & Hs').
    unfold runEvents. cbn [foldl].
    destruct (IH (step toNumber stringify pg e) Hl' Hp') as (H1 & H2 & H3).
    unfold runEvents in H1, H2, H3.
    rewrite H1, H2, H3, Hc', Hs'. by repeat split.
Qed.

End RateEffectFacts.

Lemma Qc_of_Z_nonzero (n : Z) : n <> 0%Z -> Qc_of_Z n <> 0.
Proof.
  intros Hn H. apply Hn. apply Z2Qc_inj. rewrite H. apply Qc_is_canon. reflexivity.
Qed.

Lemma Qc_of_Z_since (t now : Z) :
  (t <= now + DAY_MS)%Z -> Qc_of_Z t - Qc_of_Z now <= Qc_of_Z DAY_MS.
Proof.
  intros H. rewrite <- Z2Qc_inj_sub. apply (proj1 (Z2Qc_inj_le _ _)).
  unfold DAY_MS in *. lia.
Qed.


(** * Further properties of the page and of the gateway *)

(** ** Deletions *)

Lemma filter_filter_comm {A} (f g : A -> bool) (l : list A) :
  List.filter f (List.filter g l) = List.filter g (List.filter f l).
Proof.
  induction l as [|a l IH]; simpl; [reflexivity|].
  destruct (f a) eqn:Ef, (g a) eqn:Eg; simpl; rewrite ?Ef, ?Eg, IH; reflexivity.
Qed.

Lemma filter_idem {A} (f : A -> bool) (l : list A) :
  List.filter f (List.filter f l) = List.filter f l.
Proof.
  induction l as [|a l IH]; simpl; [reflexivity|].
  destruct (f a) eqn:Ef; simpl; rewrite ?Ef, IH; reflexivity.
Qed.

(** X1: [removeTenant id] drops the tenants with that id and the
    invoices and payments of that tenant, keeps every other record of
    these three collections in order, and leaves units, utility charges
    and settings as they are. *)
Theorem X1_removeTenant_cascade (d : AppData) (id : string) :
  (forall t, In t (tenants (removeTenant id d))
             <-> In t (tenants d) /\ tenant_id t <> id)
  /\ (forall i, In i (invoices (removeTenant id d))
                <-> In i (invoices d) /\ inv_tenantId i <> id)
  /\ (forall p, In p (payments (removeTenant id d))
                <-> In p (payments d) /\ pay_tenantId p <> id)
  /\ sublist (tenants (removeTenant id d)) (tenants d)
  /\ sublist (invoices (removeTenant id d)) (invoices d)
  /\ sublist (payments (removeTenant id d)) (payments d)
  /\ units (removeTenant id d) = units d
  /\ utilities (removeTenant id d) = utilities d
  /\ settings (removeTenant id d) = settings d.
Proof.
  unfold removeTenant; simpl.
  repeat match goal with |- _ /\ _ => split end;
    try apply filter_keeps_order;
    try reflexivity;
    intros x; rewrite filter_In, negb_eqb_ne; reflexivity.
Qed.

(** X2: deleting a unit twice is deleting it once, and deleting a unit
    and deleting a tenant give the same state in either order. *)
Theorem X2_deletions_compose (d : AppData) (unitId tenantId : string) :
  removeUnit unitId (removeUnit unitId d) = removeUnit unitId d
  /\ removeTenant tenantId (removeTenant tenantId d) = removeTenant tenantId d
  /\ removeUnit unitId (removeTenant tenantId d)
     = removeTenant tenantId (removeUnit unitId d).
Proof.
  unfold removeUnit, removeTenant; simpl. repeat split; f_equal;
    first [apply filter_idem | apply filter_filter_comm | reflexivity].
Qed.

(** ** Toggling a tenant *)

Lemma toggleTenant_involutive (id : string) (t : Tenant) :
  toggleTenant id (toggleTenant id t) = t.
Proof.
  unfold toggleTenant. destruct (String.eqb (tenant_id t) id) eqn:E.
  - cbn [tenant_id]. rewrite E. destruct t; simpl. by rewrite negb_involutive.
  - by rewrite E.
Qed.

Lemma toggleTenant_id (id : string) (t : Tenant) :
  tenant_id (toggleTenant id t) = tenant_id t.
Proof. unfold toggleTenant. by destruct (String.eqb (tenant_id t) id). Qed.

Lemma find_toggle (id : string) (ts : list Tenant) :
  List.find (fun t => String.eqb (tenant_id t) id) (map (toggleTenant id) ts)
  = toggleTenant id <$> List.find (fun t => String.eqb (tenant_id t) id) ts.
Proof.
  induction ts as [|t ts IH]; simpl; [reflexivity|].
  rewrite toggleTenant_id. destruct (String.eqb (tenant_id t) id); [reflexivity|exact IH].
Qed.

(** X3: toggling flips the flag of exactly the tenants with the given
    id and nothing else; toggling twice restores the state; and the flag
    computed for the remote update is the flag the first tenant of that
    id shows afterwards, or [false] when no tenant has that id. *)
Theorem X3_toggleActive_local (d : AppData) (id : string) :
  toggleActiveLocal id (toggleActiveLocal id d) = d
  /\ length (tenants (toggleActiveLocal id d)) = length (tenants d)
  /\ (forall n t, tenants d !! n = Some t ->
        tenants (toggleActiveLocal id d) !! n
        = Some (if String.eqb (tenant_id t) id
                then mkTenant (tenant_id t) (tenant_name t) (phone t)
                       (tenant_unitId t) (startDate t) (negb (active t))
                else t))
  /\ toggleNext id d
     = match List.find (fun t => String.eqb (tenant_id t) id)
               (tenants (toggleActiveLocal id d)) with
       | Some t => active t
       | None => false
       end.
Proof.
  split; [|split; [|split]].
  - destruct d as [s us ts cs ivs ps]. unfold toggleActiveLocal; simpl. f_equal.
    rewrite map_map. rewrite <- (map_id ts) at 2. apply map_ext.
    apply toggleTenant_involutive.
  - simpl. apply length_map.
  - intros n t Hn. simpl. rewrite list_lookup_fmap, Hn. reflexivity.
  - unfold toggleNext. simpl. rewrite find_toggle.
    destruct (List.find _ (tenants d)) as [t|] eqn:E; simpl; [|reflexivity].
    apply find_some in E as [_ E]. unfold toggleTenant. by rewrite E.
Qed.

(** ** The gateway with an identity *)

Lemma identity_Some (w : World) (owner : string) :
  identity w = Some owner ->
  auth_user w = Some owner /\ String.eqb owner "" = false.
Proof.
  unfold identity. destruct (auth_user w) as [id|]; [|discriminate].
  destruct (String.eqb id "") eqn:E; [discriminate|]. by intros [= <-].
Qed.

Lemma guarded_write_identity (mk : string -> Request) (w : World) (owner : string) :
  identity w = Some owner ->
  cached w || env_supabase w = true ->
  bind getSupabaseClient (fun _ => bind getCurrentUserId (fun o => send (mk o))) w
  = (match store_answer w (mk owner) with
     | Some msg => Throw (StoreError msg)
     | None => Ok tt
     end,
     set_sent (mk owner :: sent w) (set_cached true w)).
Proof.
  intros Hid Hcl. apply identity_Some in Hid as [Ha Hne].
  destruct w as [env c au ans snt key resp calls ls ap]. world_simpl. subst au.
  unfold bind, getCurrentUserId, bind, getSupabaseClient, send, set_sent, set_cached.
  world_simpl.
  destruct c; world_simpl.
  - rewrite Hne. world_simpl. by destruct (ans _).
  - subst env. world_simpl. rewrite Hne. world_simpl. by destruct (ans _).
Qed.

(** Whatever the world, a write wrapped in [try { } catch { }] returns,
    sends at most one request, none without an identity, and touches
    neither the page state nor the local storage. *)
Lemma guarded_write_ignored (mk : string -> Request) (w : World) :
  exists w',
    try_ignore
      (bind getSupabaseClient (fun _ => bind getCurrentUserId (fun o => send (mk o)))) w
    = (Ok tt, w')
    /\ app w' = app w
    /\ localStorage w' = localStorage w
    /\ rate_calls w' = rate_calls w
    /\ (sent w' = sent w \/ exists r, sent w' = r :: sent w)
    /\ (identity w = None -> sent w' = sent w).
Proof.
  destruct w as [env c au ans snt key resp calls ls ap].
  unfold try_ignore, bind, getCurrentUserId, bind, getSupabaseClient, send,
    set_sent, set_cached, identity.
  world_simpl.
  destruct c; world_simpl.
  - destruct au as [id|]; [destruct (String.eqb id "") eqn:E|]; world_simpl.
    + eexists. repeat split; auto.
    + destruct (ans _); eexists; (repeat split; [right; by eexists | discriminate]).
    + eexists. repeat split; auto.
  - destruct env; world_simpl.
    + destruct au as [id|]; [destruct (String.eqb id "") eqn:E|]; world_simpl.
      * eexists. repeat split; auto.
      * destruct (ans _); eexists; (repeat split; [right; by eexists | discriminate]).
      * eexists. repeat split; auto.
    + eexists. repeat split; auto.
Qed.

(** X4: with an identity and a store client, every write operation
    sends exactly one request, addressed to the table of its entity and
    scoped by the caller's id, and throws exactly when the store answers
    that request with an error. *)
Theorem X4_write_scoped_by_owner (op : WriteOp) (w : World) (owner : string) :
  identity w = Some owner ->
  cached w || env_supabase w = true ->
  exists r,
    runWrite op w
    = (match store_answer w r with
       | Some msg => Throw (StoreError msg)
       | None => Ok tt
       end,
       set_sent (r :: sent w) (set_cached true w))
    /\ req_owner r = owner
    /\ req_table r = opTable op.
Proof.
  intros Hid Hcl.
  destruct op; cbn [runWrite opTable];
    unfold dbUpsertSettings, dbInsertUnit, dbDeleteUnit, dbInsertTenant,
      dbToggleTenantActive, dbDeleteTenant, dbInsertUtility, dbDeleteUtility,
      dbInsertInvoice, dbDeleteInvoice, dbInsertPayment, dbDeletePayment;
    match goal with
    | |- context [bind getCurrentUserId (fun o => send (@?mk o))] =>
        exists (mk owner);
        split; [exact (guarded_write_identity mk w owner Hid Hcl) | split; reflexivity]
    end.
Qed.

Lemma X4_write_scoped_by_owner_witness :
  exists r,
    runWrite (OpInsertTenant sample_tenant) first_load_world
    = (match store_answer first_load_world r with
       | Some msg => Throw (StoreError msg)
       | None => Ok tt
       end,
       set_sent (r :: sent first_load_world) (set_cached true first_load_world))
    /\ req_owner r = "owner-1"
    /\ req_table r = opTable (OpInsertTenant sample_tenant).
Proof.
  apply (X4_write_scoped_by_owner (OpInsertTenant sample_tenant) first_load_world
           "owner-1"); reflexivity.
Defined.

(** ** Handlers: local update first, remote write ignored on failure *)

Lemma bind_setData {B} (f : AppData -> AppData) (k : unit -> M B) (w : World) :
  bind (setData f) k w = k tt (set_app (f (app w)) w).
Proof. reflexivity. Qed.

Lemma bind_getData {B} (k : AppData -> M B) (w : World) :
  bind getData k w = k (app w) w.
Proof. reflexivity. Qed.

(** X5: every handler returns normally and leaves the page state equal
    to its local update of the former state, whatever the remote side
    does; it sends at most one request, and none without an identity. *)
Theorem X5_handlers_update_locally (h : Handler) (w : World) :
  exists w',
    runHandler h w = (Ok tt, w')
    /\ app w' = localUpdate h (app w)
    /\ (sent w' = sent w \/ exists r, sent w' = r :: sent w)
    /\ (identity w = None -> sent w' = sent w).
Proof.
  destruct h; cbn [runHandler localUpdate];
    unfold removeUnitHandler, removeTenantHandler, removeUtilityHandler,
      removeInvoiceHandler, removePaymentHandler, toggleActive,
      updateBaseCurrency, updateExchangeRate,
      dbDeleteUnit, dbDeleteTenant, dbDeleteUtility, dbDeleteInvoice,
      dbDeletePayment, dbToggleTenantActive, dbUpsertSettings;
    rewrite ?bind_getData, bind_setData;
    match goal with
    | |- context [try_ignore
                    (bind getSupabaseClient
                       (fun _ => bind getCurrentUserId (fun o => send (@?mk o))))
                    (set_app ?d w)] =>
        destruct (guarded_write_ignored mk (set_app d w))
          as (w' & Hrun & Happ & Hls & _ & Hsent & Hnone);
        exists w'; rewrite Hrun;
        (split; [reflexivity|]); (split; [exact Happ|]);
        (split; [exact Hsent|exact Hnone])
    end.
Qed.

(** X6: deleting a unit while signed in cascades over the five local
    collections but asks the store to delete the unit row only: one
    request, on the units table; and the local cascade stays even when
    the store answers with an error. *)
Theorem X6_removeUnit_remote_single_row (id : string) (w : World) (owner : string) :
  identity w = Some owner ->
  cached w || env_supabase w = true ->
  fst (removeUnitHandler id w) = Ok tt
  /\ app (snd (removeUnitHandler id w)) = removeUnit id (app w)
  /\ sent (snd (removeUnitHandler id w)) = ReqDelete t_units id owner :: sent w.
Proof.
  intros Hid Hcl. unfold removeUnitHandler. rewrite bind_setData.
  unfold try_ignore, dbDeleteUnit.
  rewrite (guarded_write_identity (fun o => ReqDelete t_units id o)
             (set_app (removeUnit id (app w)) w) owner Hid Hcl).
  repeat split.
Qed.

Lemma X6_removeUnit_remote_single_row_witness :
  app (snd (removeUnitHandler "unit_a1" first_load_world))
  = removeUnit "unit_a1" sample_data
  /\ sent (snd (removeUnitHandler "unit_a1" first_load_world))
     = [ReqDelete t_units "unit_a1" "owner-1"].
Proof.
  exact (proj2 (X6_removeUnit_remote_single_row "unit_a1" first_load_world
                  "owner-1" eq_refl eq_refl)).
Defined.

(** X7: toggling while signed in sends one update of the tenants table
    whose flag is the one computed from the state before the click; for
    an id that no tenant has, the local state stays as it is and the
    update sent still sets the flag to [false]. *)
Theorem X7_toggleActive_remote (id : string) (w : World) (owner : string) :
  identity w = Some owner ->
  cached w || env_supabase w = true ->
  fst (toggleActive id w) = Ok tt
  /\ app (snd (toggleActive id w)) = toggleActiveLocal id (app w)
  /\ sent (snd (toggleActive id w))
     = ReqUpdateActive t_tenants id owner (toggleNext id (app w)) :: sent w
  /\ ((forall t, In t (tenants (app w)) -> tenant_id t <> id) ->
      toggleActiveLocal id (app w) = app w /\ toggleNext id (app w) = false).
Proof.
  intros Hid Hcl. unfold toggleActive. rewrite bind_getData, bind_setData.
  unfold try_ignore, dbToggleTenantActive.
  rewrite (guarded_write_identity
             (fun o => ReqUpdateActive t_tenants id o (toggleNext id (app w)))
             (set_app (toggleActiveLocal id (app w)) w) owner Hid Hcl).
  repeat split.
  - destruct (app w) as [s us ts cs ivs ps]. unfold toggleActiveLocal.
    cbn [tenants] in *. f_equal; try reflexivity.
    rewrite <- (map_id ts) at 2. apply map_ext_in. intros t Ht.
    unfold toggleTenant. destruct (String.eqb_spec (tenant_id t) id) as [E|_];
      [by destruct (H t Ht) | reflexivity].
  - unfold toggleNext.
    destruct (List.find _ (tenants (app w))) as [t|] eqn:E; [|reflexivity].
    apply find_some in E as [Hin E]. apply String.eqb_eq in E.
    by destruct (H t Hin).
Qed.

Lemma X7_toggleActive_remote_witness :
  sent (snd (toggleActive "tenant_s1" first_load_world))
  = [ReqUpdateActive t_tenants "tenant_s1" "owner-1" false]
  /\ sent (snd (toggleActive "nobody" first_load_world))
     = [ReqUpdateActive t_tenants "nobody" "owner-1" false].
Proof.
  split.
  - exact (proj1 (proj2 (proj2 (X7_toggleActive_remote "tenant_s1" first_load_world
                                  "owner-1" eq_refl eq_refl)))).
  - exact (proj1 (proj2 (proj2 (X7_toggleActive_remote "nobody" first_load_world
                                  "owner-1" eq_refl eq_refl)))).
Defined.

(** ** Manual and automatic rate refresh *)

(** X8: the manual refresh never throws and leaves the stamp of the
    automatic refresh as it is, so it neither obeys nor resets the 24-hour
    gate; with the provider key it calls the provider once, whatever the
    stamp, and without it it changes nothing; it reports success only
    after the provider gave a rate, and then the settings of the page
    state are the base currency from before with that rate, the five
    collections being untouched; on any failure the page state is the
    one from before. *)
Theorem X8_autoFetchRate_ungated (w : World) :
  exists msg w',
    autoFetchRate w = (Ok msg, w')
    /\ localStorage w' !! rate_key = localStorage w !! rate_key
    /\ (env_rate_key w = true -> rate_calls w' = S (rate_calls w))
    /\ (env_rate_key w = false -> msg = SyncFailed MissingRateKey /\ w' = w)
    /\ match msg with
       | RateUpdated =>
           exists r, rate_response w = RespRate r
                     /\ settings (app w')
                        = mkSettings (baseCurrency (settings (app w))) r
                     /\ units (app w') = units (app w)
                     /\ tenants (app w') = tenants (app w)
                     /\ utilities (app w') = utilities (app w)
                     /\ invoices (app w') = invoices (app w)
                     /\ payments (app w') = payments (app w)
       | SyncFailed _ => app w' = app w
       end.
Proof.
  destruct w as [env c au ans snt key resp calls ls ap].
  unfold autoFetchRate, try_catch, bind, fetchJodIlsRate, getData,
    dbUpsertSettings, getCurrentUserId, bind, getSupabaseClient, send, setData,
    ret, set_rate_calls, set_cached, set_sent, set_app.
  world_simpl.
  destruct key; world_simpl.
  2:{ do 2 eexists. repeat split; try discriminate; reflexivity. }
  destruct resp; world_simpl;
    try (do 2 eexists; repeat split; try discriminate; reflexivity).
  destruct c; world_simpl.
  - destruct au as [id|]; [destruct (String.eqb id "")|]; world_simpl;
      try (do 2 eexists; repeat split; try discriminate; reflexivity).
    destruct (ans _); world_simpl;
      do 2 eexists; repeat split; try discriminate; try reflexivity.
    eexists. repeat split.
  - destruct env; world_simpl;
      try (do 2 eexists; repeat split; try discriminate; reflexivity).
    destruct au as [id|]; [destruct (String.eqb id "")|]; world_simpl;
      try (do 2 eexists; repeat split; try discriminate; reflexivity).
    destruct (ans _); world_simpl;
      do 2 eexists; repeat split; try discriminate; try reflexivity.
    eexists. repeat split.
Qed.

(** X9: the automatic refresh, answer by answer.  Its start changes
    neither the page state nor the local storage nor what was sent.  The
    answers of the provider and of the identity provider change neither
    page state nor storage, and without an identity the run ends there
    with nothing sent.  Only the answer of the store does: on an error the
    run is over with nothing changed; otherwise the settings become the
    base currency they have with the fetched rate, the collections being
    untouched, and the stamp is the clock reading of the start of the run
    if the storage takes the write, while a storage that refuses leaves
    the new rate without a stamp.  So the stamp is never written without
    the rate, but the rate can be. *)
Theorem X9_rate_effect_rate_then_stamp (toNumber : string -> JSNum)
    (now : Z) (st : Storage) (p : Pending) (w : World) :
  (app (snd (rateEffectStart toNumber now st w)) = app w
   /\ localStorage (snd (rateEffectStart toNumber now st w)) = localStorage w
   /\ sent (snd (rateEffectStart toNumber now st w)) = sent w)
  /\ match p with
     | AwaitRate _ _ =>
         app (snd (rateEffectResume p st w)) = app w
         /\ localStorage (snd (rateEffectResume p st w)) = localStorage w
         /\ sent (snd (rateEffectResume p st w)) = sent w
     | AwaitUser _ _ _ =>
         app (snd (rateEffectResume p st w)) = app w
         /\ localStorage (snd (rateEffectResume p st w)) = localStorage w
         /\ (auth_user w = None \/ auth_user w = Some ""
             <-> rateEffectResume p st w = (None, w))
     | AwaitStore t rate req =>
         fst (rateEffectResume p st w) = None
         /\ sent (snd (rateEffectResume p st w)) = sent w
         /\ match store_answer w req with
            | Some _ => snd (rateEffectResume p st w) = w
            | None =>
                settings (app (snd (rateEffectResume p st w)))
                = mkSettings (baseCurrency (settings (app w))) rate
                /\ units (app (snd (rateEffectResume p st w))) = units (app w)
                /\ tenants (app (snd (rateEffectResume p st w))) = tenants (app w)
                /\ utilities (app (snd (rateEffectResume p st w))) = utilities (app w)
                /\ invoices (app (snd (rateEffectResume p st w))) = invoices (app w)
                /\ payments (app (snd (rateEffectResume p st w))) = payments (app w)
                /\ localStorage (snd (rateEffectResume p st w))
                   = match st with
                     | StorageWorks => <[rate_key := String_ t]> (localStorage w)
                     | _ => localStorage w
                     end
            end
     end.
Proof.
  split.
  - destruct (rateEffectStart_frame toNumber now st w) as (H1 & H2 & H3 & _).
    by repeat split.
  - destruct p as [t base|t base rate|t rate req]; cbn [rateEffectResume].
    + destruct (rate_response w); try by repeat split.
      unfold getSupabaseClient.
      destruct (cached w) eqn:Hc; [rewrite Hc; by repeat split|].
      destruct (env_supabase w); cbn [negb cached set_cached]; by repeat split.
    + destruct (auth_user w) as [id|] eqn:Ha.
      * destruct (String.eqb_spec id "") as [->|Hne].
        -- repeat split; by eauto.
        -- repeat split.
           ++ intros [H|H]; [discriminate H | injection H as H; by destruct Hne].
           ++ intros H. injection H as _ H. apply (f_equal sent) in H.
              cbn [sent set_sent] in H. exfalso.
              apply (f_equal (@List.length Request)) in H. cbn in H. lia.
      * repeat split; by eauto.
    + destruct (store_answer w req); [by repeat split|].
      destruct st; by repeat split.
Qed.

(** ** An uninterrupted run of the automatic refresh *)

(** X28: a run of the automatic refresh that nothing interrupts either
    leaves page state and storage as they were, or ends with the rate the
    provider gave in the settings, the base currency and the collections
    being untouched, and then with the stamp of its start if the storage
    takes the write; it calls the provider at most once, and without an
    identity it sends nothing, changes neither state nor storage, and so
    leaves the stamp for the next run as it found it. *)
Theorem X28_dailyRateEffect_uninterrupted (toNumber : string -> JSNum)
    (now : Z) (st : Storage) (w : World) :
  ((exists r, rate_response w = RespRate r
              /\ rateIsStale (lastUpdated toNumber w) now = true
              /\ settings (app (dailyRateEffect toNumber now st w))
                 = mkSettings (baseCurrency (settings (app w))) r
              /\ units (app (dailyRateEffect toNumber now st w)) = units (app w)
              /\ tenants (app (dailyRateEffect toNumber now st w)) = tenants (app w)
              /\ utilities (app (dailyRateEffect toNumber now st w))
                 = utilities (app w)
              /\ invoices (app (dailyRateEffect toNumber now st w)) = invoices (app w)
              /\ payments (app (dailyRateEffect toNumber now st w)) = payments (app w)
              /\ localStorage (dailyRateEffect toNumber now st w)
                 = match st with
                   | StorageWorks => <[rate_key := String_ now]> (localStorage w)
                   | _ => localStorage w
                   end)
   \/ (app (dailyRateEffect toNumber now st w) = app w
       /\ localStorage (dailyRateEffect toNumber now st w) = localStorage w))
  /\ (rate_calls (dailyRateEffect toNumber now st w) = rate_calls w
      \/ rate_calls (dailyRateEffect toNumber now st w) = S (rate_calls w)
         /\ rateIsStale (lastUpdated toNumber w) now = true)
  /\ (identity w = None ->
      sent (dailyRateEffect toNumber now st w) = sent w
      /\ app (dailyRateEffect toNumber now st w) = app w
      /\ localStorage (dailyRateEffect toNumber now st w) = localStorage w).
Proof.
  destruct w as [env c au ans snt key resp calls ls ap].
  unfold identity, dailyRateEffect, rateEffectStart, lastUpdated.
  world_simpl.
  destruct (canRead st) eqn:Hr; cbn [negb];
    [|cbn [resumeAll]; world_simpl; split; [right; by split | split; [by left | done]]].
  destruct (rateIsStale _ now) eqn:Hs;
    [|cbn [resumeAll]; world_simpl; split; [right; by split | split; [by left | done]]].
  destruct key; cbn [negb];
    [|cbn [resumeAll]; world_simpl; split; [right; by split | split; [by left | done]]].
  unfold set_rate_calls. world_simpl.
  cbn [resumeAll rateEffectResume rate_response].
  destruct resp; cbn [resumeAll]; world_simpl;
    try by (split; [by right | split; [by right | done]]).
  unfold getSupabaseClient, set_cached. world_simpl.
  assert (Hend : forall c',
    let w1 := mkWorld env c' au ans snt true (RespRate r) (S calls) ls ap in
    ((exists r0, RespRate r = RespRate r0 /\ true = true
        /\ settings (app (resumeAll 2 (Some (AwaitUser now (baseCurrency (settings ap)) r)) st w1))
           = mkSettings (baseCurrency (settings ap)) r0
        /\ units (app (resumeAll 2 (Some (AwaitUser now (baseCurrency (settings ap)) r)) st w1)) = units ap
        /\ tenants (app (resumeAll 2 (Some (AwaitUser now (baseCurrency (settings ap)) r)) st w1)) = tenants ap
        /\ utilities (app (resumeAll 2 (Some (AwaitUser now (baseCurrency (settings ap)) r)) st w1)) = utilities ap
        /\ invoices (app (resumeAll 2 (Some (AwaitUser now (baseCurrency (settings ap)) r)) st w1)) = invoices ap
        /\ payments (app (resumeAll 2 (Some (AwaitUser now (baseCurrency (settings ap)) r)) st w1)) = payments ap
        /\ localStorage (resumeAll 2 (Some (AwaitUser now (baseCurrency (settings ap)) r)) st w1)
           = match st with
             | StorageWorks => <[rate_key := String_ now]> ls
             | _ => ls
             end)
     \/ (app (resumeAll 2 (Some (AwaitUser now (baseCurrency (settings ap)) r)) st w1) = ap
         /\ localStorage (resumeAll 2 (Some (AwaitUser now (baseCurrency (settings ap)) r)) st w1) = ls))
    /\ (rate_calls (resumeAll 2 (Some (AwaitUser now (baseCurrency (settings ap)) r)) st w1) = calls
        \/ rate_calls (resumeAll 2 (Some (AwaitUser now (baseCurrency (settings ap)) r)) st w1) = S calls
           /\ true = true)
    /\ (match au with
        | Some id => if String.eqb id "" then None else Some id
        | None => None
        end = None ->
        sent (resumeAll 2 (Some (AwaitUser now (baseCurrency (settings ap)) r)) st w1) = snt
        /\ app (resumeAll 2 (Some (AwaitUser now (baseCurrency (settings ap)) r)) st w1) = ap
        /\ localStorage (resumeAll 2 (Some (AwaitUser now (baseCurrency (settings ap)) r)) st w1) = ls)).
  { intros c' w1. subst w1.
    cbn [resumeAll rateEffectResume auth_user].
    destruct au as [id|]; [destruct (String.eqb id "") eqn:E|];
      cbn [resumeAll]; world_simpl;
      try by (split; [by right | split; [by right | done]]).
    unfold set_sent. world_simpl.
    cbn [resumeAll rateEffectResume store_answer].
    destruct (ans _); cbn [resumeAll]; world_simpl;
      [by (split; [by right | split; [by right | done]])|].
    destruct st; cbn [canWrite]; unfold set_app, set_localStorage; world_simpl;
      (split; [left; exists r; by repeat split | split; [by right | done]]). }
  destruct c; world_simpl.
  - apply (Hend true).
  - destruct env; cbn [negb]; world_simpl.
    + apply (Hend true).
    + cbn [resumeAll]. world_simpl.
      by (split; [by right | split; [by right | done]]).
Qed.

(** ** The gate of the automatic refresh *)

(** X27: a run of the automatic refresh reaches the provider exactly
    when the storage can be read, the stamp is stale (missing, zero, not
    a number, or more than 24 hours before the clock reading) and the
    provider key is set.  Hence on a page with no run under way whose
    stamp reads as a non-zero number, whatever happens while the clock
    is at most 24 hours past the stamp (mounts, state updates that change
    the base currency or not, answers) calls the provider not once,
    leaves the stamp as it is and starts no run. *)
Theorem X27_fresh_stamp_holds_back
    (toNumber : string -> JSNum) (stringify : AppData -> string)
    (q : Qc) (evs : list Event) (pg : Page) :
  lastUpdated toNumber (world pg) = Fin q ->
  q <> 0 ->
  pending pg = [] ->
  Forall (fun e => forall now, eventClock e = Some now ->
                               Qc_of_Z now - q <= Qc_of_Z DAY_MS) evs ->
  rate_calls (world (runEvents toNumber stringify evs pg)) = rate_calls (world pg)
  /\ localStorage (world (runEvents toNumber stringify evs pg)) !! rate_key
     = localStorage (world pg) !! rate_key
  /\ pending (runEvents toNumber stringify evs pg) = []
  /\ (forall now st w,
        rate_calls (snd (rateEffectStart toNumber now st w)) = S (rate_calls w)
        <-> canRead st = true
            /\ rateIsStale (lastUpdated toNumber w) now = true
            /\ env_rate_key w = true).
Proof.
  intros Hl Hq Hp Hevs.
  destruct (runEvents_fresh toNumber stringify q evs pg Hl Hq Hp Hevs)
    as (H1 & H2 & H3).
  split; [exact H1|]. split; [exact H2|]. split; [exact H3|].
  intros now st w. unfold rateEffectStart.
  destruct (canRead st); cbn [negb snd].
  - destruct (rateIsStale (lastUpdated toNumber w) now); cbn [snd].
    + destruct (env_rate_key w); cbn [negb snd rate_calls set_rate_calls].
      * by repeat split.
      * split; [lia | by intros (_ & _ & ?)].
    + split; [lia | by intros (_ & ? & _)].
  - split; [lia | by intros (? & _)].
Qed.

Lemma X27_fresh_stamp_holds_back_witness :
  rate_calls
    (world (runEvents decimalNumber (fun _ => "state")
              [ Mounts 1700000060000 StorageWorks;
                DataSet (withBase ILS) 1700000070000 StorageWorks;
                Mounts 1700086400000 StorageWorks ]
              (mkPage fresh_world []))) = 0%nat
  /\ pending
       (runEvents decimalNumber (fun _ => "state")
          [ Mounts 1700000060000 StorageWorks;
            DataSet (withBase ILS) 1700000070000 StorageWorks;
            Mounts 1700086400000 StorageWorks ]
          (mkPage fresh_world [])) = [].
Proof.
  destruct (X27_fresh_stamp_holds_back decimalNumber (fun _ => "state")
              (Qc_of_Z 1700000000000)
              [ Mounts 1700000060000 StorageWorks;
                DataSet (withBase ILS) 1700000070000 StorageWorks;
                Mounts 1700086400000 StorageWorks ]
              (mkPage fresh_world []))
    as (Hcalls & _ & Hpending & _).
  - exact (decimalNumber_String 1700000000000).
  - intros H. apply (f_equal this) in H. vm_compute in H. discriminate H.
  - reflexivity.
  - repeat constructor; intros now [= <-]; vm_compute; discriminate.
  - split; [exact Hcalls | exact Hpending].
Defined.

(** A run that meets no obstacle, from start to stamp. *)
Lemma dailyRateEffect_success (toNumber : string -> JSNum) (now : Z) (w : World) (r : Qc) (owner : string) :
  rateIsStale (lastUpdated toNumber w) now = true ->
  env_rate_key w = true ->
  rate_response w = RespRate r ->
  identity w = Some owner ->
  cached w || env_supabase w = true ->
  store_answer w (ReqUpsert t_settings owner
                    (R_settings (baseCurrency (settings (app w))) r)) = None ->
  dailyRateEffect toNumber now StorageWorks w
  = mkWorld (env_supabase w) true (auth_user w) (store_answer w)
      (ReqUpsert t_settings owner
         (R_settings (baseCurrency (settings (app w))) r) :: sent w)
      (env_rate_key w) (rate_response w) (S (rate_calls w))
      (<[rate_key := String_ now]> (localStorage w))
      (withRate r (app w)).
Proof.
  intros Hs Hkey Hresp Hid Hcl Hans. apply identity_Some in Hid as [Ha Hne].
  destruct w as [env c au ans snt key resp calls ls ap]. world_simpl.
  subst key resp au.
  unfold dailyRateEffect, rateEffectStart. cbn [canRead negb env_rate_key].
  rewrite Hs. unfold set_rate_calls. world_simpl.
  cbn [resumeAll rateEffectResume rate_response].
  unfold getSupabaseClient, set_cached. world_simpl.
  destruct c; world_simpl.
  - cbn [resumeAll rateEffectResume auth_user]. rewrite Hne.
    unfold set_sent. world_simpl.
    cbn [resumeAll rateEffectResume store_answer]. rewrite Hans.
    reflexivity.
  - subst env. world_simpl.
    cbn [resumeAll rateEffectResume auth_user]. rewrite Hne.
    unfold set_sent. world_simpl.
    cbn [resumeAll rateEffectResume store_answer]. rewrite Hans.
    reflexivity.
Qed.
(** The run given answer by answer, when nothing interrupts it, is the
    body of the effect read in one go over the gateway: the fetch, the
    upsert with the base currency of the render, the state update and
    the stamp, inside one [try] (which also swallows the error of a
    storage that refuses the stamp). *)
Lemma dailyRateEffect_in_one_go (toNumber : string -> JSNum)
    (now : Z) (st : Storage) (w : World) :
  canRead st = true ->
  rateIsStale (lastUpdated toNumber w) now = true ->
  dailyRateEffect toNumber now st w
  = snd (try_ignore
           (let* rate := fetchJodIlsRate in
            dbUpsertSettings (baseCurrency (settings (app w))) rate ;;;
            setData (withRate rate) ;;;
            fun w1 =>
              (Ok tt,
               if canWrite st
               then set_localStorage
                      (<[rate_key := String_ now]> (localStorage w1)) w1
               else w1))%js w).
Proof.
  intros Hr Hs.
  destruct w as [env c au ans snt key resp calls ls ap].
  unfold dailyRateEffect, rateEffectStart. rewrite Hr, Hs. cbn [negb].
  unfold try_ignore, bind, fetchJodIlsRate, dbUpsertSettings, getCurrentUserId,
    bind, getSupabaseClient, send, setData, set_rate_calls, set_cached, set_sent,
    set_app, set_localStorage.
  world_simpl.
  destruct key; cbn [negb resumeAll]; [|reflexivity].
  cbn [resumeAll rateEffectResume rate_response].
  destruct resp; cbn [resumeAll]; try reflexivity.
  unfold getSupabaseClient, set_cached. world_simpl.
  destruct c; world_simpl.
  - cbn [resumeAll rateEffectResume auth_user].
    destruct au as [id|]; [destruct (String.eqb id "")|]; cbn [resumeAll];
      world_simpl; try reflexivity.
    unfold set_sent. world_simpl. cbn [resumeAll rateEffectResume store_answer].
    destruct (ans _); cbn [resumeAll]; world_simpl; [reflexivity|].
    by destruct (canWrite st).
  - destruct env; cbn [negb]; world_simpl; [|reflexivity].
    cbn [resumeAll rateEffectResume auth_user].
    destruct au as [id|]; [destruct (String.eqb id "")|]; cbn [resumeAll];
      world_simpl; try reflexivity.
    unfold set_sent. world_simpl. cbn [resumeAll rateEffectResume store_answer].
    destruct (ans _); cbn [resumeAll]; world_simpl; [reflexivity|].
    by destruct (canWrite st).
Qed.

(** X29: when a run of the automatic refresh meets no obstacle (stale
    stamp, provider key and rate, identity and client, the store taking
    the upsert, the storage taking the write) and nothing interrupts it,
    it calls the provider once, sends one upsert of the settings with the
    base currency of the page and the new rate, puts the rate into the
    page state and stamps its start; and, the stamp being read back as
    the number written, whatever happens on the page during the 24 hours
    that follow calls the provider not once more. *)
Theorem X29_completed_run_holds_back
    (toNumber : string -> JSNum) (stringify : AppData -> string)
    (now : Z) (w : World) (r : Qc) (owner : string) (evs : list Event) :
  toNumber (String_ now) = Fin (Qc_of_Z now) ->
  now <> 0%Z ->
  rateIsStale (lastUpdated toNumber w) now = true ->
  env_rate_key w = true ->
  rate_response w = RespRate r ->
  identity w = Some owner ->
  cached w || env_supabase w = true ->
  store_answer w (ReqUpsert t_settings owner
                    (R_settings (baseCurrency (settings (app w))) r)) = None ->
  Forall (fun e => forall t, eventClock e = Some t -> (t <= now + DAY_MS)%Z) evs ->
  rate_calls (dailyRateEffect toNumber now StorageWorks w) = S (rate_calls w)
  /\ sent (dailyRateEffect toNumber now StorageWorks w)
     = ReqUpsert t_settings owner
         (R_settings (baseCurrency (settings (app w))) r) :: sent w
  /\ settings (app (dailyRateEffect toNumber now StorageWorks w))
     = mkSettings (baseCurrency (settings (app w))) r
  /\ localStorage (dailyRateEffect toNumber now StorageWorks w) !! rate_key
     = Some (String_ now)
  /\ rate_calls
       (world (runEvents toNumber stringify evs
                 (mkPage (dailyRateEffect toNumber now StorageWorks w) [])))
     = S (rate_calls w).
Proof.
  intros Hnum Hnow Hs Hkey Hresp Hid Hcl Hans Hevs.
  rewrite (dailyRateEffect_success toNumber now w r owner Hs Hkey Hresp Hid Hcl Hans).
  cbn [rate_calls sent app localStorage withRate settings].
  rewrite lookup_insert_eq.
  repeat (split; [reflexivity|]).
  refine (proj1 (runEvents_fresh toNumber stringify (Qc_of_Z now) evs _ _ _ _ _)).
  - unfold lastUpdated. cbn [world localStorage]. rewrite lookup_insert_eq.
    unfold str_or.
    destruct (String.eqb_spec (String_ now) "") as [E|_]; [|exact Hnum].
    by destruct (String_nonempty now).
  - by apply Qc_of_Z_nonzero.
  - reflexivity.
  - eapply Forall_impl; [exact Hevs|]. intros e He t Ht.
    by apply Qc_of_Z_since, He.
Qed.

Lemma X29_completed_run_holds_back_witness :
  rate_calls
    (world (runEvents decimalNumber (fun _ => "state")
              [ DataSet (withBase ILS) 1700000070000 StorageWorks;
                Mounts 1700086400000 StorageWorks ]
              (mkPage (dailyRateEffect decimalNumber 1700000000000 StorageWorks
                         first_load_world) [])))
  = 1%nat.
Proof.
  refine (proj2 (proj2 (proj2 (proj2
            (X29_completed_run_holds_back decimalNumber (fun _ => "state")
               1700000000000 first_load_world (Qc_of_Z 5) "owner-1"
               [ DataSet (withBase ILS) 1700000070000 StorageWorks;
                 Mounts 1700086400000 StorageWorks ]
               (decimalNumber_String 1700000000000) _ eq_refl eq_refl eq_refl
               eq_refl eq_refl eq_refl _))))).
  - discriminate.
  - repeat constructor; intros t [= <-]; vm_compute; discriminate.
Defined.

(** ** The index of tenants by unit *)

Lemma tenantsByUnit_snoc (ts : list Tenant) (t : Tenant) :
  tenantsByUnit (ts ++ [t])
  = <[tenant_unitId t := default [] (tenantsByUnit ts !! tenant_unitId t) ++ [t]]>
      (tenantsByUnit ts).
Proof. unfold tenantsByUnit. by rewrite foldl_app. Qed.

Lemma filter_snoc {A} (f : A -> bool) (l : list A) (a : A) :
  List.filter f (l ++ [a]) = List.filter f l ++ (if f a then [a] else []).
Proof. rewrite List.filter_app. simpl. by destruct (f a). Qed.

Lemma tenantsByUnit_lookup (ts : list Tenant) (k : string) :
  tenantsByUnit ts !! k
  = match List.filter (fun t => String.eqb (tenant_unitId t) k) ts with
    | [] => None
    | l => Some l
    end.
Proof.
  induction ts as [|t ts IH] using rev_ind; [reflexivity|].
  rewrite tenantsByUnit_snoc, filter_snoc, lookup_insert.
  destruct (String.eqb_spec (tenant_unitId t) k) as [->|Hne].
  - rewrite decide_True by reflexivity. rewrite IH.
    destruct (List.filter _ ts); reflexivity.
  - rewrite decide_False by exact Hne. rewrite IH, app_nil_r. reflexivity.
Qed.

(** X10: the index groups the tenants by unit id, each group in the
    order of the tenant list, with no entry for a unit without tenants;
    so the count shown for a unit is the number of tenants, active or
    not, that refer to it, and it is 0 after the unit was removed. *)
Theorem X10_tenantsByUnit_groups (ts : list Tenant) (unitId : string) (d : AppData) :
  default [] (tenantsByUnit ts !! unitId)
  = List.filter (fun t => String.eqb (tenant_unitId t) unitId) ts
  /\ (tenantsByUnit ts !! unitId = None
      <-> forall t, In t ts -> tenant_unitId t <> unitId)
  /\ tenantCount ts unitId
     = length (List.filter (fun t => String.eqb (tenant_unitId t) unitId) ts)
  /\ tenantCount (tenants (removeUnit unitId d)) unitId = 0%nat.
Proof.
  assert (Hd : default [] (tenantsByUnit ts !! unitId)
               = List.filter (fun t => String.eqb (tenant_unitId t) unitId) ts).
  { rewrite tenantsByUnit_lookup. by destruct (List.filter _ ts). }
  split; [exact Hd|]. split; [|split].
  - rewrite tenantsByUnit_lookup. split.
    + intros H t Hin Heq.
      assert (Hf : In t (List.filter (fun t => String.eqb (tenant_unitId t) unitId) ts)).
      { apply filter_In. split; [exact Hin | by apply String.eqb_eq]. }
      destruct (List.filter _ ts); [destruct Hf | discriminate].
    + intros H. destruct (List.filter _ ts) as [|t l] eqn:E; [reflexivity|].
      assert (Hf : In t (List.filter (fun t => String.eqb (tenant_unitId t) unitId) ts))
        by (rewrite E; by left).
      apply filter_In in Hf as [Hin Heq]. apply String.eqb_eq in Heq.
      by destruct (H t Hin).
  - unfold tenantCount. by rewrite Hd.
  - unfold tenantCount. rewrite tenantsByUnit_lookup.
    destruct (List.filter _ (tenants (removeUnit unitId d))) as [|t l] eqn:E;
      [reflexivity|].
    assert (Hf : In t (List.filter (fun t => String.eqb (tenant_unitId t) unitId)
                         (tenants (removeUnit unitId d))))
      by (rewrite E; by left).
    apply filter_In in Hf as [Hin Heq]. apply String.eqb_eq in Heq.
    simpl in Hin. apply filter_In in Hin as [_ Hin].
    apply negb_eqb_ne in Hin. by destruct Hin.
Qed.

(** ** More on invoice generation *)

Lemma tenantOptions_eligible (data : AppData) (byId : gmap string Unit) (scope : Scope) :
  eligibleTenants data byId scope "" = tenantOptions data byId scope.
Proof.
  unfold eligibleTenants, tenantOptions. cbn [String.eqb negb].
  apply filter_ext. intros t. unfold eligibleFilter.
  destruct (byId !! tenant_unitId t) as [u|]; [|reflexivity].
  destruct scope, (kind u); reflexivity.
Qed.

(** X11: the filter menu offers exactly the tenants a run without filter
    bills; and choosing one of them (its id not being empty) makes the
    run build at least one invoice, all of them for that tenant id. *)
Theorem X11_menu_choice_is_billed
    (d : AppData) (scope : Scope) (period : string) (rnd : nat -> string)
    (t : Tenant) :
  In t (tenantOptions d (unitsById (units d)) scope) ->
  tenant_id t <> EmptyString ->
  page_eligibleTenants d scope "" = tenantOptions d (unitsById (units d)) scope
  /\ exists invs,
       page_newInvoices d scope period (tenant_id t) rnd = Some invs
       /\ invs <> []
       /\ forall inv, In inv invs -> inv_tenantId inv = tenant_id t.
Proof.
  intros Hopt Hne.
  split; [apply tenantOptions_eligible|].
  rewrite <- tenantOptions_eligible in Hopt.
  apply eligibleTenants_In in Hopt as (Hin & Hact & Hf & _).
  assert (Hel : In t (page_eligibleTenants d scope (tenant_id t))).
  { apply eligibleTenants_In. tauto. }
  destruct (mapInvoices_total d (unitsById (units d)) (settings d) scope period rnd
              (page_eligibleTenants d scope (tenant_id t)) 0) as [invs Hinvs].
  { intros t' Ht'. apply eligibleTenants_In in Ht' as (_ & _ & Hf' & _).
    apply eligibleFilter_Some in Hf' as (u & Hu & _). by eexists. }
  exists invs. split; [exact Hinvs|]. split.
  - intros ->. apply mapInvoices_length in Hinvs.
    destruct (page_eligibleTenants d scope (tenant_id t)); [destruct Hel | discriminate].
  - intros inv Hinv.
    destruct (mapInvoices_In _ _ _ _ _ _ _ _ _ _ Hinvs Hinv) as (j & t' & Ht' & Hj).
    destruct (invoiceFor_Some _ _ _ _ _ _ _ _ Hj) as (u & _ & _ & Hit & _).
    apply eligibleTenants_In in Ht' as (_ & _ & _ & [E|E]); [by destruct Hne|].
    by rewrite Hit.
Qed.

Lemma X11_menu_choice_is_billed_witness :
  exists invs,
    page_newInvoices shop_data yearly "2024-01" (tenant_id shop_tenant) sample_rnd
    = Some invs
    /\ invs <> []
    /\ forall inv, In inv invs -> inv_tenantId inv = tenant_id shop_tenant.
Proof.
  apply (X11_menu_choice_is_billed shop_data yearly "2024-01" sample_rnd shop_tenant).
  - vm_compute. left. reflexivity.
  - discriminate.
Defined.

(** X12: when the chosen filter names no tenant of the menu (a choice
    left over from the other scope, say), the run builds nothing and the
    state it returns is the state it started from. *)
Theorem X12_stale_filter_generates_nothing
    (data : AppData) (byId : gmap string Unit) (stg : Settings) (scope : Scope)
    (period tenantFilter : string) (rnd : nat -> string) :
  tenantFilter <> EmptyString ->
  (forall t, In t (tenantOptions data byId scope) -> tenant_id t <> tenantFilter) ->
  newInvoices data byId stg scope period tenantFilter rnd = Some []
  /\ generateInvoices data byId stg scope period tenantFilter rnd = Some data.
Proof.
  intros Hne Hno.
  assert (Hel : eligibleTenants data byId scope tenantFilter = []).
  { destruct (eligibleTenants data byId scope tenantFilter) as [|t l] eqn:E;
      [reflexivity|].
    assert (Hin : In t (eligibleTenants data byId scope tenantFilter))
      by (rewrite E; by left).
    apply eligibleTenants_In in Hin as (Hin & Hact & Hf & [Hd|Hd]);
      [by destruct Hne|].
    destruct (Hno t); [|exact Hd].
    rewrite <- tenantOptions_eligible. apply eligibleTenants_In. tauto. }
  assert (Hnew : newInvoices data byId stg scope period tenantFilter rnd = Some []).
  { unfold newInvoices. by rewrite Hel. }
  split; [exact Hnew|].
  unfold generateInvoices. rewrite Hnew. by destruct data.
Qed.

Lemma X12_stale_filter_generates_nothing_witness :
  page_generateInvoices sample_data yearly "2024-05" "tenant_s1" sample_rnd
  = Some sample_data.
Proof.
  apply (X12_stale_filter_generates_nothing sample_data
           (unitsById (units sample_data)) (settings sample_data) yearly
           "2024-05" "tenant_s1" sample_rnd).
  - discriminate.
  - intros t Ht. vm_compute in Ht. destruct Ht.
Defined.

Lemma mapInvoices_frame (d d' : AppData) (byId : gmap string Unit) (stg : Settings)
    (scope : Scope) (period : string) (rnd : nat -> string) (ts : list Tenant) :
  utilities d = utilities d' ->
  forall i,
    mapInvoices d byId stg scope period rnd i ts
    = mapInvoices d' byId stg scope period rnd i ts.
Proof.
  intros Hu. induction ts as [|t ts IH]; intros i; simpl; [reflexivity|].
  unfold invoiceFor, sumUtilitiesBase, matchingUtilities. rewrite Hu, IH. reflexivity.
Qed.

Lemma newInvoices_frame (d d' : AppData) (byId : gmap string Unit) (stg : Settings)
    (scope : Scope) (period tenantFilter : string) (rnd : nat -> string) :
  tenants d = tenants d' ->
  utilities d = utilities d' ->
  newInvoices d byId stg scope period tenantFilter rnd
  = newInvoices d' byId stg scope period tenantFilter rnd.
Proof.
  intros Ht Hu. unfold newInvoices, eligibleTenants. rewrite Ht.
  by apply mapInvoices_frame.
Qed.

(** X13: the invoices already stored play no part in a run: after a
    run, any further run builds what it would have built before, and a
    repeated run puts a second batch of the same length in front of the
    first, nothing being detected as a duplicate. *)
Theorem X13_generation_ignores_stored_invoices
    (d d1 : AppData) (scope : Scope) (period tenantFilter : string)
    (rnd1 : nat -> string) :
  page_generateInvoices d scope period tenantFilter rnd1 = Some d1 ->
  (forall scope' period' filter' rnd2,
     page_newInvoices d1 scope' period' filter' rnd2
     = page_newInvoices d scope' period' filter' rnd2)
  /\ exists invs1,
       page_newInvoices d scope period tenantFilter rnd1 = Some invs1
       /\ invoices d1 = invs1 ++ invoices d
       /\ forall rnd2, exists invs2 d2,
            page_generateInvoices d1 scope period tenantFilter rnd2 = Some d2
            /\ invoices d2 = invs2 ++ invs1 ++ invoices d
            /\ length invs2 = length invs1.
Proof.
  unfold page_generateInvoices, generateInvoices. intros Hgen.
  destruct (newInvoices d (unitsById (units d)) (settings d) scope period
              tenantFilter rnd1) as [invs1|] eqn:E1; [|discriminate].
  injection Hgen as <-.
  assert (Hframe : forall scope' period' filter' rnd2,
     page_newInvoices
       (mkAppData (settings d) (units d) (tenants d) (utilities d)
          (invs1 ++ invoices d) (payments d)) scope' period' filter' rnd2
     = page_newInvoices d scope' period' filter' rnd2).
  { intros. unfold page_newInvoices. cbn [units settings].
    by apply newInvoices_frame. }
  split; [exact Hframe|].
  exists invs1. split; [exact E1|]. split; [reflexivity|].
  intros rnd2.
  destruct (mapInvoices_total d (unitsById (units d)) (settings d) scope period rnd2
              (page_eligibleTenants d scope tenantFilter) 0) as [invs2 E2].
  { intros t' Ht'. apply eligibleTenants_In in Ht' as (_ & _ & Hf' & _).
    apply eligibleFilter_Some in Hf' as (u & Hu & _). by eexists. }
  exists invs2. eexists.
  pose proof (Hframe scope period tenantFilter rnd2) as Hf2.
  unfold page_newInvoices in Hf2. cbn [units settings] in Hf2.
  cbn [units settings]. rewrite Hf2.
  unfold newInvoices at 1. fold (page_eligibleTenants d scope tenantFilter).
  rewrite E2. split; [reflexivity|]. split; [reflexivity|].
  apply mapInvoices_length in E2. unfold newInvoices in E1.
  apply mapInvoices_length in E1. unfold page_eligibleTenants in E2. congruence.
Qed.

Lemma X13_generation_ignores_stored_invoices_witness :
  exists invs1,
    page_newInvoices sample_data monthly "2024-05" "" sample_rnd = Some invs1
    /\ forall rnd2, exists invs2 d2,
         page_generateInvoices
           (mkAppData sample_settings [sample_unit] [sample_tenant] [sample_charge]
              [sample_invoice] [])
           monthly "2024-05" "" rnd2 = Some d2
         /\ invoices d2 = invs2 ++ invs1 ++ []
         /\ length invs2 = length invs1.
Proof.
  assert (Hgen : page_generateInvoices sample_data monthly "2024-05" "" sample_rnd
                 = Some (mkAppData sample_settings [sample_unit] [sample_tenant]
                           [sample_charge] [sample_invoice] [])).
  { unfold page_generateInvoices, generateInvoices.
    pose proof sample_newInvoices as H. unfold page_newInvoices in H.
    rewrite H. reflexivity. }
  destruct (proj2 (X13_generation_ignores_stored_invoices _ _ _ _ _ _ Hgen))
    as (invs1 & H1 & _ & H2).
  exists invs1. split; [exact H1 | exact H2].
Defined.

Lemma uid_inv_inj (r1 r2 : string) : uid "inv" r1 = uid "inv" r2 -> r1 = r2.
Proof. unfold uid. cbn. intros H. by injection H. Qed.

Lemma mapInvoices_ids (data : AppData) (byId : gmap string Unit) (stg : Settings)
    (scope : Scope) (period : string) (rnd : nat -> string) (ts : list Tenant) :
  forall i invs,
    mapInvoices data byId stg scope period rnd i ts = Some invs ->
    map inv_id invs = map (fun j => uid "inv" (rnd j)) (seq i (length invs)).
Proof.
  induction ts as [|t ts IH]; intros i invs H; simpl in H.
  - by injection H as <-.
  - destruct (invoiceFor data byId stg scope period (rnd i) t) as [inv|] eqn:E;
      [|discriminate].
    destruct (mapInvoices data byId stg scope period rnd (S i) ts) as [rest|] eqn:E1;
      [|discriminate].
    injection H as <-. simpl. f_equal.
    + unfold invoiceFor in E. destruct (byId !! tenant_unitId t); [|discriminate].
      by injection E as <-.
    + by apply IH.
Qed.

(** X14: the invoices of one run carry the ids ["inv_" ++ rnd 0],
    ["inv_" ++ rnd 1], ... in order; so they are pairwise distinct as soon
    as the random draws of the run are. *)
Theorem X14_generated_ids
    (data : AppData) (byId : gmap string Unit) (stg : Settings) (scope : Scope)
    (period tenantFilter : string) (rnd : nat -> string) (invs : list Invoice) :
  newInvoices data byId stg scope period tenantFilter rnd = Some invs ->
  map inv_id invs
  = map (fun j => "inv_" +:+ rnd j) (seq 0 (length invs))
  /\ ((forall i j, (i < length invs)%nat -> (j < length invs)%nat ->
         rnd i = rnd j -> i = j) ->
      NoDup (map inv_id invs)).
Proof.
  intros H. unfold newInvoices in H. apply mapInvoices_ids in H.
  split; [exact H|].
  intros Hinj. rewrite H. apply NoDup_fmap_2_strong; [|apply NoDup_seq].
  intros i j Hi Hj Heq. apply uid_inv_inj in Heq.
  apply elem_of_seq in Hi, Hj. apply Hinj; lia || exact Heq.
Qed.

Lemma X14_generated_ids_witness :
  map inv_id [sample_invoice] = map (fun j => "inv_" +:+ sample_rnd j) (seq 0 1).
Proof.
  exact (proj1 (X14_generated_ids sample_data (unitsById (units sample_data))
                  (settings sample_data) monthly "2024-05" "" sample_rnd
                  [sample_invoice] sample_newInvoices)).
Defined.

Lemma filter_all {A} (f : A -> bool) (l : list A) :
  (forall a, In a l -> f a = true) -> List.filter f l = l.
Proof.
  induction l as [|a l IH]; intros H; simpl; [reflexivity|].
  rewrite (H a (or_introl eq_refl)), IH; [reflexivity|].
  intros b Hb. apply H. by right.
Qed.

(** X15: removing by id an invoice that a run has just added alone,
    its id being carried by no stored invoice, gives back the state from
    before the run. *)
Theorem X15_removeInvoice_undoes_generation
    (d d' : AppData) (scope : Scope) (period tenantFilter : string)
    (rnd : nat -> string) (inv : Invoice) :
  page_newInvoices d scope period tenantFilter rnd = Some [inv] ->
  page_generateInvoices d scope period tenantFilter rnd = Some d' ->
  (forall o, In o (invoices d) -> inv_id o <> inv_id inv) ->
  removeInvoice (inv_id inv) d' = d.
Proof.
  unfold page_generateInvoices, generateInvoices, page_newInvoices.
  intros Hnew Hgen Hfresh. rewrite Hnew in Hgen. injection Hgen as <-.
  destruct d as [s us ts cs ivs ps]. unfold removeInvoice. cbn in *.
  rewrite String.eqb_refl. cbn. f_equal.
  apply filter_all. intros o Ho. apply negb_eqb_ne. by apply Hfresh.
Qed.

Lemma X15_removeInvoice_undoes_generation_witness :
  removeInvoice (inv_id sample_invoice)
    (mkAppData sample_settings [sample_unit] [sample_tenant] [sample_charge]
       [sample_invoice] [])
  = sample_data.
Proof.
  apply (X15_removeInvoice_undoes_generation sample_data _ monthly "2024-05" ""
           sample_rnd sample_invoice sample_newInvoices).
  - unfold page_generateInvoices, generateInvoices.
    pose proof sample_newInvoices as H. unfold page_newInvoices in H.
    rewrite H. reflexivity.
  - intros o [].
Defined.

Lemma periodFilter_yearly_prefix (p p' : string) (c : UtilityCharge) :
  slice0 4 p = slice0 4 p' -> periodFilter p yearly c = periodFilter p' yearly c.
Proof. unfold periodFilter. decide_closed. by intros ->. Qed.

(** X16: every invoice of a run carries the scope of the run and, as
    its period, the requested period under monthly scope and its first
    four characters under yearly scope; and a yearly run depends on the
    requested period through those four characters only. *)
Theorem X16_invoice_period_and_scope
    (data : AppData) (byId : gmap string Unit) (stg : Settings) (scope : Scope)
    (period tenantFilter : string) (rnd : nat -> string) :
  (forall invs inv,
     newInvoices data byId stg scope period tenantFilter rnd = Some invs ->
     In inv invs ->
     inv_scope inv = scope
     /\ inv_period inv = match scope with
                         | monthly => period
                         | yearly => slice0 4 period
                         end)
  /\ (forall period',
        slice0 4 period = slice0 4 period' ->
        newInvoices data byId stg yearly period tenantFilter rnd
        = newInvoices data byId stg yearly period' tenantFilter rnd).
Proof.
  split.
  - intros invs inv H Hin. unfold newInvoices in H.
    destruct (mapInvoices_In _ _ _ _ _ _ _ _ _ _ H Hin) as (j & t & _ & Hj).
    unfold invoiceFor in Hj. destruct (byId !! tenant_unitId t); [|discriminate].
    injection Hj as <-. simpl. split; [reflexivity|]. by destruct scope.
  - intros period' Hp. unfold newInvoices.
    generalize (eligibleTenants data byId yearly tenantFilter). intros ts.
    generalize 0%nat. induction ts as [|t ts IH]; intros i; simpl; [reflexivity|].
    rewrite IH. unfold invoiceFor, sumUtilitiesBase, matchingUtilities.
    decide_closed. rewrite Hp.
    destruct (byId !! tenant_unitId t) as [u|]; [|reflexivity].
    rewrite (filter_ext _ _
               (fun c => periodFilter_yearly_prefix period period' c Hp)).
    reflexivity.
Qed.

(** ** Saving a form *)

Lemma update_then_write (f : AppData -> AppData) (mk : string -> Request) (w : World) :
  exists w',
    bind (setData f)
      (fun _ => try_ignore
                  (bind getSupabaseClient
                     (fun _ => bind getCurrentUserId (fun o => send (mk o))))) w
    = (Ok tt, w')
    /\ app w' = f (app w).
Proof.
  rewrite bind_setData.
  destruct (guarded_write_ignored mk (set_app (f (app w)) w)) as (w' & Hrun & Happ & _).
  exists w'. split; [exact Hrun | exact Happ].
Qed.

Lemma orb_eqb_false (a b : string) :
  a <> EmptyString -> b <> EmptyString ->
  String.eqb a "" || String.eqb b "" = false.
Proof.
  intros Ha Hb. apply orb_false_iff.
  split; apply String.eqb_neq; assumption.
Qed.

Section FormFacts.
Variable numberOf : string -> Qc.
Variable trim : string -> string.

(** X17: saving a payment does nothing at all when no tenant has the
    chosen id; otherwise the list of payments of the page state is the
    former one with one payment in front, settings and the other
    collections being untouched; that payment has a fresh id, the tenant,
    date, amount and currency of the form, and takes its unit from the
    first tenant with that id; and in the state so reached both the
    removal of that tenant id and the removal of that unit delete it
    again. *)
Theorem X17_addPayment_takes_unit_of_tenant
    (form : PaymentForm) (r : string) (w : World) :
  ((forall t, In t (tenants (app w)) -> tenant_id t <> pf_tenantId form) ->
   addPayment numberOf trim form r w = (Ok tt, w))
  /\ (forall tenant,
        List.find (fun t => String.eqb (tenant_id t) (pf_tenantId form))
          (tenants (app w)) = Some tenant ->
        pf_tenantId form <> EmptyString ->
        pf_amount form <> EmptyString ->
        exists p,
          fst (addPayment numberOf trim form r w) = Ok tt
          /\ payments (app (snd (addPayment numberOf trim form r w)))
             = p :: payments (app w)
          /\ settings (app (snd (addPayment numberOf trim form r w)))
             = settings (app w)
          /\ units (app (snd (addPayment numberOf trim form r w))) = units (app w)
          /\ tenants (app (snd (addPayment numberOf trim form r w)))
             = tenants (app w)
          /\ utilities (app (snd (addPayment numberOf trim form r w)))
             = utilities (app w)
          /\ invoices (app (snd (addPayment numberOf trim form r w)))
             = invoices (app w)
          /\ pay_id p = uid "pay" r
          /\ pay_tenantId p = pf_tenantId form
          /\ pay_unitId p = tenant_unitId tenant
          /\ pay_date p = pf_date form
          /\ pay_amount p = numberOf (pf_amount form)
          /\ pay_currency p = pf_currency form
          /\ payments (removeTenant (pf_tenantId form)
                         (app (snd (addPayment numberOf trim form r w))))
             = payments (removeTenant (pf_tenantId form) (app w))
          /\ payments (removeUnit (tenant_unitId tenant)
                         (app (snd (addPayment numberOf trim form r w))))
             = payments (removeUnit (tenant_unitId tenant) (app w))).
Proof.
  split.
  - intros Hno. unfold addPayment.
    destruct (String.eqb (pf_tenantId form) "" || String.eqb (pf_amount form) "");
      [reflexivity|].
    rewrite bind_getData.
    destruct (List.find _ (tenants (app w))) as [t|] eqn:E; [|reflexivity].
    apply find_some in E as [Hin E]. apply String.eqb_eq in E.
    by destruct (Hno t Hin).
  - intros tenant Hfind Hid Ham.
    exists (paymentOfForm numberOf trim form tenant r).
    unfold addPayment. rewrite (orb_eqb_false _ _ Hid Ham), bind_getData, Hfind.
    unfold dbInsertPayment.
    destruct (update_then_write
                (prependPayment (paymentOfForm numberOf trim form tenant r))
                (fun o => ReqInsert t_payments o
                            (R_payment (paymentRow
                               (paymentOfForm numberOf trim form tenant r)))) w)
      as (w' & Hrun & Happ).
    rewrite Hrun. cbn [fst snd]. rewrite Happ.
    repeat split; simpl; by rewrite String.eqb_refl.
Qed.

(** X18: saving a complete utility form puts the charge in front; the
    sum of a unit and period then grows by the converted amount exactly
    when the charge is of that unit and matches that period, so the
    monthly sum of its own unit and period grows by it and the sums of
    other units stay as they were. *)
Theorem X18_addUtility_adds_to_sum
    (form : UtilityForm) (r : string) (w : World) :
  cf_unitId form <> EmptyString ->
  cf_period form <> EmptyString ->
  cf_amount form <> EmptyString ->
  fst (addUtility numberOf form r w) = Ok tt
  /\ app (snd (addUtility numberOf form r w))
     = prependUtility (utilityOfForm numberOf form r) (app w)
  /\ (forall stg unitId period scope,
        sumUtilitiesBase (app (snd (addUtility numberOf form r w)))
          stg unitId period scope
        = (if String.eqb (cf_unitId form) unitId
              && periodFilter period scope (utilityOfForm numberOf form r)
           then convertToBase (numberOf (cf_amount form)) (cf_currency form) stg
           else 0)
          + sumUtilitiesBase (app w) stg unitId period scope)
  /\ (forall stg,
        sumUtilitiesBase (app (snd (addUtility numberOf form r w)))
          stg (cf_unitId form) (cf_period form) monthly
        = convertToBase (numberOf (cf_amount form)) (cf_currency form) stg
          + sumUtilitiesBase (app w) stg (cf_unitId form) (cf_period form) monthly).
Proof.
  intros Hu Hp Ha. unfold addUtility.
  assert (Hg : String.eqb (cf_unitId form) "" || String.eqb (cf_period form) ""
               || String.eqb (cf_amount form) "" = false).
  { rewrite (orb_eqb_false _ _ Hu Hp). by apply String.eqb_neq. }
  rewrite Hg. unfold dbInsertUtility.
  destruct (update_then_write (prependUtility (utilityOfForm numberOf form r))
              (fun o => ReqInsert t_utilities o
                          (R_utility (utilityOfForm numberOf form r))) w)
    as (w' & Hrun & Happ).
  rewrite Hrun. cbn [fst snd]. rewrite Happ.
  assert (Hsum : forall stg unitId period scope,
    sumUtilitiesBase (prependUtility (utilityOfForm numberOf form r) (app w))
      stg unitId period scope
    = (if String.eqb (cf_unitId form) unitId
          && periodFilter period scope (utilityOfForm numberOf form r)
       then convertToBase (numberOf (cf_amount form)) (cf_currency form) stg
       else 0)
      + sumUtilitiesBase (app w) stg unitId period scope).
  { intros. rewrite !sumUtilitiesBase_sum. unfold matchingUtilities.
    cbn [utilities prependUtility List.filter util_unitId utilityOfForm].
    destruct (String.eqb (cf_unitId form) unitId); cbn [andb List.filter];
      [|by rewrite Qcplus_0_l].
    destruct (periodFilter period scope _); [reflexivity | by rewrite Qcplus_0_l]. }
  split; [reflexivity|]. split; [reflexivity|]. split; [exact Hsum|].
  intros stg. rewrite Hsum, String.eqb_refl. unfold periodFilter at 1.
  decide_closed. cbn [util_period utilityOfForm]. by rewrite String.eqb_refl.
Qed.

Lemma unitsById_snoc (us : list Unit) (u : Unit) :
  unitsById (us ++ [u]) = <[unit_id u := u]> (unitsById us).
Proof. unfold unitsById. by rewrite foldl_app. Qed.

Lemma unitsById_last_wins (us : list Unit) (k : string) :
  unitsById us !! k = List.find (fun u => String.eqb (unit_id u) k) (rev us).
Proof.
  induction us as [|u us IH] using rev_ind; [reflexivity|].
  rewrite unitsById_snoc, rev_app_distr. simpl. rewrite lookup_insert.
  destruct (String.eqb_spec (unit_id u) k) as [->|Hne].
  - by rewrite decide_True.
  - by rewrite decide_False.
Qed.

Lemma find_app_first {A} (f : A -> bool) (l1 l2 : list A) :
  List.find f (l1 ++ l2)
  = match List.find f l1 with Some a => Some a | None => List.find f l2 end.
Proof.
  induction l1 as [|a l1 IH]; simpl; [reflexivity|]. by destruct (f a).
Qed.

(** X19: the index of units resolves an id to the last unit of the list
    that carries it.  Saving a complete unit form puts the new unit in
    front, so afterwards every id resolves as before when it did resolve,
    and the new unit is found under its id only when no older unit
    carries that id. *)
Theorem X19_addUnit_index (form : UnitForm) (r : string) (w : World) :
  uf_name form <> EmptyString ->
  uf_rentAmount form <> EmptyString ->
  fst (addUnit numberOf trim form r w) = Ok tt
  /\ app (snd (addUnit numberOf trim form r w))
     = prependUnit (unitOfForm numberOf trim form r) (app w)
  /\ (forall us k,
        unitsById us !! k = List.find (fun u => String.eqb (unit_id u) k) (rev us))
  /\ (forall k,
        unitsById (units (app (snd (addUnit numberOf trim form r w)))) !! k
        = match unitsById (units (app w)) !! k with
          | Some old => Some old
          | None => if String.eqb ("unit_" +:+ r) k
                    then Some (unitOfForm numberOf trim form r)
                    else None
          end).
Proof.
  intros Hn Ha. unfold addUnit. rewrite (orb_eqb_false _ _ Hn Ha).
  unfold dbInsertUnit.
  destruct (update_then_write (prependUnit (unitOfForm numberOf trim form r))
              (fun o => ReqInsert t_units o (R_unit (unitOfForm numberOf trim form r))) w)
    as (w' & Hrun & Happ).
  rewrite Hrun. cbn [fst snd]. rewrite Happ.
  split; [reflexivity|]. split; [reflexivity|].
  split; [apply unitsById_last_wins|].
  intros k. rewrite !unitsById_last_wins. cbn [units prependUnit rev].
  rewrite find_app_first.
  destruct (List.find _ (rev (units (app w)))); reflexivity.
Qed.

(** X20: saving a complete tenant form puts the tenant in front and
    raises the count of its unit by one; the new tenant is billed by a run
    of a scope exactly when it was saved as active and its unit id
    resolves to a unit of the kind of that scope. *)
Theorem X20_addTenant_eligibility (form : TenantForm) (r : string) (w : World) :
  tf_name form <> EmptyString ->
  tf_unitId form <> EmptyString ->
  fst (addTenant trim form r w) = Ok tt
  /\ app (snd (addTenant trim form r w))
     = prependTenant (tenantOfForm trim form r) (app w)
  /\ tenantCount (tenants (app (snd (addTenant trim form r w)))) (tf_unitId form)
     = S (tenantCount (tenants (app w)) (tf_unitId form))
  /\ (forall scope,
        In (tenantOfForm trim form r)
           (page_eligibleTenants (app (snd (addTenant trim form r w))) scope "")
        <-> tf_active form = true
            /\ exists u, unitsById (units (app w)) !! tf_unitId form = Some u
                         /\ kind u = match scope with
                                     | monthly => apartment
                                     | yearly => shop
                                     end).
Proof.
  intros Hn Hu. unfold addTenant. rewrite (orb_eqb_false _ _ Hn Hu).
  unfold dbInsertTenant.
  destruct (update_then_write (prependTenant (tenantOfForm trim form r))
              (fun o => ReqInsert t_tenants o (R_tenant (tenantOfForm trim form r))) w)
    as (w' & Hrun & Happ).
  rewrite Hrun. cbn [fst snd]. rewrite Happ.
  split; [reflexivity|]. split; [reflexivity|]. split.
  - unfold tenantCount. rewrite !tenantsByUnit_lookup.
    cbn [tenants prependTenant List.filter tenant_unitId tenantOfForm].
    rewrite String.eqb_refl.
    by destruct (List.filter _ (tenants (app w))).
  - intros scope. unfold page_eligibleTenants. rewrite eligibleTenants_In.
    cbn [units tenants prependTenant active tenantOfForm].
    unfold eligibleFilter. cbn [tenant_unitId tenantOfForm].
    split.
    + intros (_ & Hact & Hf & _). split; [exact Hact|].
      destruct (unitsById (units (app w)) !! tf_unitId form) as [u|]; [|discriminate].
      exists u. split; [reflexivity|].
      destruct scope, (kind u); try reflexivity; discriminate.
    + intros (Hact & u & Hlk & Hk). rewrite Hlk, Hk.
      split; [by left|]. split; [exact Hact|]. split; [|by left].
      by destruct scope.
Qed.
End FormFacts.

Lemma X17_addPayment_takes_unit_of_tenant_witness :
  exists p,
    payments (app (snd (addPayment (fun _ => Qc_of_Z 30) (fun s => s)
                          (mkPaymentForm "tenant_s1" "2024-06-01" "30" JOD "2024-06" "")
                          "p0" first_load_world)))
    = [p]
    /\ pay_unitId p = "unit_a1"
    /\ payments (removeUnit "unit_a1"
                   (app (snd (addPayment (fun _ => Qc_of_Z 30) (fun s => s)
                                (mkPaymentForm "tenant_s1" "2024-06-01" "30" JOD
                                   "2024-06" "")
                                "p0" first_load_world)))) = [].
Proof.
  destruct (proj2 (X17_addPayment_takes_unit_of_tenant (fun _ => Qc_of_Z 30)
                     (fun s => s)
                     (mkPaymentForm "tenant_s1" "2024-06-01" "30" JOD "2024-06" "")
                     "p0" first_load_world) sample_tenant)
    as (p & _ & Hpay & _ & _ & _ & _ & _ & _ & _ & Hunit & _ & _ & _ & _ & Hrem).
  - reflexivity.
  - discriminate.
  - discriminate.
  - exists p. split; [exact Hpay|]. split; [exact Hunit | exact Hrem].
Defined.

Lemma X18_addUtility_adds_to_sum_witness :
  sumUtilitiesBase
    (app (snd (addUtility (fun _ => Qc_of_Z 30)
                 (mkUtilityForm "unit_a1" "2024-06" water "30" JOD)
                 "u0" first_load_world)))
    sample_settings "unit_a1" "2024-06" monthly
  = convertToBase (Qc_of_Z 30) JOD sample_settings
    + sumUtilitiesBase sample_data sample_settings "unit_a1" "2024-06" monthly.
Proof.
  apply (X18_addUtility_adds_to_sum (fun _ => Qc_of_Z 30)
           (mkUtilityForm "unit_a1" "2024-06" water "30" JOD) "u0" first_load_world);
    discriminate.
Defined.

Lemma X19_addUnit_index_witness :
  app (snd (addUnit (fun _ => Qc_of_Z 300) (fun s => s)
              (mkUnitForm "B2" apartment "300" JOD) "b2" first_load_world))
  = prependUnit (mkUnit "unit_b2" "B2" apartment (Qc_of_Z 300) JOD) sample_data.
Proof.
  apply (X19_addUnit_index (fun _ => Qc_of_Z 300) (fun s => s)
           (mkUnitForm "B2" apartment "300" JOD) "b2" first_load_world);
    discriminate.
Defined.

Lemma X20_addTenant_eligibility_witness :
  tenantCount
    (tenants (app (snd (addTenant (fun s => s)
                          (mkTenantForm "Omar" "" "unit_a1" "2024-02-01" true)
                          "o1" first_load_world)))) "unit_a1"
  = S (tenantCount (tenants sample_data) "unit_a1").
Proof.
  apply (X20_addTenant_eligibility (fun s => s)
           (mkTenantForm "Omar" "" "unit_a1" "2024-02-01" true) "o1"
           first_load_world);
    discriminate.
Defined.

(** ** The rate endpoint *)

Lemma truthy_Some (o : option string) :
  truthy o = true <-> exists s, o = Some s /\ s <> EmptyString.
Proof.
  destruct o as [s|]; simpl.
  - rewrite negb_true_iff, String.eqb_neq. split.
    + intros H. by exists s.
    + by intros (s' & [= <-] & H).
  - split; [discriminate | by intros (s & H & _)].
Qed.

(** X21: the endpoint answers 401 exactly when a non-empty secret is
    configured and the authorization header is not ["Bearer "] followed
    by that secret; it then does not call the provider.  Without a
    configured secret no request is refused, whatever its header. *)
Theorem X21_route_secret_gate
    (env : RouteEnv) (authorization : option string) (provider : HttpAnswer) :
  (status (fst (GET env authorization provider)) = 401%nat
   <-> exists secret,
         CRON_SECRET env = Some secret /\ secret <> EmptyString
         /\ str_or authorization "" <> "Bearer " +:+ secret)
  /\ (status (fst (GET env authorization provider)) = 401%nat ->
      GET env authorization provider
      = (mkRouteResponse 401 (JsonError "unauthorized"), false))
  /\ (truthy (CRON_SECRET env) = false ->
      status (fst (GET env authorization provider)) <> 401%nat).
Proof.
  assert (Hauth : str_or authorization (str_or authorization "")
                  = str_or authorization "").
  { destruct authorization as [a|]; [|reflexivity]. simpl.
    by destruct (String.eqb a ""). }
  unfold GET. rewrite Hauth. destruct env as [[secret|] key]; cbn [CRON_SECRET CURRENCYAPI_KEY truthy].
  - destruct (String.eqb_spec secret "") as [->|Hs]; cbn [negb].
    + split; [|split].
      * split.
        -- destruct (truthy key); [destruct provider as [|? []]|]; discriminate.
        -- intros (s & [= <-] & Hne & _). by destruct Hne.
      * destruct (truthy key); [destruct provider as [|? []]|]; discriminate.
      * intros _. destruct (truthy key); [destruct provider as [|? []]|]; discriminate.
    + destruct (String.eqb_spec (str_or authorization "") ("Bearer " +:+ secret))
        as [Heq|Hneq]; cbn [negb].
      * split; [|split].
        -- split.
           ++ destruct (truthy key); [destruct provider as [|? []]|]; discriminate.
           ++ intros (s & [= <-] & _ & Hd). by destruct Hd.
        -- destruct (truthy key); [destruct provider as [|? []]|]; discriminate.
        -- discriminate.
      * split; [|split].
        -- split; [|reflexivity]. intros _. by exists secret.
        -- reflexivity.
        -- discriminate.
  - split; [|split].
    + split.
      * destruct (truthy key); [destruct provider as [|? []]|]; discriminate.
      * intros (s & [=] & _).
    + destruct (truthy key); [destruct provider as [|? []]|]; discriminate.
    + intros _. destruct (truthy key); [destruct provider as [|? []]|]; discriminate.
Qed.

(** X22: the endpoint answers with one of the codes 200, 400, 401 and
    500; it answers 200, with the rate found in the body, exactly when
    the provider was called and its body held a rate, whether or not the
    provider's response was [ok]; and it calls the provider exactly when
    it answers neither 401 nor 400. *)
Theorem X22_route_outcomes
    (env : RouteEnv) (authorization : option string) (provider : HttpAnswer) :
  In (status (fst (GET env authorization provider))) [200; 400; 401; 500]%nat
  /\ (forall r,
        fst (GET env authorization provider) = mkRouteResponse 200 (JsonRate r)
        <-> snd (GET env authorization provider) = true
            /\ exists ok, provider = Answer ok (BodyRate r))
  /\ (forall r, json (fst (GET env authorization provider)) = JsonRate r ->
        status (fst (GET env authorization provider)) = 200%nat)
  /\ (snd (GET env authorization provider) = true
      <-> status (fst (GET env authorization provider)) <> 401%nat
          /\ status (fst (GET env authorization provider)) <> 400%nat)
  /\ (status (fst (GET env authorization provider)) = 400%nat
      <-> status (fst (GET env authorization provider)) <> 401%nat
          /\ truthy (CURRENCYAPI_KEY env) = false).
Proof.
  unfold GET.
  destruct (match CRON_SECRET env with Some _ => _ | None => _ end);
    [|destruct (truthy (CURRENCYAPI_KEY env)); [destruct provider as [m|ok [m|r0|]]|]];
    cbn [fst snd status json negb];
    (split; [simpl; tauto|]);
    repeat split; try discriminate; try reflexivity;
    try (intros; destruct_and?; destruct_or?; simplify_eq; by eauto);
    intros [_ [ok' Heq]]; simplify_eq; reflexivity.
Qed.

(** X23: on one and the same provider answer the endpoint and the
    client-side [fetchJodIlsRate] agree whenever the client obtains a
    rate, but they part on a response that is not [ok] and yet carries a
    rate: the client throws, the endpoint (once it calls the provider)
    answers 200 with that rate. *)
Theorem X23_route_accepts_what_client_refuses
    (env : RouteEnv) (authorization : option string) (provider : HttpAnswer)
    (w : World) :
  env_rate_key w = true ->
  rate_response w = asRateResponse provider ->
  (forall r, fst (fetchJodIlsRate w) = Ok r <-> provider = Answer true (BodyRate r))
  /\ (forall r, fst (fetchJodIlsRate w) = Ok r ->
        snd (GET env authorization provider) = true ->
        fst (GET env authorization provider) = mkRouteResponse 200 (JsonRate r))
  /\ (forall r, provider = Answer false (BodyRate r) ->
        fst (fetchJodIlsRate w) = Throw RateFetchFailed
        /\ (snd (GET env authorization provider) = true ->
            fst (GET env authorization provider) = mkRouteResponse 200 (JsonRate r))).
Proof.
  intros Hkey Hresp.
  assert (Hroute : forall ok r, provider = Answer ok (BodyRate r) ->
            snd (GET env authorization provider) = true ->
            fst (GET env authorization provider) = mkRouteResponse 200 (JsonRate r)).
  { intros ok r -> . unfold GET.
    destruct (match CRON_SECRET env with Some _ => _ | None => _ end);
      [discriminate|].
    destruct (truthy (CURRENCYAPI_KEY env)); [reflexivity | discriminate]. }
  assert (Hcl : forall r, fst (fetchJodIlsRate w) = Ok r
                          <-> provider = Answer true (BodyRate r)).
  { intros r. unfold fetchJodIlsRate. rewrite Hkey, Hresp. cbn [negb].
    destruct provider as [m|[] [m|r0|]]; cbn [asRateResponse fst];
      split; intros H; try discriminate H; by simplify_eq. }
  split; [exact Hcl|]. split.
  - intros r Hr. apply Hcl in Hr. by apply (Hroute true).
  - intros r Hp. split; [|by apply (Hroute false)].
    unfold fetchJodIlsRate. rewrite Hkey, Hresp, Hp. reflexivity.
Qed.

Lemma X23_route_accepts_what_client_refuses_witness :
  fst (fetchJodIlsRate
         (mkWorld true true (Some "owner-1") (fun _ => None) [] true RespNotOk 0
            ∅ sample_data))
  = Throw RateFetchFailed
  /\ fst (GET (mkRouteEnv None (Some "key")) None (Answer false (BodyRate (Qc_of_Z 5))))
     = mkRouteResponse 200 (JsonRate (Qc_of_Z 5)).
Proof.
  destruct (proj2 (proj2 (X23_route_accepts_what_client_refuses
                            (mkRouteEnv None (Some "key")) None
                            (Answer false (BodyRate (Qc_of_Z 5)))
                            (mkWorld true true (Some "owner-1") (fun _ => None) []
                               true RespNotOk 0 ∅ sample_data)
                            eq_refl eq_refl))
              (Qc_of_Z 5) eq_refl) as [H1 H2].
  split; [exact H1 | exact (H2 eq_refl)].
Defined.

(** ** The initial load *)

Lemma persistEffect_client (stringify : AppData -> string) (st : Storage) (w : World) :
  app (persistEffect stringify st w) = app w
  /\ sent (persistEffect stringify st w) = sent w
  /\ auth_user (persistEffect stringify st w) = auth_user w
  /\ cached (persistEffect stringify st w) = cached w
  /\ env_supabase (persistEffect stringify st w) = env_supabase w.
Proof. unfold persistEffect. by destruct (canWrite st). Qed.

(** What the fallback finds under the key: the state persisted at the
    start if the storage took the write, else what was there before. *)
Lemma persistEffect_data (stringify : AppData -> string) (st : Storage) (w : World) :
  localStorage (persistEffect stringify st w) !! data_key
  = match st with
    | StorageWorks => Some (stringify (app w))
    | _ => localStorage w !! data_key
    end.
Proof.
  unfold persistEffect. destruct st; cbn [canWrite]; try reflexivity.
  cbn [localStorage set_localStorage]. by rewrite lookup_insert_eq.
Qed.

(** The fallback branch of the load, on a world in which the state was
    persisted at the start. *)
Lemma load_fallback (stringify : AppData -> string)
    (parseData : string -> option AppData) (st : Storage) (w w1 : World) :
  stringify (app w) <> "" ->
  parseData (stringify (app w)) = Some (app w) ->
  app w1 = app w -> sent w1 = sent w ->
  localStorage w1 = localStorage (persistEffect stringify st w) ->
  forall r : Result unit * World,
  r = (if negb (canRead st) then (Ok tt, w1)
       else
         match localStorage w1 !! data_key with
         | Some raw =>
             if String.eqb raw "" then (Ok tt, w1)
             else match parseData raw with
                  | Some d => (Ok tt, persistEffect stringify st
                                        (set_app ((fun _ => d) (app w1)) w1))
                  | None => (Ok tt, w1)
                  end
         | None => (Ok tt, w1)
         end) ->
  fst r = Ok tt
  /\ sent (snd r) = sent w
  /\ app (snd r) = match st with
                   | StorageFull => cachedOr parseData (localStorage w) (app w)
                   | _ => app w
                   end
  /\ localStorage (snd r) !! data_key
     = match st with
       | StorageWorks => Some (stringify (app w))
       | _ => localStorage w !! data_key
       end.
Proof.
  intros Hne Hparse Happ Hsent Hls r ->.
  pose proof (persistEffect_data stringify st w) as Hd. rewrite <- Hls in Hd.
  destruct st; cbn [canRead canWrite negb] in *.
  - rewrite Hd. apply String.eqb_neq in Hne. rewrite Hne, Hparse.
    cbn [fst snd]. unfold persistEffect. cbn [canWrite app sent set_app
      set_localStorage localStorage].
    rewrite lookup_insert_eq. by repeat split.
  - unfold cachedOr. rewrite Hd.
    destruct (localStorage w !! data_key) as [raw|] eqn:E;
      [|cbn [fst snd]; try rewrite E; by repeat split].
    destruct (String.eqb raw ""); [cbn [fst snd]; try rewrite E; by repeat split|].
    destruct (parseData raw) as [d|]; cbn [fst snd];
      [|try rewrite E; by repeat split].
    unfold persistEffect. cbn [canWrite app sent set_app localStorage].
    rewrite Hd. by repeat split.
  - cbn [fst snd]. by repeat split.
Qed.

(** X24: opened without an identity (the store client being at hand),
    the page ends with its five collections empty and its settings kept:
    the read answers with empty lists instead of failing, so the local
    copy is not consulted and nothing is asked of the store. *)
Theorem X24_signed_out_load_empties
    (store : string -> StoreReads) (stringify : AppData -> string)
    (parseData : string -> option AppData) (st : Storage) (w : World) :
  identity w = None ->
  cached w || env_supabase w = true ->
  exists w',
    loadData store stringify parseData st w = (Ok tt, w')
    /\ app w' = mkAppData (settings (app w)) [] [] [] [] []
    /\ sent w' = sent w
    /\ fst (dbFetchAll store w) = Ok emptyResult.
Proof.
  intros Hid Hcl.
  destruct w as [env c au ans snt key resp calls ls ap].
  unfold identity in Hid. world_simpl.
  unfold loadData, persistEffect, dbFetchAll, currentUserIdOrNull, bind,
    getCurrentUserId, bind, getSupabaseClient, setData, ret, set_cached, set_app,
    set_localStorage.
  destruct st; cbn [canWrite]; world_simpl.
  all: destruct c; world_simpl;
    [|subst env; world_simpl];
    (destruct au as [id|]; [destruct (String.eqb id ""); [|discriminate]|];
     world_simpl; eexists; repeat split).
Qed.

Lemma X24_signed_out_load_empties_witness :
  exists w',
    loadData (fun _ => mkStoreReads (mkQuery None None) (mkQuery None None)
                         (mkQuery None None) (mkQuery None None)
                         (mkQuery None None) (mkQuery None None))
      (fun _ => "state") (fun _ => Some shop_data) StorageWorks signed_out_world
    = (Ok tt, w')
    /\ app w' = mkAppData sample_settings [] [] [] [] [].
Proof.
  destruct (X24_signed_out_load_empties
              (fun _ => mkStoreReads (mkQuery None None) (mkQuery None None)
                          (mkQuery None None) (mkQuery None None)
                          (mkQuery None None) (mkQuery None None))
              (fun _ => "state") (fun _ => Some shop_data) StorageWorks
              signed_out_world eq_refl eq_refl)
    as (w' & Hrun & Happ & _).
  exists w'. split; [exact Hrun | exact Happ].
Defined.

(** X25: when the store client can be neither reused nor built, the
    load never throws and asks nothing of the store.  The page has by
    then persisted the state it started with, so, that text being
    non-empty and read back as the state it was made from, the fallback
    finds the state of this very load under the key and the page state
    stays as it was: the copy of an earlier visit is not restored.  Only
    when the storage refuses the write but allows the read does the page
    state become that earlier copy, if there is a non-empty text under
    the key and it parses; and a storage that allows nothing leaves the
    state as it was. *)
Theorem X25_load_without_client
    (store : string -> StoreReads) (stringify : AppData -> string)
    (parseData : string -> option AppData) (st : Storage) (w : World) :
  cached w = false ->
  env_supabase w = false ->
  stringify (app w) <> "" ->
  parseData (stringify (app w)) = Some (app w) ->
  fst (loadData store stringify parseData st w) = Ok tt
  /\ sent (snd (loadData store stringify parseData st w)) = sent w
  /\ app (snd (loadData store stringify parseData st w))
     = match st with
       | StorageFull => cachedOr parseData (localStorage w) (app w)
       | _ => app w
       end
  /\ localStorage (snd (loadData store stringify parseData st w)) !! data_key
     = match st with
       | StorageWorks => Some (stringify (app w))
       | _ => localStorage w !! data_key
       end.
Proof.
  intros Hc He Hne Hparse.
  destruct (persistEffect_client stringify st w) as (Ha & Hs & _ & Hc' & He').
  apply (load_fallback stringify parseData st w (persistEffect stringify st w)
           Hne Hparse Ha Hs eq_refl).
  unfold loadData, dbFetchAll, bind at 1, getSupabaseClient.
  rewrite Hc', He', Hc, He. reflexivity.
Qed.

Lemma X25_load_without_client_witness :
  app (snd (loadData
              (fun _ => mkStoreReads (mkQuery None None) (mkQuery None None)
                          (mkQuery None None) (mkQuery None None)
                          (mkQuery None None) (mkQuery None None))
              (fun _ => "state")
              (fun raw => if String.eqb raw "state" then Some sample_data
                          else Some shop_data)
              StorageWorks
              (mkWorld false false None (fun _ => None) [] true
                 (RespRate (Qc_of_Z 5)) 0 {[ data_key := "copy" ]} sample_data)))
  = sample_data
  /\ app (snd (loadData
                 (fun _ => mkStoreReads (mkQuery None None) (mkQuery None None)
                             (mkQuery None None) (mkQuery None None)
                             (mkQuery None None) (mkQuery None None))
                 (fun _ => "state")
                 (fun raw => if String.eqb raw "state" then Some sample_data
                             else Some shop_data)
                 StorageFull
                 (mkWorld false false None (fun _ => None) [] true
                    (RespRate (Qc_of_Z 5)) 0 {[ data_key := "copy" ]} sample_data)))
     = shop_data.
Proof.
  split.
  - exact (proj1 (proj2 (proj2
             (X25_load_without_client
                (fun _ => mkStoreReads (mkQuery None None) (mkQuery None None)
                            (mkQuery None None) (mkQuery None None)
                            (mkQuery None None) (mkQuery None None))
                (fun _ => "state")
                (fun raw => if String.eqb raw "state" then Some sample_data
                            else Some shop_data)
                StorageWorks
                (mkWorld false false None (fun _ => None) [] true
                   (RespRate (Qc_of_Z 5)) 0 {[ data_key := "copy" ]} sample_data)
                eq_refl eq_refl ltac:(discriminate) eq_refl)))).
  - exact (proj1 (proj2 (proj2
             (X25_load_without_client
                (fun _ => mkStoreReads (mkQuery None None) (mkQuery None None)
                            (mkQuery None None) (mkQuery None None)
                            (mkQuery None None) (mkQuery None None))
                (fun _ => "state")
                (fun raw => if String.eqb raw "state" then Some sample_data
                            else Some shop_data)
                StorageFull
                (mkWorld false false None (fun _ => None) [] true
                   (RespRate (Qc_of_Z 5)) 0 {[ data_key := "copy" ]} sample_data)
                eq_refl eq_refl ltac:(discriminate) eq_refl)))).
Defined.

Lemma dbFetchAll_identity (store : string -> StoreReads) (w : World) (owner : string) :
  identity w = Some owner ->
  cached w || env_supabase w = true ->
  dbFetchAll store w
  = (match firstError (store owner) with
     | Some msg => Throw (StoreError msg)
     | None => Ok (resultOf (store owner))
     end, set_cached true w).
Proof.
  intros Hid Hcl. apply identity_Some in Hid as [Ha Hne].
  destruct w as [env c au ans snt key resp calls ls ap]. world_simpl. subst au.
  unfold dbFetchAll, currentUserIdOrNull, bind, getCurrentUserId, bind,
    getSupabaseClient, throwIfError, throw, ret, firstError, resultOf, set_cached.
  world_simpl.
  assert (Hc : (if c then true else env) = true) by (by destruct c).
  destruct c; world_simpl.
  - rewrite Hne. world_simpl. rewrite Hne.
    destruct (q_error (rd_settings (store owner))); [reflexivity|].
    destruct (q_error (rd_units (store owner))); [reflexivity|].
    destruct (q_error (rd_tenants (store owner))); [reflexivity|].
    destruct (q_error (rd_utilities (store owner))); [reflexivity|].
    destruct (q_error (rd_invoices (store owner))); [reflexivity|].
    destruct (q_error (rd_payments (store owner))); reflexivity.
  - subst env. world_simpl. rewrite Hne. world_simpl. rewrite Hne.
    destruct (q_error (rd_settings (store owner))); [reflexivity|].
    destruct (q_error (rd_units (store owner))); [reflexivity|].
    destruct (q_error (rd_tenants (store owner))); [reflexivity|].
    destruct (q_error (rd_utilities (store owner))); [reflexivity|].
    destruct (q_error (rd_invoices (store owner))); [reflexivity|].
    destruct (q_error (rd_payments (store owner))); reflexivity.
Qed.

Lemma orNull_not_empty (o : option string) : orNull o <> Some "".
Proof.
  destruct o as [s|]; [|discriminate]. unfold orNull, nonEmpty.
  destruct (String.eqb_spec s ""); [discriminate|]. intros H. by injection H.
Qed.

(** X26: with an identity and a client, the read throws the first
    error among the six answers (settings, units, tenants, utilities,
    invoices, payments, in that order) and otherwise returns their rows.
    The load never throws and sends no write.  Without an error the page
    state is made of the rows: the settings row, or the former settings
    when there is none; the units, charges and invoices as they came, a
    missing list counting as empty; each tenant with its fields and each
    payment with its fields, an empty phone, period or note text being
    read as a missing one, so that no tenant of the page state has an
    empty phone and no payment an empty period or note.  On an error the
    page falls back on the local copy, which is by then the state it had
    persisted at the start (the persisted text being non-empty and read
    back as that state), so the page state stays as it was; the copy of
    an earlier visit is restored only when the storage refuses the write
    but allows the read. *)
Theorem X26_load_with_identity
    (store : string -> StoreReads) (stringify : AppData -> string)
    (parseData : string -> option AppData) (st : Storage)
    (w : World) (owner : string) :
  identity w = Some owner ->
  cached w || env_supabase w = true ->
  stringify (app w) <> "" ->
  parseData (stringify (app w)) = Some (app w) ->
  fst (dbFetchAll store w)
  = match firstError (store owner) with
    | Some msg => Throw (StoreError msg)
    | None => Ok (resultOf (store owner))
    end
  /\ fst (loadData store stringify parseData st w) = Ok tt
  /\ sent (snd (loadData store stringify parseData st w)) = sent w
  /\ match firstError (store owner) with
     | Some _ =>
         app (snd (loadData store stringify parseData st w))
         = match st with
           | StorageFull => cachedOr parseData (localStorage w) (app w)
           | _ => app w
           end
     | None =>
         settings (app (snd (loadData store stringify parseData st w)))
         = default (settings (app w)) (q_data (rd_settings (store owner)))
         /\ units (app (snd (loadData store stringify parseData st w)))
            = default [] (q_data (rd_units (store owner)))
         /\ tenants (app (snd (loadData store stringify parseData st w)))
            = map (fun row =>
                     mkTenant (tenant_id row) (tenant_name row)
                       (match phone row with
                        | Some s => if String.eqb s "" then None else Some s
                        | None => None
                        end)
                       (tenant_unitId row) (startDate row) (active row))
                (default [] (q_data (rd_tenants (store owner))))
         /\ utilities (app (snd (loadData store stringify parseData st w)))
            = default [] (q_data (rd_utilities (store owner)))
         /\ invoices (app (snd (loadData store stringify parseData st w)))
            = default [] (q_data (rd_invoices (store owner)))
         /\ payments (app (snd (loadData store stringify parseData st w)))
            = map (fun row =>
                     mkPayment (pay_id row) (pay_tenantId row) (pay_unitId row)
                       (pay_date row) (pay_amount row) (pay_currency row)
                       (match pay_period row with
                        | Some s => if String.eqb s "" then None else Some s
                        | None => None
                        end)
                       (match pay_note row with
                        | Some s => if String.eqb s "" then None else Some s
                        | None => None
                        end))
                (default [] (q_data (rd_payments (store owner))))
         /\ (forall t,
               In t (tenants (app (snd (loadData store stringify parseData st w)))) ->
               phone t <> Some "")
         /\ (forall p,
               In p (payments (app (snd (loadData store stringify parseData st w)))) ->
               pay_period p <> Some "" /\ pay_note p <> Some "")
     end.
Proof.
  intros Hid Hcl Hne Hparse.
  split; [by rewrite (dbFetchAll_identity store w owner Hid Hcl)|].
  destruct (persistEffect_client stringify st w) as (Ha & Hs & Hau & Hc' & He').
  assert (Hid' : identity (persistEffect stringify st w) = Some owner)
    by (unfold identity in *; by rewrite Hau).
  assert (Hcl' : cached (persistEffect stringify st w)
                 || env_supabase (persistEffect stringify st w) = true)
    by (by rewrite Hc', He').
  assert (Hload : loadData store stringify parseData st w
    = let w0 := persistEffect stringify st w in
      match firstError (store owner) with
      | Some _ =>
          if negb (canRead st) then (Ok tt, set_cached true w0)
          else
            match localStorage (set_cached true w0) !! data_key with
            | Some raw =>
                if String.eqb raw "" then (Ok tt, set_cached true w0)
                else match parseData raw with
                     | Some d =>
                         (Ok tt, persistEffect stringify st
                                   (set_app ((fun _ => d) (app (set_cached true w0)))
                                      (set_cached true w0)))
                     | None => (Ok tt, set_cached true w0)
                     end
            | None => (Ok tt, set_cached true w0)
            end
      | None =>
          (Ok tt, persistEffect stringify st
                    (set_app (applyFetched (resultOf (store owner))
                                (app (set_cached true w0)))
                       (set_cached true w0)))
      end).
  { unfold loadData.
    rewrite (dbFetchAll_identity store _ owner Hid' Hcl').
    by destruct (firstError (store owner)). }
  cbv zeta in Hload.
  destruct (firstError (store owner)) as [msg|].
  - destruct (load_fallback stringify parseData st w
                (set_cached true (persistEffect stringify st w))
                Hne Hparse Ha Hs eq_refl _ Hload) as (H1 & H2 & H3 & _).
    by repeat split.
  - rewrite Hload. cbn [fst snd].
    destruct (persistEffect_client stringify st
                (set_app (applyFetched (resultOf (store owner))
                            (app (set_cached true (persistEffect stringify st w))))
                   (set_cached true (persistEffect stringify st w))))
      as (Ha2 & Hs2 & _).
    rewrite Ha2, Hs2. cbn [app sent set_app set_cached]. rewrite Ha, Hs.
    split; [reflexivity|]. split; [reflexivity|].
    unfold applyFetched, resultOf.
    cbn [settings units tenants utilities invoices payments
         fa_settings fa_units fa_tenants fa_utilities fa_invoices fa_payments].
    split; [by destruct (q_data (rd_settings (store owner)))|].
    split; [reflexivity|]. split; [reflexivity|]. split; [reflexivity|].
    split; [reflexivity|]. split; [reflexivity|]. split.
    + intros t Ht. apply in_map_iff in Ht as (row & <- & _).
      apply orNull_not_empty.
    + intros p Hp. apply in_map_iff in Hp as (row & <- & _).
      split; apply orNull_not_empty.
Qed.

Lemma X26_load_with_identity_witness :
  tenants
    (app (snd (loadData
                 (fun _ => mkStoreReads (mkQuery None None)
                             (mkQuery (Some [shop_unit]) None)
                             (mkQuery (Some [mkTenant "tenant_k1" "Karim" (Some "")
                                               "unit_s1" "2023-06-01" true]) None)
                             (mkQuery None None) (mkQuery None None)
                             (mkQuery None None))
                 (fun _ => "state") (fun _ => Some sample_data) StorageWorks
                 first_load_world)))
  = [mkTenant "tenant_k1" "Karim" None "unit_s1" "2023-06-01" true]
  /\ app (snd (loadData
                 (fun _ => mkStoreReads (mkQuery None (Some "down"))
                             (mkQuery (Some [shop_unit]) None)
                             (mkQuery None None)
                             (mkQuery None None) (mkQuery None None)
                             (mkQuery None None))
                 (fun _ => "state") (fun _ => Some sample_data) StorageWorks
                 first_load_world))
     = sample_data.
Proof.
  split.
  - exact (proj1 (proj2 (proj2 (proj2 (proj2 (proj2
             (X26_load_with_identity
                (fun _ => mkStoreReads (mkQuery None None)
                            (mkQuery (Some [shop_unit]) None)
                            (mkQuery (Some [mkTenant "tenant_k1" "Karim" (Some "")
                                              "unit_s1" "2023-06-01" true]) None)
                            (mkQuery None None) (mkQuery None None)
                            (mkQuery None None))
                (fun _ => "state") (fun _ => Some sample_data) StorageWorks
                first_load_world "owner-1" eq_refl eq_refl
                ltac:(discriminate) eq_refl))))))).
  - exact (proj2 (proj2 (proj2
             (X26_load_with_identity
                (fun _ => mkStoreReads (mkQuery None (Some "down"))
                            (mkQuery (Some [shop_unit]) None)
                            (mkQuery None None)
                            (mkQuery None None) (mkQuery None None)
                            (mkQuery None None))
                (fun _ => "state") (fun _ => Some sample_data) StorageWorks
                first_load_world "owner-1" eq_refl eq_refl
                ltac:(discriminate) eq_refl)))).
Defined.
